(** * GyanGuru: a shallow embedding of the utility modules and request handlers

  The development follows the layout of the repository:

  - [Py]               the Python built-ins the code relies on: str methods,
                       [re.match] for the two import patterns,
                       [os.path.join], [strftime];
  - [World]            the clock, the file system and the remote services,
                       and a state-and-exception monad over them;
  - [Json]             JSON values and dictionaries;
  - [CodeProcessor]    src/utils/code_utils.py;
  - [GeminiClient]     src/utils/gemini_utils.py;
  - [PyFloat]          float division and [round(x, 1)] on binary64;
  - [TextToSpeech]     src/utils/tts_utils.py;
  - [ImageGenerator]   src/utils/image_utils.py;
  - [App]              the JSON handlers of src/app.py.

  The modules after [App] hold the vocabulary of the statements and the
  concrete worlds of the examples; the properties follow.

  Text is a Rocq [string]; one [ascii] stands for one code point in the
  range U+0000..U+00FF, and the character classes below are the ones Python
  gives to these code points.  Result dictionaries are association lists in
  insertion order, as Python dicts are. *)

From Stdlib Require Import ZArith Ascii String List Bool Lia.
From Stdlib Require Import Floats.SpecFloat.
From stdpp Require Import base gmap sets list strings sorting.

Local Open Scope string_scope.

(* ===================================================================== *)
(** ** Python built-ins *)
(* ===================================================================== *)

Module Py.

Definition code (c : ascii) : N := N_of_ascii c.

Definition in_range (lo hi : N) (c : ascii) : bool :=
  (lo <=? code c)%N && (code c <=? hi)%N.

(** [str.isspace], which is also what [str.strip], [str.split] without
    arguments and the regular expression class [\s] use. *)
Definition isspace (c : ascii) : bool :=
  in_range 9 13 c || in_range 28 32 c
  || (code c =? 133)%N || (code c =? 160)%N.

Definition isdigit_ascii (c : ascii) : bool := in_range 48 57 c.

(** [str.isalnum] on U+0000..U+00FF. *)
Definition isalnum (c : ascii) : bool :=
  in_range 48 57 c || in_range 65 90 c || in_range 97 122 c
  || (code c =? 170)%N || (code c =? 178)%N || (code c =? 179)%N
  || (code c =? 181)%N || (code c =? 185)%N || (code c =? 186)%N
  || in_range 188 190 c || in_range 192 214 c || in_range 216 246 c
  || in_range 248 255 c.

(** The regular expression class [\w]: alphanumeric or underscore. *)
Definition isword (c : ascii) : bool :=
  isalnum c || (code c =? 95)%N.

(** [str.lower] on one code point of U+0000..U+00FF. *)
Definition lower_char (c : ascii) : ascii :=
  if in_range 65 90 c
     || (in_range 192 222 c && negb (code c =? 215)%N)
  then ascii_of_N (code c + 32) else c.

Fixpoint lower (s : string) : string :=
  match s with
  | "" => ""
  | String c s' => String (lower_char c) (lower s')
  end.

Fixpoint chars (s : string) : list ascii :=
  match s with
  | "" => []
  | String c s' => c :: chars s'
  end.

Fixpoint str_map (f : ascii -> ascii) (s : string) : string :=
  match s with
  | "" => ""
  | String c s' => String (f c) (str_map f s')
  end.

Fixpoint str_forall (p : ascii -> bool) (s : string) : bool :=
  match s with
  | "" => true
  | String c s' => p c && str_forall p s'
  end.

(** [s[:n]] for a non-negative [n]. *)
Fixpoint take (n : nat) (s : string) : string :=
  match n, s with
  | S n', String c s' => String c (take n' s')
  | _, _ => ""
  end.

(** [s[n:]] for a non-negative [n]. *)
Fixpoint drop (n : nat) (s : string) : string :=
  match n, s with
  | S n', String _ s' => drop n' s'
  | _, _ => s
  end.

(** [s[:-n]] for a positive [n]. *)
Definition drop_last (n : nat) (s : string) : string :=
  take (String.length s - n) s.

Fixpoint startswith (s p : string) : bool :=
  match p, s with
  | "", _ => true
  | String a p', String b s' => Ascii.eqb a b && startswith s' p'
  | _, "" => false
  end.

Definition endswith (s p : string) : bool :=
  (String.length p <=? String.length s)%nat
  && String.eqb (drop (String.length s - String.length p) s) p.

(** [p in s] for strings. *)
Fixpoint contains (p s : string) : bool :=
  startswith s p
  || match s with
     | "" => false
     | String _ s' => contains p s'
     end.

Fixpoint lstrip (s : string) : string :=
  match s with
  | "" => ""
  | String c s' => if isspace c then lstrip s' else s
  end.

Fixpoint rstrip (s : string) : string :=
  match s with
  | "" => ""
  | String c s' =>
      match rstrip s' with
      | "" => if isspace c then "" else String c ""
      | r => String c r
      end
  end.

Definition strip (s : string) : string := rstrip (lstrip s).

(** [sep.join(l)]. *)
Fixpoint join (sep : string) (l : list string) : string :=
  match l with
  | [] => ""
  | [x] => x
  | x :: l' => x ++ sep ++ join sep l'
  end.

(** [s.split(c)] for a one-character separator: never an empty list. *)
Fixpoint split_on (sep : ascii) (s : string) : list string :=
  match s with
  | "" => [""]
  | String c s' =>
      if Ascii.eqb c sep then "" :: split_on sep s'
      else match split_on sep s' with
           | [] => [String c ""]
           | w :: ws => String c w :: ws
           end
  end.

(** [s.split()]: the maximal runs of non-whitespace characters. *)
Fixpoint split_ws (s : string) : list string :=
  match s with
  | "" => []
  | String c s' =>
      if isspace c then split_ws s'
      else match s' with
           | "" => [String c ""]
           | String d _ =>
               if isspace d then String c "" :: split_ws s'
               else match split_ws s' with
                    | [] => [String c ""]
                    | w :: ws => String c w :: ws
                    end
           end
  end.

(** The longest prefix of characters satisfying [p], and the rest. *)
Fixpoint span (p : ascii -> bool) (s : string) : string * string :=
  match s with
  | "" => ("", "")
  | String c s' =>
      if p c then let '(a, b) := span p s' in (String c a, b)
      else ("", s)
  end.

(** [re.match('^' + kw + '\s+(\w+)', line)] and [match.group(1)]: the keyword,
    one or more whitespace characters, then the longest non-empty run of
    word characters, which is the group. *)
Definition match_keyword (kw line : string) : option string :=
  if startswith line kw then
    let '(ws, rest) := span isspace (drop (String.length kw) line) in
    match ws with
    | "" => None
    | _ => match fst (span isword rest) with
           | "" => None
           | m => Some m
           end
    end
  else None.

Definition nl : string := String "010"%char "".
Definition dq : string := String "034"%char "".
Definition bs : string := String "092"%char "".

Definition unlines (l : list string) : string := join nl l.

(** [os.path.join(a, b)] of posixpath, for two components. *)
Definition path_join (a b : string) : string :=
  if startswith b "/" then b
  else if String.eqb a "" then b
  else if endswith a "/" then a ++ b
  else a ++ "/" ++ b.

(** The part of [s] after the last [c], when [c] occurs. *)
Fixpoint after_last (c : ascii) (s : string) : option string :=
  match s with
  | "" => None
  | String a s' =>
      match after_last c s' with
      | Some r => Some r
      | None => if Ascii.eqb a c then Some s' else None
      end
  end.

Fixpoint lstrip_dots (s : string) : string :=
  match s with
  | "" => ""
  | String c s' => if Ascii.eqb c "."%char then lstrip_dots s' else s
  end.

(** [os.path.splitext(p)[1]] of posixpath: the extension of the last
    component, from its last dot on; the leading dots of the component do
    not count. *)
Definition splitext_ext (p : string) : string :=
  let name := default p (after_last "/"%char p) in
  match after_last "."%char (lstrip_dots name) with
  | Some e => String "."%char e
  | None => ""
  end.

(** *** Decimal output *)

Definition digit (n : nat) : ascii := ascii_of_nat (48 + n mod 10).

Fixpoint digits_fuel (fuel n : nat) (acc : string) : string :=
  match fuel with
  | O => acc
  | S f =>
      let acc' := String (digit n) acc in
      if (n <? 10)%nat then acc' else digits_fuel f (n / 10) acc'
  end.

(** [str(n)] for a non-negative integer. *)
Definition str_of_nat (n : nat) : string := digits_fuel (S n) n "".

Fixpoint zeros (k : nat) : string :=
  match k with O => "" | S k' => String "0"%char (zeros k') end.

(** ["%0<w>d"]: at least [w] digits, padded with zeros on the left. *)
Definition pad (w n : nat) : string :=
  let d := str_of_nat n in zeros (w - String.length d) ++ d.

Record datetime := {
  year : nat; month : nat; day : nat;
  hour : nat; minute : nat; second : nat
}.

(** [strftime("%Y%m%d_%H%M%S")], for the years from 1000 on. *)
Definition strftime_compact (t : datetime) : string :=
  pad 4 (year t) ++ pad 2 (month t) ++ pad 2 (day t) ++ "_"
  ++ pad 2 (hour t) ++ pad 2 (minute t) ++ pad 2 (second t).

(** [strftime("%Y-%m-%d %H:%M:%S")]. *)
Definition strftime_iso (t : datetime) : string :=
  pad 4 (year t) ++ "-" ++ pad 2 (month t) ++ "-" ++ pad 2 (day t) ++ " "
  ++ pad 2 (hour t) ++ ":" ++ pad 2 (minute t) ++ ":" ++ pad 2 (second t).

(** *** base64

    [base64.b64decode(s)] for a string [s], as [binascii.a2b_base64] does
    it when it does not validate: characters outside the alphabet are
    skipped, padding that completes a group of four ends the data. *)

Definition b64_value (c : ascii) : option N :=
  if in_range 65 90 c then Some (code c - 65)%N
  else if in_range 97 122 c then Some (code c - 71)%N
  else if in_range 48 57 c then Some (code c + 4)%N
  else if (code c =? 43)%N then Some 62%N
  else if (code c =? 47)%N then Some 63%N
  else None.

Definition string_of_rev (l : list ascii) : string :=
  fold_left (fun acc c => String c acc) l "".

Definition byte_of (n : N) : ascii := ascii_of_N (n mod 256).

Fixpoint a2b_base64 (s : string) (quad_pos : nat) (leftchar : N)
    (pads : nat) (out : list ascii) : string + string :=
  match s with
  | "" =>
      match quad_pos with
      | 0 => inr (string_of_rev out)
      | 1 =>
          inl ("Invalid base64-encoded string: number of data characters ("
               ++ str_of_nat (List.length out / 3 * 4 + 1)
               ++ ") cannot be 1 more than a multiple of 4")
      | _ => inl "Incorrect padding"
      end
  | String c s' =>
      if (code c =? 61)%N then
        if (2 <=? quad_pos)%nat then
          if (4 <=? quad_pos + S pads)%nat then inr (string_of_rev out)
          else a2b_base64 s' quad_pos leftchar (S pads) out
        else a2b_base64 s' quad_pos leftchar pads out
      else
        match b64_value c with
        | None => a2b_base64 s' quad_pos leftchar pads out
        | Some v =>
            match quad_pos with
            | 0 => a2b_base64 s' 1 v 0 out
            | 1 =>
                a2b_base64 s' 2 (N.land v 15) 0
                  (byte_of (N.lor (N.shiftl leftchar 2) (N.shiftr v 4)) :: out)
            | 2 =>
                a2b_base64 s' 3 (N.land v 3) 0
                  (byte_of (N.lor (N.shiftl leftchar 4) (N.shiftr v 2)) :: out)
            | _ =>
                a2b_base64 s' 0 0 0
                  (byte_of (N.lor (N.shiftl leftchar 6) v) :: out)
            end
        end
  end.

(** The result, or the message of the exception. *)
Definition base64_b64decode (s : string) : string + string :=
  if str_forall (fun c => (code c <? 128)%N) s then a2b_base64 s 0 0 0 []
  else inl "string argument should contain only ASCII characters".

End Py.

(* ===================================================================== *)
(** ** The world: clock, file system, remote services; exceptions *)
(* ===================================================================== *)

Module World.
Import Py.

(** An exception is kept as its message, which is all the code looks at
    ([str(e)]); every handler in the repository is [except Exception]. *)
Inductive exn := Exception (msg : string).

Definition str_exn (e : exn) : string := let 'Exception m := e in m.

(** The response of the image model.  [inline_data = None] stands for a part
    without the attribute or with a falsy one. *)
Record part := { inline_data : option string }.
Record candidate := { parts : list part }.
Record response := { candidates : list candidate }.

Record world := {
  (* the environment, never written *)
  clock : nat -> datetime;                       (* k-th [datetime.now()] *)
  open_error : string -> option string;          (* [open(path, 'w')] fails *)
  api_key : option string;                       (* GEMINI_API_KEY *)
  code_dir : string;
  image_dir : string;
  audio_dir : string;
  text_model : nat -> string -> exn + string;    (* k-th [generate_content] *)
  image_model : string -> exn + response;
  b64decode : string -> exn + string;
  pil_placeholder : string -> string -> string -> exn + string;
  gtts : string -> string -> bool -> exn + string;
  gtts_partial : string -> string -> bool -> option string;
  makedirs_error : string -> option string;      (* [os.makedirs] fails *)
  (* the state *)
  ticks : nat;                                   (* clock readings so far *)
  model_calls : nat;                             (* text model calls so far *)
  slept : list nat;                              (* [time.sleep] arguments *)
  stdout : list string;
  fs : gmap string string                        (* path to file content *)
}.

Definition upd (w : world) (ticks' model_calls' : nat) (slept' : list nat)
    (stdout' : list string) (fs' : gmap string string) : world :=
  {| clock := clock w; open_error := open_error w; api_key := api_key w;
     code_dir := code_dir w; image_dir := image_dir w;
     audio_dir := audio_dir w; text_model := text_model w;
     image_model := image_model w; b64decode := b64decode w;
     pil_placeholder := pil_placeholder w; gtts := gtts w;
     makedirs_error := makedirs_error w;
     gtts_partial := gtts_partial w;
     ticks := ticks'; model_calls := model_calls'; slept := slept';
     stdout := stdout'; fs := fs' |}.

(** Computations that read and write the world and may raise. *)
Definition M (A : Type) : Type := world -> (exn + A) * world.

Definition ret {A} (a : A) : M A := fun w => (inr a, w).

Definition bind {A B} (c : M A) (k : A -> M B) : M B :=
  fun w => match c w with
           | (inr a, w') => k a w'
           | (inl e, w') => (inl e, w')
           end.

Definition raise {A} (e : exn) : M A := fun w => (inl e, w).

(** [try: c except Exception as e: h e]. *)
Definition try_with {A} (c : M A) (h : exn -> M A) : M A :=
  fun w => match c w with
           | (inr a, w') => (inr a, w')
           | (inl e, w') => h e w'
           end.

Definition lift {A} (r : exn + A) : M A := fun w => (r, w).

Definition ask {A} (f : world -> A) : M A := fun w => (inr (f w), w).

(** [datetime.now()]. *)
Definition now : M datetime :=
  fun w => (inr (clock w (ticks w)),
            upd w (S (ticks w)) (model_calls w) (slept w) (stdout w) (fs w)).

(** [time.sleep(n)]. *)
Definition sleep (n : nat) : M unit :=
  fun w => (inr tt,
            upd w (ticks w) (model_calls w) (slept w ++ [n]) (stdout w) (fs w)).

(** [print(s)]. *)
Definition print (s : string) : M unit :=
  fun w => (inr tt,
            upd w (ticks w) (model_calls w) (slept w) (stdout w ++ [s]) (fs w)).

(** [with open(path, 'w') as f: f.write(content)], also for mode ['wb']. *)
Definition write_file (path content : string) : M unit :=
  fun w => match open_error w path with
           | Some msg => (inl (Exception msg), w)
           | None =>
               (inr tt, upd w (ticks w) (model_calls w) (slept w) (stdout w)
                            (<[path := content]> (fs w)))
           end.

(** [self.model.generate_content(prompt).text]. *)
Definition generate_content (prompt : string) : M string :=
  fun w => (text_model w (model_calls w) prompt,
            upd w (ticks w) (S (model_calls w)) (slept w) (stdout w) (fs w)).

(** The message of [IsADirectoryError]. *)
Definition is_a_directory (path : string) : string :=
  "[Errno 21] Is a directory: '" ++ path ++ "'".

(** The directories are the paths that [open(path, 'w')] refuses as
    such; [fs] holds the regular files. *)
Definition is_dir (w : world) (path : string) : bool :=
  match open_error w path with
  | Some msg => String.eqb msg (is_a_directory path)
  | None => false
  end.

(** [os.path.exists(path)]: a regular file or a directory. *)
Definition path_exists (path : string) : M bool :=
  fun w => (inr (bool_decide (is_Some (fs w !! path)) || is_dir w path), w).

(** [os.remove(path)]: removes a regular file, raises for a directory and
    for a path that does not exist. *)
Definition remove_file (path : string) : M unit :=
  fun w => match fs w !! path with
           | Some _ =>
               (inr tt, upd w (ticks w) (model_calls w) (slept w) (stdout w)
                            (delete path (fs w)))
           | None =>
               if is_dir w path
               then (inl (Exception (is_a_directory path)), w)
               else (inl (Exception ("[Errno 2] No such file or directory: '"
                                     ++ path ++ "'")), w)
           end.

(** [os.makedirs(path, exist_ok=True)]. *)
Definition makedirs (path : string) : M unit :=
  fun w => match makedirs_error w path with
           | Some msg => (inl (Exception msg), w)
           | None => (inr tt, w)
           end.

End World.

Declare Scope py_scope.
Delimit Scope py_scope with py.
Notation "x <- c ;; k" := (World.bind c (fun x => k))
(at level 100, c at next level, right associativity) : py_scope.
Notation "c ;;; k" := (World.bind c (fun _ => k))
(at level 100, right associativity) : py_scope.

(* ===================================================================== *)
(** ** JSON values and result dictionaries *)
(* ===================================================================== *)

Module Json.

Set Warnings "-register-all".

Inductive json :=
| JNull
| JBool (b : bool)
| JInt (n : Z)
| JFloat (f : spec_float)
| JStr (s : string)
| JList (l : list json)
| JDict (d : list (string * json)).

Set Warnings "register-all".

(** A Python dict with string keys, in insertion order. *)
Definition pydict := list (string * json).

(** [d.get(k)]. *)
Fixpoint dict_get (k : string) (d : pydict) : option json :=
  match d with
  | [] => None
  | (k', v) :: d' => if String.eqb k k' then Some v else dict_get k d'
  end.

(** [d.get(k, default)]. *)
Definition dict_get_default (k : string) (default : json) (d : pydict) : json :=
  match dict_get k d with Some v => v | None => default end.

(** Truthiness of a value ([if v], [if not v]). *)
Definition truthy (v : json) : bool :=
  match v with
  | JNull => false
  | JBool b => b
  | JInt n => negb (n =? 0)%Z
  | JFloat f => match f with S754_zero _ => false | _ => true end
  | JStr s => negb (String.eqb s "")
  | JList l => match l with [] => false | _ => true end
  | JDict d => match d with [] => false | _ => true end
  end.

(** [v == s] for a string [s]: only an equal string compares equal. *)
Definition eq_str (v : json) (s : string) : bool :=
  match v with
  | JStr s' => String.eqb s' s
  | _ => false
  end.

(** [v in l] for a list [l] of strings. *)
Definition in_strs (v : json) (l : list string) : bool :=
  existsb (eq_str v) l.

Definition type_name (v : json) : string :=
  match v with
  | JNull => "NoneType"
  | JBool _ => "bool"
  | JInt _ => "int"
  | JFloat _ => "float"
  | JStr _ => "str"
  | JList _ => "list"
  | JDict _ => "dict"
  end.

Definition strs (l : list string) : json := JList (JStr <$> l).

(** The strings of a list of strings. *)
Definition str_list (v : json) : list string :=
  match v with
  | JList l => omap (fun x => match x with JStr s => Some s | _ => None end) l
  | _ => []
  end.

End Json.

(* ===================================================================== *)
(** ** src/utils/code_utils.py *)
(* ===================================================================== *)

Module CodeProcessor.
Import Py World Json.
Local Open Scope py_scope.

Definition KNOWN_PACKAGES : gmap string string :=
  list_to_map
    [ ("numpy", "numpy"); ("np", "numpy");
      ("pandas", "pandas"); ("pd", "pandas");
      ("matplotlib", "matplotlib"); ("plt", "matplotlib");
      ("seaborn", "seaborn"); ("sns", "seaborn");
      ("sklearn", "scikit-learn");
      ("tensorflow", "tensorflow"); ("tf", "tensorflow");
      ("keras", "keras"); ("torch", "torch");
      ("cv2", "opencv-python"); ("PIL", "Pillow");
      ("scipy", "scipy"); ("xgboost", "xgboost");
      ("lightgbm", "lightgbm"); ("nltk", "nltk"); ("spacy", "spacy");
      ("transformers", "transformers"); ("datasets", "datasets");
      ("tqdm", "tqdm"); ("requests", "requests");
      ("bs4", "beautifulsoup4"); ("networkx", "networkx") ].

Definition stdlib_modules : gset string :=
  list_to_set
    [ "os"; "sys"; "math"; "random"; "time"; "datetime"; "json";
      "collections"; "itertools"; "functools"; "typing"; "re";
      "copy"; "pickle"; "csv"; "io"; "string"; "textwrap";
      "struct"; "codecs"; "unicodedata"; "warnings"; "logging";
      "abc"; "contextlib"; "pathlib"; "tempfile"; "shutil";
      "argparse"; "configparser"; "hashlib"; "secrets";
      "threading"; "multiprocessing"; "queue"; "asyncio";
      "unittest"; "doctest"; "pdb"; "timeit"; "statistics";
      "dataclasses"; "enum"; "numbers"; "decimal"; "fractions" ].

Definition _is_stdlib (module : string) : bool :=
  bool_decide (module ∈ stdlib_modules).

(** The keywords of [import_patterns], in the order of the list. *)
Definition import_patterns : list string := ["import"; "from"].

(** The two sets of [detect_dependencies]: [imports] and [pip_packages]. *)
Definition acc : Type := gset string * gset string.

(** The body of the inner loop, for one pattern on one stripped line. *)
Definition scan_pattern (line : string) (a : acc) (pattern : string) : acc :=
  match match_keyword pattern line with
  | Some module =>
      let imports := {[ module ]} ∪ a.1 in
      match KNOWN_PACKAGES !! module with
      | Some pkg => (imports, {[ pkg ]} ∪ a.2)
      | None =>
          if negb (_is_stdlib module) then (imports, {[ module ]} ∪ a.2)
          else (imports, a.2)
      end
  | None => a
  end.

(** The body of the outer loop, for one line. *)
Definition scan_line (a : acc) (line : string) : acc :=
  foldl (scan_pattern (strip line)) a import_patterns.

Definition scan (code : string) : acc :=
  foldl scan_line (∅, ∅) (split_on "010"%char code).

(** [sorted(list(s))] for a set of strings. *)
Definition sorted (s : gset string) : list string :=
  merge_sort String.le (elements s).

Definition detect_dependencies (code : string) : pydict :=
  let '(imports, pip_packages) := scan code in
  [ ("imports", strs (sorted imports));
    ("pip_packages", strs (sorted pip_packages));
    ("install_command",
      if bool_decide (pip_packages = ∅) then JNull
      else JStr ("pip install " ++ join " " (sorted pip_packages))) ].

Definition colab_preinstalled : gset string :=
  list_to_set
    [ "numpy"; "pandas"; "matplotlib"; "seaborn";
      "scikit-learn"; "tensorflow"; "keras" ].

Definition _generate_colab_setup (packages : list string) : string :=
  match packages with
  | [] => "# No additional packages required - ready to run!"
  | _ =>
      let packages_to_install :=
        filter (fun p => p ∉ colab_preinstalled) packages in
      match packages_to_install with
      | [] => "# All required packages are pre-installed in Google Colab!"
      | _ =>
          unlines
            [ "# Run this cell first to install required packages";
              "!pip install " ++ join " " packages_to_install;
              "";
              "# Then run the main code below" ]
      end
  end.

Definition _generate_local_setup (packages : list string) : string :=
  match packages with
  | [] => "No additional packages required."
  | _ =>
      unlines
        [ "## Local Setup Instructions";
          "";
          "1. Create a virtual environment (recommended):";
          "   ```bash";
          "   python -m venv ml_env";
          "   source ml_env/bin/activate  # On Windows: ml_env" ++ bs
            ++ "Scripts" ++ bs ++ "activate";
          "   ```";
          "";
          "2. Install required packages:";
          "   ```bash";
          "   pip install " ++ join " " packages;
          "   ```";
          "";
          "3. Run the code:";
          "   ```bash";
          "   python your_script.py";
          "   ```" ]
  end.

Definition format_code_response (code topic complexity : string) : pydict :=
  let dependencies := detect_dependencies code in
  let pip_packages :=
    str_list (dict_get_default "pip_packages" JNull dependencies) in
  let colab_setup := _generate_colab_setup pip_packages in
  let local_setup := _generate_local_setup pip_packages in
  [ ("code", JStr code);
    ("topic", JStr topic);
    ("complexity", JStr complexity);
    ("dependencies", JDict dependencies);
    ("colab_setup", JStr colab_setup);
    ("local_setup", JStr local_setup);
    ("line_count", JInt (Z.of_nat (length (split_on "010"%char code)))) ].

(** [CodeProcessor()]: the constructor makes sure that the output
    directory exists. *)
Definition __init__ : M unit :=
  output_dir <- ask code_dir ;;
  makedirs output_dir.

(** ["".join(c if c.isalnum() else "_" for c in topic[:30])]. *)
Definition safe_topic (topic : string) : string :=
  str_map (fun c => if isalnum c then c else "_"%char) (take 30 topic).

Definition header (topic : string) (t : datetime) : string :=
  unlines
    [ dq ++ dq ++ dq;
      "Generated by GyanGuru - AI ML Learning Assistant";
      "Topic: " ++ topic;
      "Generated: " ++ strftime_iso t;
      dq ++ dq ++ dq;
      "";
      "" ].

(** [if not filename]: no filename, or an empty one. *)
Definition no_filename (filename : option string) : bool :=
  match filename with
  | None | Some "" => true
  | Some _ => false
  end.

Definition save_code_file (code topic : string) (filename : option string)
  : M pydict :=
  try_with
    (filename <-
       (if no_filename filename then
          t <- now ;;
          let timestamp := strftime_compact t in
          ret (safe_topic topic ++ "_" ++ timestamp ++ ".py")
        else ret (default "" filename)) ;;
     let filename :=
       if negb (endswith filename ".py") then filename ++ ".py"
       else filename in
     output_dir <- ask code_dir ;;
     let filepath := path_join output_dir filename in
     t <- now ;;
     write_file filepath (header topic t ++ code) ;;;
     ret [ ("success", JBool true);
           ("filepath", JStr filepath);
           ("filename", JStr filename);
           ("relative_path", JStr ("/static/generated/code/" ++ filename)) ])
    (fun e =>
       ret [ ("success", JBool false);
             ("error", JStr (str_exn e));
             ("filepath", JNull) ]).

End CodeProcessor.

(* ===================================================================== *)
(** ** src/utils/gemini_utils.py *)
(* ===================================================================== *)

Module GeminiClient.
Import Py World Json.
Local Open Scope py_scope.

(** [GeminiClient()]: the constructor fails without an API key. *)
Definition __init__ : M unit :=
  key <- ask api_key ;;
  match key with
  | None | Some "" =>
      raise (Exception
        "GEMINI_API_KEY not found. Set it in environment or pass directly.")
  | Some _ => ret tt
  end.

(** ["429" in str(e) or "quota" in str(e).lower()]. *)
Definition is_rate_limit (e : exn) : bool :=
  contains "429" (str_exn e) || contains "quota" (lower (str_exn e)).

(** The loop of [_retry_with_backoff] over the remaining attempts. *)
Fixpoint retry_loop {A} (func : M A) (attempts : list nat) : M A :=
  match attempts with
  | [] => raise (Exception "Max retries exceeded for API call")
  | attempt :: rest =>
      try_with func
        (fun e =>
           if is_rate_limit e then
             let wait_time := 2 ^ attempt * 2 in
             sleep wait_time ;;;
             retry_loop func rest
           else raise e)
  end.

Definition _retry_with_backoff {A} (func : M A) (max_retries : nat) : M A :=
  retry_loop func (seq 0 max_retries).

(** The default of the [max_retries] argument. *)
Definition max_retries_default : nat := 3.

Definition depth_instructions : gmap string string :=
  list_to_map
    [ ("brief",
       "Provide a concise 2-3 paragraph explanation suitable for quick reference.");
      ("intermediate",
       "Provide a moderate explanation with key concepts, examples, and use cases in 4-6 paragraphs.");
      ("comprehensive",
       unlines
         [ "Provide an in-depth explanation covering:";
           "            1. Introduction and definition";
           "            2. Mathematical foundations (with LaTeX notation where appropriate)";
           "            3. How it works step-by-step";
           "            4. Key components/variants";
           "            5. Practical applications";
           "            6. Advantages and limitations";
           "            7. Related concepts" ]) ].

(** [d.get(k, d[default_key])] for the instruction tables. *)
Definition instruction (d : gmap string string) (k default_key : string)
  : string :=
  default (default "" (d !! default_key)) (d !! k).

Definition text_prompt (topic depth : string) : string :=
  unlines
    [ "You are an expert Machine Learning educator. Generate a clear, educational explanation about:";
      "";
      "**Topic:** " ++ topic;
      "";
      "**Depth Level:** " ++ depth;
      instruction depth_instructions depth "comprehensive";
      "";
      "Format your response in clean Markdown with:";
      "- Clear section headers using ##";
      "- Code snippets where relevant (use ```python)";
      "- Mathematical expressions where appropriate";
      "- Bullet points for lists";
      "- Bold for key terms";
      "";
      "Make the content accessible yet technically accurate. Use analogies where helpful." ].

Definition generate_text_explanation (topic depth : string) : M pydict :=
  let prompt := text_prompt topic depth in
  let generate := generate_content prompt in
  content <- _retry_with_backoff generate max_retries_default ;;
  ret [ ("topic", JStr topic);
        ("depth", JStr depth);
        ("content", JStr content);
        ("success", JBool true) ].

Definition complexity_instructions : gmap string string :=
  list_to_map
    [ ("basic",
       "Simple implementation with minimal dependencies, focusing on core concept.");
      ("intermediate",
       "Complete implementation with proper structure, comments, and visualization.");
      ("advanced",
       "Production-ready code with error handling, optimization, and comprehensive documentation.") ].

Definition code_prompt (topic complexity : string) : string :=
  unlines
    [ "You are an expert Python developer specializing in Machine Learning. Generate working Python code for:";
      "";
      "**Topic:** " ++ topic;
      "";
      "**Complexity:** " ++ complexity;
      instruction complexity_instructions complexity "intermediate";
      "";
      "Requirements:";
      "1. Write complete, runnable Python code";
      "2. Include detailed comments explaining each section";
      "3. Add docstrings for functions/classes";
      "4. Include example usage with sample data";
      "5. Add visualization where appropriate (matplotlib/seaborn)";
      "6. Print meaningful output to demonstrate functionality";
      "";
      "Format:";
      "- Start with necessary imports";
      "- Include a main() function or if __name__ == " ++ dq ++ "__main__"
        ++ dq ++ ": block";
      "- Make code Google Colab compatible";
      "";
      "Return ONLY the Python code without any markdown formatting or explanation outside the code." ].

(** The clean-up of the response in [generate_code_example]. *)
Definition clean_code (code : string) : string :=
  let code := strip code in
  let code :=
    if startswith code "```python" then drop 9 code
    else if startswith code "```" then drop 3 code
    else code in
  let code := if endswith code "```" then drop_last 3 code else code in
  strip code.

Definition generate_code_example (topic complexity : string) : M pydict :=
  let prompt := code_prompt topic complexity in
  let generate := generate_content prompt in
  code <- _retry_with_backoff generate max_retries_default ;;
  let code := clean_code code in
  ret [ ("topic", JStr topic);
        ("complexity", JStr complexity);
        ("code", JStr code);
        ("success", JBool true) ].

Definition audio_prompt (topic : string) : string :=
  unlines
    [ "You are creating an educational audio lesson about Machine Learning. Generate a conversational, spoken explanation about:";
      "";
      "**Topic:** " ++ topic;
      "";
      "Requirements:";
      "1. Write as if speaking to a student - natural, conversational tone";
      "2. Avoid visual references (no " ++ dq ++ "as you can see" ++ dq
        ++ ", " ++ dq ++ "in the diagram" ++ dq ++ ")";
      "3. Use clear transitions between ideas";
      "4. Keep sentences moderate length for TTS clarity";
      "5. Include pauses by using periods appropriately";
      "6. Explain complex terms when first introduced";
      "7. Target length: 3-5 minutes of speaking time (roughly 500-800 words)";
      "";
      "Write ONLY the spoken script without stage directions or formatting." ].

Definition generate_audio_script (topic : string) : M pydict :=
  let prompt := audio_prompt topic in
  let generate := generate_content prompt in
  script <- _retry_with_backoff generate max_retries_default ;;
  ret [ ("topic", JStr topic);
        ("script", JStr (strip script));
        ("success", JBool true) ].

Definition type_instructions : gmap string string :=
  list_to_map
    [ ("architecture",
       "Create a clear system/neural network architecture diagram showing components and data flow.");
      ("flowchart",
       "Create a step-by-step flowchart showing the algorithm or process flow.");
      ("concept_map",
       "Create a concept map showing relationships between related ideas.");
      ("visualization",
       "Create a data visualization or mathematical illustration of the concept.") ].

Definition image_prompt_prompt (topic diagram_type : string) : string :=
  unlines
    [ "Create a detailed prompt for generating an educational diagram about:";
      "";
      "**Topic:** " ++ topic;
      "**Diagram Type:** " ++ diagram_type;
      "";
      instruction type_instructions diagram_type "architecture";
      "";
      "The prompt should describe:";
      "1. Layout and structure";
      "2. Key components to include";
      "3. Labels and annotations";
      "4. Color scheme (professional, educational style)";
      "5. Visual style (clean, modern, technical)";
      "";
      "Return a single detailed paragraph that can be used for image generation." ].

Definition generate_image_prompt (topic diagram_type : string) : M pydict :=
  let prompt := image_prompt_prompt topic diagram_type in
  let generate := generate_content prompt in
  image_prompt <- _retry_with_backoff generate max_retries_default ;;
  ret [ ("topic", JStr topic);
        ("diagram_type", JStr diagram_type);
        ("prompt", JStr (strip image_prompt));
        ("success", JBool true) ].

End GeminiClient.

(* ===================================================================== *)
(** ** Python floats: IEEE 754 binary64 *)
(* ===================================================================== *)

Module PyFloat.

Definition prec : Z := 53.
Definition emax : Z := 1024.

(** [a / b] for integers [a >= 0] and [b > 0]: the double nearest to the
    quotient (ties to even). *)
Definition truediv (a : nat) (b : positive) : spec_float :=
  match a with
  | O => S754_zero false
  | _ => SFdiv prec emax (S754_finite false (Pos.of_nat a) 0)
                         (S754_finite false b 0)
  end.

(** The integer nearest to [10 * m * 2^e] for [e < 0], ties to even. *)
Definition tenths (m : positive) (e : Z) : Z :=
  let num := (10 * Z.pos m)%Z in
  let den := (2 ^ (- e))%Z in
  let q := (num / den)%Z in
  let r := (num mod den)%Z in
  if (2 * r <? den)%Z then q
  else if (den <? 2 * r)%Z then (q + 1)%Z
  else if Z.even q then q else (q + 1)%Z.

(** [round(x, 1)]: the exact value of [x] is rounded to one decimal, ties
    to even, and the double nearest to that decimal is returned. *)
Definition round1 (x : spec_float) : spec_float :=
  match x with
  | S754_finite s m e =>
      if (0 <=? e)%Z then x
      else match tenths m e with
           | Z.pos t => SFdiv prec emax (S754_finite s t 0)
                                        (S754_finite false 10 0)
           | _ => S754_zero s
           end
  | _ => x
  end.

(** The double [2.0]. *)
Definition two : spec_float := S754_finite false 4503599627370496 (-51).

End PyFloat.

(* ===================================================================== *)
(** ** src/utils/tts_utils.py *)
(* ===================================================================== *)

Module TextToSpeech.
Import Py World Json.
Local Open Scope py_scope.

(** [TextToSpeech()]: the constructor makes sure that the output
    directory exists. *)
Definition __init__ : M unit :=
  output_dir <- ask audio_dir ;;
  makedirs output_dir.

(** [gTTS(text, lang, slow)] followed by [tts.save(filepath)].  What the
    library does is the environment's: [gtts] is the audio, or the
    exception of the constructor or of a request of [save].  The
    constructor raises before the file is touched.  [save] opens the file
    first, which creates or empties it and may fail, then asks the service
    part by part and writes what it gets; when a request fails,
    [gtts_partial] is what was written by then. *)
Definition text_to_speech (text : string) (filename : option string)
    (language : string) (slow : bool) : M pydict :=
  try_with
    (filename <-
       (if CodeProcessor.no_filename filename then
          t <- now ;;
          let timestamp := strftime_compact t in
          ret ("audio_lesson_" ++ timestamp)
        else ret (default "" filename)) ;;
     let filename :=
       if negb (endswith filename ".mp3") then filename ++ ".mp3"
       else filename in
     output_dir <- ask audio_dir ;;
     let filepath := path_join output_dir filename in
     synth <- ask gtts ;;
     partial <- ask gtts_partial ;;
     match synth text language slow with
     | inr audio => write_file filepath audio
     | inl e =>
         match partial text language slow with
         | None => raise e
         | Some written => write_file filepath written ;;; raise e
         end
     end ;;;
     let word_count := length (split_ws text) in
     let estimated_duration :=
       PyFloat.round1 (PyFloat.truediv word_count 150) in
     ret [ ("success", JBool true);
           ("filepath", JStr filepath);
           ("filename", JStr filename);
           ("relative_path", JStr ("/static/generated/audio/" ++ filename));
           ("word_count", JInt (Z.of_nat word_count));
           ("estimated_duration_minutes", JFloat estimated_duration);
           ("language", JStr language) ])
    (fun e =>
       ret [ ("success", JBool false);
             ("error", JStr (str_exn e));
             ("filepath", JNull) ]).

Definition delete_audio_file (filename : string) : M bool :=
  output_dir <- ask audio_dir ;;
  let filepath := path_join output_dir filename in
  e <- path_exists filepath ;;
  if e then
    remove_file filepath ;;;
    ret true
  else ret false.

End TextToSpeech.

(* ===================================================================== *)
(** ** src/utils/image_utils.py *)
(* ===================================================================== *)

Module ImageGenerator.
Import Py World Json.
Local Open Scope py_scope.

Definition enhanced_prompt (prompt : string) : string :=
  unlines
    [ "Create a professional educational diagram:";
      "";
      prompt;
      "";
      "Style requirements:";
      "- Clean, modern technical illustration style";
      "- Professional color scheme (blues, teals, grays)";
      "- Clear labels and annotations";
      "- White or light background";
      "- High contrast for readability";
      "- No text errors or gibberish";
      "" ].

(** [ImageGenerator()]: the constructor makes sure that the output
    directory exists; configuring the API key has no effect here. *)
Definition __init__ : M unit :=
  output_dir <- ask image_dir ;;
  makedirs output_dir.

(** The drawing of the placeholder with PIL and the encoding of
    [img.save(filepath)] are one call of the environment.  [save] picks
    the encoder from the lower-cased extension of the file name, and raises
    for an extension it does not know, before it opens the file. *)
Definition _create_placeholder_image
    (topic diagram_type filename filepath : string) : M pydict :=
  try_with
    (draw <- ask pil_placeholder ;;
     let ext := lower (splitext_ext filepath) in
     img <- lift (draw topic diagram_type ext) ;;
     write_file filepath img ;;;
     ret [ ("success", JBool true);
           ("filepath", JStr filepath);
           ("filename", JStr filename);
           ("relative_path", JStr ("/static/generated/images/" ++ filename));
           ("topic", JStr topic);
           ("diagram_type", JStr diagram_type);
           ("method", JStr "placeholder");
           ("note",
             JStr "Placeholder image - Gemini image generation unavailable") ])
    (fun e =>
       ret [ ("success", JBool false);
             ("error", JStr ("Failed to create placeholder: " ++ str_exn e));
             ("filepath", JNull) ]).

(** The loop over the parts: the data of the first part that has some. *)
Fixpoint first_inline_data (ps : list part) : option string :=
  match ps with
  | [] => None
  | p :: ps' =>
      match inline_data p with
      | Some d => Some d
      | None => first_inline_data ps'
      end
  end.

(** The inner [try] block: [Some] result when it returns from the function,
    [None] when control falls through to the fallback. *)
Definition primary (prompt topic diagram_type filename filepath : string)
  : M (option pydict) :=
  try_with
    (model <- ask image_model ;;
     response <- lift (model (enhanced_prompt prompt)) ;;
     match candidates response with
     | c :: _ =>
         match first_inline_data (parts c) with
         | Some data =>
             decode <- ask b64decode ;;
             image_data <- lift (decode data) ;;
             write_file filepath image_data ;;;
             ret (Some
               [ ("success", JBool true);
                 ("filepath", JStr filepath);
                 ("filename", JStr filename);
                 ("relative_path",
                   JStr ("/static/generated/images/" ++ filename));
                 ("topic", JStr topic);
                 ("diagram_type", JStr diagram_type);
                 ("method", JStr "gemini") ])
         | None => ret None
         end
     | [] => ret None
     end)
    (fun gemini_error =>
       print ("Gemini image generation failed: " ++ str_exn gemini_error) ;;;
       ret None).

Definition derived_filename (topic diagram_type : string) (t : datetime)
  : string :=
  let timestamp := strftime_compact t in
  CodeProcessor.safe_topic topic ++ "_" ++ diagram_type ++ "_" ++ timestamp
    ++ ".png".

Definition generate_diagram (prompt topic diagram_type : string)
    (filename : option string) : M pydict :=
  try_with
    (filename <-
       (if CodeProcessor.no_filename filename then
          t <- now ;;
          ret (derived_filename topic diagram_type t)
        else ret (default "" filename)) ;;
     output_dir <- ask image_dir ;;
     let filepath := path_join output_dir filename in
     r <- primary prompt topic diagram_type filename filepath ;;
     match r with
     | Some result => ret result
     | None => _create_placeholder_image topic diagram_type filename filepath
     end)
    (fun e =>
       ret [ ("success", JBool false);
             ("error", JStr (str_exn e));
             ("filepath", JNull) ]).

End ImageGenerator.

(* ===================================================================== *)
(** ** src/app.py: the JSON handlers *)
(* ===================================================================== *)

Module App.
Import Py World Json.
Local Open Scope py_scope.

(** A handler returns the JSON body and the HTTP status. *)
Definition reply : Type := pydict * nat.

Definition error_reply (msg : string) (status : nat) : reply :=
  ([("error", JStr msg)], status).

Definition attribute_error {A} (v : json) (attr : string) : M A :=
  raise (Exception ("'" ++ type_name v ++ "' object has no attribute '"
                    ++ attr ++ "'")).

(** [data.get]: only a dict has the method. *)
Definition as_dict (data : json) : M pydict :=
  match data with
  | JDict d => ret d
  | _ => attribute_error data "get"
  end.

(** [v.strip()]: only a str has the method. *)
Definition strip_of (v : json) : M string :=
  match v with
  | JStr s => ret (strip s)
  | _ => attribute_error v "strip"
  end.

Definition as_str (v : json) : string :=
  match v with JStr s => s | _ => "" end.

Definition item (k : string) (d : pydict) : json :=
  dict_get_default k JNull d.

(** [if v not in allowed: v = default]. *)
Definition normalize (v : json) (allowed : list string) (default : string)
  : string :=
  if negb (in_strs v allowed) then default else as_str v.

(** The lazily created helpers.  A helper is created by the first request
    that needs it and kept; in an environment that does not change,
    creating it again has the same outcome, so the global variable is not
    kept in the world. *)
Definition get_gemini_client : M unit := GeminiClient.__init__.
Definition get_tts_client : M unit := TextToSpeech.__init__.
Definition get_image_generator : M unit := ImageGenerator.__init__.
Definition get_code_processor : M unit := CodeProcessor.__init__.

Definition depths : list string := ["brief"; "intermediate"; "comprehensive"].
Definition complexities : list string := ["basic"; "intermediate"; "advanced"].
Definition diagram_types : list string :=
  ["architecture"; "flowchart"; "concept_map"; "visualization"].

(** [except Exception as e] of the handlers. *)
Definition on_error (e : exn) : M reply := ret (error_reply (str_exn e) 500).

(** The handlers, each in two parts: the rest of the [try] block once the
    request is validated, and the handler itself.  Logging is left out. *)

Definition generate_text_validated (topic depth : string) : M reply :=
  get_gemini_client ;;;
  result <- GeminiClient.generate_text_explanation topic depth ;;
  ret (result, 200).

Definition api_generate_text (data : json) : M reply :=
  try_with
    (if negb (truthy data) then ret (error_reply "No data provided" 400)
     else
       d <- as_dict data ;;
       topic <- strip_of (dict_get_default "topic" (JStr "") d) ;;
       let depth := dict_get_default "depth" (JStr "comprehensive") d in
       if negb (truthy (JStr topic)) then
         ret (error_reply "Topic is required" 400)
       else
         let depth := normalize depth depths "comprehensive" in
         generate_text_validated topic depth)
    on_error.

Definition generate_code_validated (topic complexity : string) : M reply :=
  get_gemini_client ;;;
  result <- GeminiClient.generate_code_example topic complexity ;;
  if negb (truthy (item "success" result)) then
    ret (error_reply "Failed to generate code" 500)
  else
    get_code_processor ;;;
    let code := as_str (item "code" result) in
    let formatted :=
      CodeProcessor.format_code_response code topic complexity in
    file_info <- CodeProcessor.save_code_file code topic None ;;
    ret ([ ("success", JBool true);
           ("topic", JStr topic);
           ("complexity", JStr complexity);
           ("code", item "code" formatted);
           ("dependencies", item "dependencies" formatted);
           ("colab_setup", item "colab_setup" formatted);
           ("local_setup", item "local_setup" formatted);
           ("line_count", item "line_count" formatted);
           ("download_url",
             if truthy (item "success" file_info)
             then item "relative_path" file_info else JNull) ],
         200).

Definition api_generate_code (data : json) : M reply :=
  try_with
    (if negb (truthy data) then ret (error_reply "No data provided" 400)
     else
       d <- as_dict data ;;
       topic <- strip_of (dict_get_default "topic" (JStr "") d) ;;
       let complexity := dict_get_default "complexity" (JStr "intermediate") d in
       if negb (truthy (JStr topic)) then
         ret (error_reply "Topic is required" 400)
       else
         let complexity := normalize complexity complexities "intermediate" in
         generate_code_validated topic complexity)
    on_error.

Definition generate_audio_validated (topic : string) : M reply :=
  get_gemini_client ;;;
  script_result <- GeminiClient.generate_audio_script topic ;;
  if negb (truthy (item "success" script_result)) then
    ret (error_reply "Failed to generate audio script" 500)
  else
    get_tts_client ;;;
    audio_result <-
      TextToSpeech.text_to_speech
        (as_str (item "script" script_result)) None "en" false ;;
    if negb (truthy (item "success" audio_result)) then
      ret (error_reply
             ("TTS failed: " ++ as_str (item "error" audio_result)) 500)
    else
      ret ([ ("success", JBool true);
             ("topic", JStr topic);
             ("script", item "script" script_result);
             ("audio_url", item "relative_path" audio_result);
             ("filename", item "filename" audio_result);
             ("word_count", item "word_count" audio_result);
             ("estimated_duration",
               item "estimated_duration_minutes" audio_result) ],
           200).

Definition api_generate_audio (data : json) : M reply :=
  try_with
    (if negb (truthy data) then ret (error_reply "No data provided" 400)
     else
       d <- as_dict data ;;
       topic <- strip_of (dict_get_default "topic" (JStr "") d) ;;
       if negb (truthy (JStr topic)) then
         ret (error_reply "Topic is required" 400)
       else generate_audio_validated topic)
    on_error.

Definition generate_image_validated (topic diagram_type : string) : M reply :=
  get_gemini_client ;;;
  prompt_result <- GeminiClient.generate_image_prompt topic diagram_type ;;
  if negb (truthy (item "success" prompt_result)) then
    ret (error_reply "Failed to generate image prompt" 500)
  else
    get_image_generator ;;;
    image_result <-
      ImageGenerator.generate_diagram
        (as_str (item "prompt" prompt_result)) topic diagram_type None ;;
    if negb (truthy (item "success" image_result)) then
      ret (error_reply
             ("Image generation failed: "
              ++ as_str (item "error" image_result)) 500)
    else
      ret ([ ("success", JBool true);
             ("topic", JStr topic);
             ("diagram_type", JStr diagram_type);
             ("image_url", item "relative_path" image_result);
             ("filename", item "filename" image_result);
             ("method",
               dict_get_default "method" (JStr "unknown") image_result);
             ("prompt", item "prompt" prompt_result) ],
           200).

Definition api_generate_image (data : json) : M reply :=
  try_with
    (if negb (truthy data) then ret (error_reply "No data provided" 400)
     else
       d <- as_dict data ;;
       topic <- strip_of (dict_get_default "topic" (JStr "") d) ;;
       let diagram_type :=
         dict_get_default "diagram_type" (JStr "architecture") d in
       if negb (truthy (JStr topic)) then
         ret (error_reply "Topic is required" 400)
       else
         let diagram_type :=
           normalize diagram_type diagram_types "architecture" in
         generate_image_validated topic diagram_type)
    on_error.

(** What a download route answers: the file as an attachment, or JSON. *)
Inductive response :=
| Attachment (filepath content : string)
| Json (r : reply).

(** [send_file(filepath, as_attachment=True)]: sends a regular file,
    raises for a directory and for a path that does not exist. *)
Definition send_file (filepath : string) : M response :=
  fun w => match fs w !! filepath with
           | Some content => (inr (Attachment filepath content), w)
           | None =>
               if is_dir w filepath
               then (inl (Exception (is_a_directory filepath)), w)
               else (inl (Exception ("[Errno 2] No such file or directory: '"
                                     ++ filepath ++ "'")), w)
           end.

Definition download_error (e : exn) : M response :=
  ret (Json (error_reply (str_exn e) 500)).

(** The download routes.  The argument is one path segment of the URL.
    The helper that holds the output directory is taken as created
    already, by the route that generated the file; what its creation does
    when it comes first is in the handlers above. *)

Definition download_code (filename : string) : M response :=
  try_with
    (output_dir <- ask code_dir ;;
     let filepath := path_join output_dir filename in
     e <- path_exists filepath ;;
     if e then send_file filepath
     else ret (Json (error_reply "File not found" 404)))
    download_error.

Definition download_audio (filename : string) : M response :=
  try_with
    (output_dir <- ask audio_dir ;;
     let filepath := path_join output_dir filename in
     e <- path_exists filepath ;;
     if e then send_file filepath
     else ret (Json (error_reply "File not found" 404)))
    download_error.

Definition download_image (filename : string) : M response :=
  try_with
    (output_dir <- ask image_dir ;;
     let filepath := path_join output_dir filename in
     e <- path_exists filepath ;;
     if e then send_file filepath
     else ret (Json (error_reply "File not found" 404)))
    download_error.

End App.

(* ===================================================================== *)
(** ** The specification's reading of dependency detection *)
(* ===================================================================== *)

Module Spec.
Import Py CodeProcessor.

(** The first identifiers of a line, one for each pattern that matches the
    stripped line. *)
Definition line_modules (line : string) : list string :=
  omap (fun pattern => match_keyword pattern (strip line)) import_patterns.

(** The imports of a text, line after line. *)
Definition modules (code : string) : list string :=
  split_on "010"%char code ≫= line_modules.

(** The package of an import: the alias table when it has the import,
    nothing for a standard-library module, the import itself otherwise. *)
Definition package_of (module : string) : option string :=
  match KNOWN_PACKAGES !! module with
  | Some pkg => Some pkg
  | None => if _is_stdlib module then None else Some module
  end.

End Spec.

(* ===================================================================== *)
(** ** Outcomes of the two image paths, and file-name characters *)
(* ===================================================================== *)

Module Outcome.
Import Py World Json ImageGenerator.

(** The file name [generate_diagram] works with. *)
Definition diagram_filename (topic diagram_type : string)
    (filename : option string) (w : world) : string :=
  if CodeProcessor.no_filename filename
  then derived_filename topic diagram_type (clock w (ticks w))
  else default "" filename.

(** The primary path completes: the model answers, the first candidate has
    a part with inline data, the data decodes to [bytes], and the file can
    be written. *)
Definition primary_completes (w : world) (prompt path bytes : string) : Prop :=
  exists resp c cs d,
    image_model w (enhanced_prompt prompt) = inr resp
    /\ candidates resp = c :: cs
    /\ first_inline_data (parts c) = Some d
    /\ b64decode w d = inr bytes
    /\ open_error w path = None.

(** The fallback path completes: the placeholder is drawn and encoded as
    [img], for the format that the extension of the file name selects, and
    the file can be written. *)
Definition fallback_completes (w : world) (topic diagram_type path img : string)
  : Prop :=
  pil_placeholder w topic diagram_type (lower (splitext_ext path)) = inr img
  /\ open_error w path = None.

Definition image_result (filepath filename topic diagram_type method : string)
  : pydict :=
  [ ("success", JBool true);
    ("filepath", JStr filepath);
    ("filename", JStr filename);
    ("relative_path", JStr ("/static/generated/images/" ++ filename));
    ("topic", JStr topic);
    ("diagram_type", JStr diagram_type);
    ("method", JStr method) ].

Definition placeholder_result (filepath filename topic diagram_type : string)
  : pydict :=
  (image_result filepath filename topic diagram_type "placeholder"
   ++ [ ("note",
         JStr "Placeholder image - Gemini image generation unavailable") ])%list.

Definition failure_result (msg : string) : pydict :=
  [ ("success", JBool false); ("error", JStr msg); ("filepath", JNull) ].

Definition is_dot (c : ascii) : bool := (code c =? 46)%N.

(** Alphanumeric, underscore or dot. *)
Definition filename_char (c : ascii) : bool := isword c || is_dot c.

End Outcome.

(* ===================================================================== *)
(** ** Requests and replies *)
(* ===================================================================== *)

Module Request.
Import Py World Json App.

(** A request with a topic that is a non-empty string once stripped. *)
Definition valid_topic (d : pydict) (topic : string) : Prop :=
  dict_get "topic" d = Some (JStr topic) /\ strip topic <> "".

(** A reply is a success with [value] under [key], or a server error. *)
Definition ok_or_500 (r : reply) (key value : string) : Prop :=
  (r.2 = 200 /\ dict_get key r.1 = Some (JStr value))
  \/ (r.2 = 500 /\ exists msg, r.1 = [("error", JStr msg)]).

End Request.

(* ===================================================================== *)
(** ** Concrete worlds and inputs *)
(* ===================================================================== *)

Module Examples.
Import Py World Json.

Definition t0 : datetime :=
  {| year := 2026; month := 11; day := 3; hour := 9; minute := 5; second := 0 |}.

(** The output directories, under the names that reach them from the
    inside as well. *)
Definition directories : list string :=
  d ← ["static/generated/code"; "static/generated/images";
       "static/generated/audio"];
  [d; d ++ "/"; d ++ "/."; d ++ "/.."].

(** Opening a directory for writing is refused; every other path can be
    written. *)
Definition refuse_directories (path : string) : option string :=
  if existsb (String.eqb path) directories
  then Some (is_a_directory path) else None.

(** [base64.b64decode]. *)
Definition decode (data : string) : exn + string :=
  match base64_b64decode data with
  | inl msg => inl (Exception msg)
  | inr bytes => inr bytes
  end.

(** A PIL that knows the PNG format only. *)
Definition draw_png (topic diagram_type ext : string) : exn + string :=
  if String.eqb ext ".png" then inr "PNG"
  else inl (Exception ("unknown file extension: " ++ ext)).

(** A speech service that works; the constructor of gTTS refuses an empty
    text. *)
Definition speak (text language : string) (slow : bool) : exn + string :=
  if String.eqb text "" then inl (Exception "No text to speak")
  else inr "MP3".

(** The image model is down, everything else works. *)
Definition world0 : world :=
  {| clock := fun _ => t0;
     open_error := refuse_directories;
     api_key := Some "key";
     code_dir := "static/generated/code";
     image_dir := "static/generated/images";
     audio_dir := "static/generated/audio";
     text_model := fun _ _ => inr "ok";
     image_model := fun _ => inl (Exception "503 unavailable");
     b64decode := decode;
     pil_placeholder := draw_png;
     gtts := speak;
     makedirs_error := fun _ => None;
     gtts_partial := fun _ _ _ => None;
     ticks := 0; model_calls := 0; slept := []; stdout := []; fs := ∅ |}.

Definition inline_candidate : candidate :=
  {| parts := [ {| inline_data := None |}; {| inline_data := Some "aW1n" |} ] |}.

Definition inline_response : response :=
  {| candidates := [ inline_candidate ] |}.

(** The image model answers with inline data. *)
Definition world_inline : world :=
  {| clock := fun _ => t0;
     open_error := refuse_directories;
     api_key := Some "key";
     code_dir := "static/generated/code";
     image_dir := "static/generated/images";
     audio_dir := "static/generated/audio";
     text_model := fun _ _ => inr "ok";
     image_model := fun _ => inr inline_response;
     b64decode := decode;
     pil_placeholder := draw_png;
     gtts := speak;
     makedirs_error := fun _ => None;
     gtts_partial := fun _ _ _ => None;
     ticks := 0; model_calls := 0; slept := []; stdout := []; fs := ∅ |}.

(** Inline data that is no base64: three characters lack their padding. *)
Definition bad_candidate : candidate :=
  {| parts := [ {| inline_data := Some "abc" |} ] |}.

Definition bad_response : response :=
  {| candidates := [ bad_candidate ] |}.

(** The image model answers with inline data that does not decode. *)
Definition world_bad_data : world :=
  {| clock := fun _ => t0;
     open_error := refuse_directories;
     api_key := Some "key";
     code_dir := "static/generated/code";
     image_dir := "static/generated/images";
     audio_dir := "static/generated/audio";
     text_model := fun _ _ => inr "ok";
     image_model := fun _ => inr bad_response;
     b64decode := decode;
     pil_placeholder := draw_png;
     gtts := speak;
     makedirs_error := fun _ => None;
     gtts_partial := fun _ _ _ => None;
     ticks := 0; model_calls := 0; slept := []; stdout := []; fs := ∅ |}.

(** Two rate-limit failures, then an answer. *)
Definition world_throttled : world :=
  {| clock := fun _ => t0;
     open_error := refuse_directories;
     api_key := Some "key";
     code_dir := "static/generated/code";
     image_dir := "static/generated/images";
     audio_dir := "static/generated/audio";
     text_model := fun k _ =>
       match k with
       | 0 => inl (Exception "429 Too Many Requests")
       | 1 => inl (Exception "Resource Quota exhausted")
       | _ => inr "ok"
       end;
     image_model := fun _ => inl (Exception "503 unavailable");
     b64decode := decode;
     pil_placeholder := draw_png;
     gtts := speak;
     makedirs_error := fun _ => None;
     gtts_partial := fun _ _ _ => None;
     ticks := 0; model_calls := 0; slept := []; stdout := []; fs := ∅ |}.

(** A script of 300 words. *)
Definition script_300 : string := join " " (replicate 300 "word").

Definition numpy_os_code : string :=
  "import numpy as np" ++ nl ++ "from os import path".

End Examples.

(* ===================================================================== *)
(** ** The world after some calls of the text model *)
(* ===================================================================== *)

Module Retry.
Import Py World.

(** The world after [calls] more calls of the text model, with [waits] as
    the sleeps in between. *)
Definition after_calls (w : world) (calls : nat) (waits : list nat) : world :=
  upd w (ticks w) (model_calls w + calls) (slept w ++ waits) (stdout w) (fs w).

(** The outcome of the [i]-th call from [w] on, for a prompt. *)
Definition outcome (w : world) (prompt : string) (i : nat) : exn + string :=
  text_model w (model_calls w + i) prompt.

(** The sleeps of the first [k] attempts. *)
Definition waits (k : nat) : list nat :=
  (fun attempt => 2 ^ attempt * 2) <$> seq 0 k.

End Retry.

(* ===================================================================== *)
(** ** Exact decimals *)
(* ===================================================================== *)

Module Decimal.

(** The number of tenths nearest to [word_count / 150], in exact
    arithmetic; no word count is half-way between two tenths. *)
Definition nearest_tenths (word_count : nat) : nat :=
  (2 * word_count + 15) / 30.

(** The double nearest to [t / 10]. *)
Definition of_tenths (t : nat) : spec_float := PyFloat.truediv t 10.

#[global] Instance spec_float_eq_dec : EqDecision spec_float.
Proof. solve_decision. Defined.

Definition agrees (word_count : nat) : bool :=
  bool_decide (PyFloat.round1 (PyFloat.truediv word_count 150)
               = of_tenths (nearest_tenths word_count)).

(** The number of positions where a token starts: a character that is no
    white space, at the start or just after white space. *)
Fixpoint word_starts (after_space : bool) (s : string) : nat :=
  match s with
  | "" => 0
  | String c s' =>
      (if after_space && negb (Py.isspace c) then 1 else 0)
      + word_starts (Py.isspace c) s'
  end.

(** A token: not empty, no white space. *)
Definition token (t : string) : Prop :=
  t <> "" /\ Py.str_forall (fun c => negb (Py.isspace c)) t = true.

(** [a] is a contiguous part of [b]. *)
Definition part_of (a b : string) : Prop :=
  exists pre suf, b = pre ++ a ++ suf.

End Decimal.

(* ===================================================================== *)
(** ** Reading a dependency report *)
(* ===================================================================== *)

Module Report.
Import Py World Json CodeProcessor.

(** [detect_dependencies(code)['imports']]. *)
Definition imports_of (code : string) : list string :=
  str_list (dict_get_default "imports" JNull (detect_dependencies code)).

(** [detect_dependencies(code)['pip_packages']]. *)
Definition packages_of (code : string) : list string :=
  str_list (dict_get_default "pip_packages" JNull (detect_dependencies code)).

(** The number of newline characters of a text. *)
Definition count_newlines (s : string) : nat :=
  length (List.filter (fun c => Ascii.eqb c "010"%char) (chars s)).

Definition ready_to_run : string :=
  "# No additional packages required - ready to run!".

Definition none_required : string := "No additional packages required.".

Definition plain_code : string := "x = 1" ++ nl ++ "# import numpy".

End Report.

(* ===================================================================== *)
(** ** The names the savers work with *)
(* ===================================================================== *)

Module Saving.
Import Py World Json.

(** [if not name.endswith(ext): name = name + ext]. *)
Definition with_extension (ext name : string) : string :=
  if negb (endswith name ext) then name ++ ext else name.

(** The file name of [save_code_file]. *)
Definition code_filename (topic : string) (filename : option string)
    (w : world) : string :=
  with_extension ".py"
    (if CodeProcessor.no_filename filename
     then CodeProcessor.safe_topic topic ++ "_"
          ++ strftime_compact (clock w (ticks w)) ++ ".py"
     else default "" filename).

(** The time in the header of [save_code_file]: the clock is read once
    more when the name is derived from it. *)
Definition header_time (filename : option string) (w : world) : datetime :=
  if CodeProcessor.no_filename filename then clock w (S (ticks w))
  else clock w (ticks w).

(** The file name of [text_to_speech]. *)
Definition audio_filename (filename : option string) (w : world) : string :=
  with_extension ".mp3"
    (if CodeProcessor.no_filename filename
     then "audio_lesson_" ++ strftime_compact (clock w (ticks w))
     else default "" filename).

(** The line [generate_diagram] prints when the primary path raises. *)
Definition failure_line (e : exn) : string :=
  "Gemini image generation failed: " ++ str_exn e.

Definition code_saved (filepath filename : string) : pydict :=
  [ ("success", JBool true);
    ("filepath", JStr filepath);
    ("filename", JStr filename);
    ("relative_path", JStr ("/static/generated/code/" ++ filename)) ].

Definition audio_saved (filepath filename language : string)
    (word_count : nat) : pydict :=
  [ ("success", JBool true);
    ("filepath", JStr filepath);
    ("filename", JStr filename);
    ("relative_path", JStr ("/static/generated/audio/" ++ filename));
    ("word_count", JInt (Z.of_nat word_count));
    ("estimated_duration_minutes",
      JFloat (PyFloat.round1 (PyFloat.truediv word_count 150)));
    ("language", JStr language) ].

End Saving.

(* ===================================================================== *)
(** ** What a computation leaves alone *)
(* ===================================================================== *)

Module Env.
Import Py World.

(** The two worlds have the same environment. *)
Definition same_env (w w' : world) : Prop :=
  clock w' = clock w /\ open_error w' = open_error w
  /\ api_key w' = api_key w /\ code_dir w' = code_dir w
  /\ image_dir w' = image_dir w /\ audio_dir w' = audio_dir w
  /\ text_model w' = text_model w /\ image_model w' = image_model w
  /\ b64decode w' = b64decode w /\ pil_placeholder w' = pil_placeholder w
  /\ gtts w' = gtts w /\ makedirs_error w' = makedirs_error w
  /\ gtts_partial w' = gtts_partial w.

Definition keeps_env {A} (c : M A) : Prop :=
  forall w, same_env w (c w).2.

(** The computation writes and removes no file. *)
Definition keeps_files {A} (c : M A) : Prop :=
  forall w, fs (c w).2 = fs w.

(** The computation does not read the clock. *)
Definition keeps_clock {A} (c : M A) : Prop :=
  forall w, ticks (c w).2 = ticks w.

(** The computation does not call the text model, and does not sleep. *)
Definition keeps_model {A} (c : M A) : Prop :=
  forall w, model_calls (c w).2 = model_calls w /\ slept (c w).2 = slept w.

(** The computation never raises. *)
Definition returns {A} (c : M A) : Prop :=
  forall w, exists a, (c w).1 = inr a.

End Env.

(* ===================================================================== *)
(** ** More worlds *)
(* ===================================================================== *)

Module Scenario.
Import Py World Json Examples.


Definition with_open_error (f : string -> option string) (w : world) : world :=
  {| clock := clock w; open_error := f; api_key := api_key w;
     code_dir := code_dir w; image_dir := image_dir w;
     audio_dir := audio_dir w; text_model := text_model w;
     image_model := image_model w; b64decode := b64decode w;
     pil_placeholder := pil_placeholder w; gtts := gtts w;
     makedirs_error := makedirs_error w;
     gtts_partial := gtts_partial w;
     ticks := ticks w; model_calls := model_calls w; slept := slept w;
     stdout := stdout w; fs := fs w |}.

Definition with_api_key (k : option string) (w : world) : world :=
  {| clock := clock w; open_error := open_error w; api_key := k;
     code_dir := code_dir w; image_dir := image_dir w;
     audio_dir := audio_dir w; text_model := text_model w;
     image_model := image_model w; b64decode := b64decode w;
     pil_placeholder := pil_placeholder w; gtts := gtts w;
     makedirs_error := makedirs_error w;
     gtts_partial := gtts_partial w;
     ticks := ticks w; model_calls := model_calls w; slept := slept w;
     stdout := stdout w; fs := fs w |}.

Definition with_text_model (f : nat -> string -> exn + string) (w : world)
  : world :=
  {| clock := clock w; open_error := open_error w; api_key := api_key w;
     code_dir := code_dir w; image_dir := image_dir w;
     audio_dir := audio_dir w; text_model := f;
     image_model := image_model w; b64decode := b64decode w;
     pil_placeholder := pil_placeholder w; gtts := gtts w;
     makedirs_error := makedirs_error w;
     gtts_partial := gtts_partial w;
     ticks := ticks w; model_calls := model_calls w; slept := slept w;
     stdout := stdout w; fs := fs w |}.

Definition with_gtts (f : string -> string -> bool -> exn + string)
    (written : string -> string -> bool -> option string) (w : world)
  : world :=
  {| clock := clock w; open_error := open_error w; api_key := api_key w;
     code_dir := code_dir w; image_dir := image_dir w;
     audio_dir := audio_dir w; text_model := text_model w;
     image_model := image_model w; b64decode := b64decode w;
     pil_placeholder := pil_placeholder w; gtts := f;
     makedirs_error := makedirs_error w;
     gtts_partial := written;
     ticks := ticks w; model_calls := model_calls w; slept := slept w;
     stdout := stdout w; fs := fs w |}.

Definition with_pil (f : string -> string -> string -> exn + string)
    (w : world)
  : world :=
  {| clock := clock w; open_error := open_error w; api_key := api_key w;
     code_dir := code_dir w; image_dir := image_dir w;
     audio_dir := audio_dir w; text_model := text_model w;
     image_model := image_model w; b64decode := b64decode w;
     pil_placeholder := f; gtts := gtts w;
     makedirs_error := makedirs_error w;
     gtts_partial := gtts_partial w;
     ticks := ticks w; model_calls := model_calls w; slept := slept w;
     stdout := stdout w; fs := fs w |}.

Definition with_makedirs_error (f : string -> option string) (w : world)
  : world :=
  {| clock := clock w; open_error := open_error w; api_key := api_key w;
     code_dir := code_dir w; image_dir := image_dir w;
     audio_dir := audio_dir w; text_model := text_model w;
     image_model := image_model w; b64decode := b64decode w;
     pil_placeholder := pil_placeholder w; gtts := gtts w;
     makedirs_error := f;
     gtts_partial := gtts_partial w;
     ticks := ticks w; model_calls := model_calls w; slept := slept w;
     stdout := stdout w; fs := fs w |}.


(** No file can be opened for writing. *)
Definition world_readonly : world :=
  with_open_error (fun _ => Some "[Errno 30] Read-only file system") world0.

(** No API key. *)
Definition world_no_key : world := with_api_key None world0.



(** The speech service is down: [save] opens the file and its first
    request fails. *)
Definition world_mute : world :=
  with_gtts (fun _ _ _ => inl (Exception "Failed to connect"))
    (fun _ _ _ => Some "") world0.

(** Neither the image model nor the drawing of the placeholder works. *)
Definition world_blind : world :=
  with_pil (fun _ _ _ => inl (Exception "cannot draw")) world0.

(** The output directories are not there and cannot be made. *)
Definition world_no_dirs : world :=
  with_makedirs_error
    (fun _ => Some "[Errno 13] Permission denied: 'static'")
    (with_open_error
       (fun path => Some ("[Errno 2] No such file or directory: '"
                          ++ path ++ "'"))
       world0).

(** The text model answers with a fenced program. *)
Definition world_coder : world :=
  with_text_model
    (fun _ _ => inr ("```python" ++ nl ++ "import numpy as np" ++ nl
                     ++ "print(np.pi)" ++ nl ++ "```"))
    world0.

End Scenario.

(* ===================================================================== *)
(** ** The four generating routes *)
(* ===================================================================== *)

Module Routes.
Import Py World Json App.

Definition handlers : list (json -> M reply) :=
  [api_generate_text; api_generate_code; api_generate_audio;
   api_generate_image].

(** The topic of a request is missing, or blank once stripped. *)
Definition blank_topic (d : pydict) : Prop :=
  dict_get "topic" d = None
  \/ exists s, dict_get "topic" d = Some (JStr s) /\ strip s = "".

Definition is_dict (v : json) : bool :=
  match v with JDict _ => true | _ => false end.

Definition is_str (v : json) : bool :=
  match v with JStr _ => true | _ => false end.

(** The message of the [AttributeError] for a missing method. *)
Definition no_attribute (v : json) (attr : string) : string :=
  "'" ++ type_name v ++ "' object has no attribute '" ++ attr ++ "'".

(** The reply is a success for [topic], or one error message with status
    500. *)
Definition success_or_500 (r : reply) (topic : string) : Prop :=
  (r.2 = 200 /\ dict_get "success" r.1 = Some (JBool true)
   /\ dict_get "topic" r.1 = Some (JStr topic))
  \/ (r.2 = 500 /\ exists msg, r.1 = [("error", JStr msg)]).

(** The reply is a validation error. *)
Definition rejected (r : reply) : Prop :=
  r = error_reply "No data provided" 400
  \/ r = error_reply "Topic is required" 400.

(** An API key is set. *)
Definition has_key (w : world) : Prop :=
  exists k, api_key w = Some k /\ k <> "".

Definition no_key_message : string :=
  "GEMINI_API_KEY not found. Set it in environment or pass directly.".

Definition code_route_complexity (d : pydict) : string :=
  normalize (dict_get_default "complexity" (JStr "intermediate") d)
    complexities "intermediate".

Definition image_route_type (d : pydict) : string :=
  normalize (dict_get_default "diagram_type" (JStr "architecture") d)
    diagram_types "architecture".


Definition request (topic : string) : json := JDict [("topic", JStr topic)].

(** The first [k] calls of the text model for [prompt] end in rate-limit
    failures, and [k] is below the three attempts of the client. *)
Definition throttled (w : world) (prompt : string) (k : nat) : Prop :=
  k < 3
  /\ forall i, i < k ->
       exists e, Retry.outcome w prompt i = inl e
                 /\ GeminiClient.is_rate_limit e = true.

(** After [k] rate-limit failures the text model answers [raw]. *)
Definition answers_after (w : world) (prompt : string) (k : nat)
    (raw : string) : Prop :=
  throttled w prompt k /\ Retry.outcome w prompt k = inr raw.



End Routes.

(* ===================================================================== *)
(** * Properties *)
(* ===================================================================== *)

(** Evaluation of the monadic code, one layer at a time. *)
Ltac run1 :=
cbv beta iota zeta delta
  [World.bind World.ret World.try_with World.raise World.lift World.ask
   World.now World.sleep World.print World.write_file World.generate_content
   World.upd CodeProcessor.no_filename];
cbn [World.clock World.open_error World.api_key World.code_dir
     World.image_dir World.audio_dir World.text_model World.image_model
     World.b64decode World.pil_placeholder World.gtts
     World.makedirs_error World.gtts_partial World.ticks
     World.model_calls World.slept World.stdout World.fs
     default negb fst snd].

Ltac run := repeat progress run1.

Ltac lookup :=
cbn [Json.dict_get Json.dict_get_default App.item Json.truthy App.as_str
     String.eqb Ascii.eqb Bool.eqb negb fst snd];
cbv beta iota.

(* ===================================================================== *)
(** ** Facts about the string functions *)
(* ===================================================================== *)

Section StringFacts.
Import Py.

Lemma str_app_cons c (s t : string) : String c s ++ t = String c (s ++ t).
Proof. reflexivity. Qed.

Lemma str_app_empty_l (s : string) : "" ++ s = s.
Proof. reflexivity. Qed.

Lemma str_app_empty_r (s : string) : s ++ "" = s.
Proof. induction s as [|c s IH]; [reflexivity|]. rewrite str_app_cons, IH. reflexivity. Qed.

Lemma str_app_assoc (a b c : string) : (a ++ b) ++ c = a ++ b ++ c.
Proof. induction a as [|x a IH]; [reflexivity|]. rewrite !str_app_cons, IH. reflexivity. Qed.

Lemma str_length_app (a b : string) :
  String.length (a ++ b) = String.length a + String.length b.
Proof. induction a as [|x a IH]; [reflexivity|]. rewrite str_app_cons. simpl. rewrite IH. reflexivity. Qed.

Lemma chars_app (a b : string) : chars (a ++ b) = (chars a ++ chars b)%list.
Proof. induction a as [|x a IH]; [reflexivity|]. rewrite str_app_cons. simpl. rewrite IH. reflexivity. Qed.

Lemma chars_inj (a b : string) : chars a = chars b -> a = b.
Proof.
  revert b. induction a as [|x a IH]; intros [|y b] H; simpl in H; try discriminate; [reflexivity|].
  injection H as -> H. f_equal. apply IH, H.
Qed.

Lemma str_forall_app p (a b : string) :
  str_forall p (a ++ b) = str_forall p a && str_forall p b.
Proof.
  induction a as [|x a IH]; [reflexivity|].
  rewrite str_app_cons. simpl. rewrite IH. apply andb_assoc.
Qed.

Lemma str_forall_Forall p (s : string) :
  str_forall p s = true <-> Forall (fun c => p c = true) (chars s).
Proof.
  induction s as [|c s IH]; simpl.
  - split; [constructor|reflexivity].
  - rewrite andb_true_iff, IH, Forall_cons. reflexivity.
Qed.

Lemma str_forall_impl (p q : ascii -> bool) (s : string) :
  (forall c, p c = true -> q c = true) ->
  str_forall p s = true -> str_forall q s = true.
Proof.
  intros Hpq. induction s as [|c s IH]; simpl; [reflexivity|].
  rewrite !andb_true_iff. intros [H1 H2]. split; [apply Hpq, H1|apply IH, H2].
Qed.

Lemma str_take_drop n (s : string) : take n s ++ drop n s = s.
Proof.
  revert s. induction n as [|n IH]; intros [|c s]; try reflexivity.
  simpl. rewrite str_app_cons, IH. reflexivity.
Qed.

Lemma str_take_app_length (a b : string) : take (String.length a) (a ++ b) = a.
Proof. induction a as [|x a IH]; [destruct b; reflexivity|]. rewrite str_app_cons. simpl. rewrite IH. reflexivity. Qed.

Lemma str_drop_app_length (a b : string) : drop (String.length a) (a ++ b) = b.
Proof. induction a as [|x a IH]; [destruct b; reflexivity|]. rewrite str_app_cons. simpl. exact IH. Qed.

Lemma str_length_take n (s : string) : String.length (take n s) = min n (String.length s).
Proof. revert s. induction n as [|n IH]; intros [|c s]; simpl; try reflexivity. rewrite IH. reflexivity. Qed.

Lemma chars_take n (s : string) : chars (Py.take n s) = list.take n (chars s).
Proof. revert s. induction n as [|n IH]; intros [|c s]; simpl; try reflexivity. rewrite IH. reflexivity. Qed.

Lemma chars_str_map f (s : string) : chars (str_map f s) = f <$> chars s.
Proof. induction s as [|c s IH]; simpl; [reflexivity|]. rewrite IH. reflexivity. Qed.

Lemma length_chars (s : string) : length (chars s) = String.length s.
Proof. induction s as [|c s IH]; simpl; [reflexivity|]. rewrite IH. reflexivity. Qed.

Lemma startswith_spec (s p : string) :
  startswith s p = true <-> exists r, s = p ++ r.
Proof.
  revert s. induction p as [|a p IH]; intros s.
  - destruct s; cbn [startswith]; split; eauto.
  - destruct s as [|b s]; cbn [startswith].
    + split; [discriminate|]. intros [r Hr]. rewrite str_app_cons in Hr. discriminate.
    + rewrite andb_true_iff, IH. destruct (Ascii.eqb_spec a b) as [->|Hne].
      * split.
        -- intros [_ [r ->]]. exists r. reflexivity.
        -- intros [r Hr]. rewrite str_app_cons in Hr. injection Hr as Hr. eauto.
      * split; [intros [? _]; discriminate|]. intros [r Hr].
        rewrite str_app_cons in Hr. injection Hr as Hab _. congruence.
Qed.

Lemma startswith_app (p r : string) : startswith (p ++ r) p = true.
Proof. apply startswith_spec. eauto. Qed.

Lemma startswith_drop (s p : string) :
  startswith s p = true -> s = p ++ drop (String.length p) s.
Proof.
  intros [r ->]%startswith_spec. rewrite str_drop_app_length. reflexivity.
Qed.

Lemma endswith_spec (s p : string) :
  endswith s p = true <-> exists r, s = r ++ p.
Proof.
  unfold endswith. rewrite andb_true_iff, Nat.leb_le, String.eqb_eq. split.
  - intros [Hle Heq].
    exists (take (String.length s - String.length p) s).
    rewrite <- (str_take_drop (String.length s - String.length p) s) at 1.
    f_equal. exact Heq.
  - intros [r ->]. rewrite str_length_app. split; [lia|].
    replace (String.length r + String.length p - String.length p)
      with (String.length r) by lia.
    apply str_drop_app_length.
Qed.

Lemma endswith_app (r p : string) : endswith (r ++ p) p = true.
Proof. apply endswith_spec. eauto. Qed.

Lemma drop_last_app (r p : string) : drop_last (String.length p) (r ++ p) = r.
Proof.
  unfold drop_last. rewrite str_length_app.
  replace (String.length r + String.length p - String.length p)
    with (String.length r) by lia.
  apply str_take_app_length.
Qed.

Lemma str_app_inv_head (a b c : string) : a ++ b = a ++ c -> b = c.
Proof. induction a as [|x a IH]; [auto|]. rewrite !str_app_cons. intros H. injection H as H. auto. Qed.

Lemma lstrip_suffix (s : string) : exists pre, s = pre ++ lstrip s.
Proof.
  induction s as [|c s [pre IH]]; simpl.
  - exists "". reflexivity.
  - destruct (isspace c).
    + exists (String c pre). rewrite str_app_cons, <- IH. reflexivity.
    + exists "". reflexivity.
Qed.

Lemma rstrip_prefix (s : string) : exists suf, s = rstrip s ++ suf.
Proof.
  induction s as [|c s [suf IH]]; simpl.
  - exists "". reflexivity.
  - destruct (rstrip s) as [|d r] eqn:Hr.
    + destruct (isspace c).
      * exists (String c s). reflexivity.
      * exists s. reflexivity.
    + exists suf. rewrite str_app_cons, <- IH. reflexivity.
Qed.

Lemma strip_infix (s : string) : exists pre suf, s = pre ++ strip s ++ suf.
Proof.
  destruct (lstrip_suffix s) as [pre Hp].
  destruct (rstrip_prefix (lstrip s)) as [suf Hs].
  exists pre, suf. unfold strip. rewrite <- Hs. exact Hp.
Qed.

(** Stripping is idempotent. *)
Lemma lstrip_head (s : string) c r : lstrip s = String c r -> isspace c = false.
Proof.
  induction s as [|d s IH]; simpl; [discriminate|].
  destruct (isspace d) eqn:Hd; [exact IH|].
  intros H. injection H as <- _. exact Hd.
Qed.

Lemma lstrip_id c (s : string) : isspace c = false -> lstrip (String c s) = String c s.
Proof. intros H. simpl. rewrite H. reflexivity. Qed.

Lemma rstrip_rstrip (s : string) : rstrip (rstrip s) = rstrip s.
Proof.
  induction s as [|c s IH]; simpl; [reflexivity|].
  destruct (rstrip s) as [|d r] eqn:Hr.
  - destruct (isspace c) eqn:Hc; simpl; [reflexivity|]. rewrite Hc. reflexivity.
  - change (rstrip (String c (String d r))) with
      (match rstrip (String d r) with
       | "" => if isspace c then "" else String c ""
       | x => String c x end).
    rewrite IH. reflexivity.
Qed.

Lemma rstrip_head c (s : string) :
  isspace c = false -> exists r, rstrip (String c s) = String c r.
Proof.
  intros Hc. simpl. destruct (rstrip s); rewrite ?Hc; eauto.
Qed.

Lemma strip_strip (s : string) : strip (strip s) = strip s.
Proof.
  unfold strip. destruct (lstrip s) as [|c r] eqn:Hl; [reflexivity|].
  pose proof (lstrip_head _ _ _ Hl) as Hc.
  destruct (rstrip_head c r Hc) as [r' Hr]. rewrite Hr.
  rewrite lstrip_id by exact Hc. rewrite <- Hr. apply rstrip_rstrip.
Qed.

End StringFacts.

Section Detection.
Import Py World Json CodeProcessor Spec.

Lemma span_spec p (s a b : string) :
  span p s = (a, b) ->
  s = a ++ b /\ str_forall p a = true
  /\ (b = "" \/ exists c r, b = String c r /\ p c = false).
Proof.
  revert a b. induction s as [|c s IH]; intros a b; simpl.
  - intros [= <- <-]. auto.
  - destruct (p c) eqn:Hc.
    + destruct (span p s) as [a' b'] eqn:Hs. intros [= <- <-].
      destruct (IH _ _ eq_refl) as (-> & Ha & Hb).
      simpl. rewrite Hc, Ha. auto.
    + intros [= <- <-]. repeat split. right. eauto.
Qed.

Lemma span_app p (a b : string) :
  str_forall p a = true ->
  (b = "" \/ exists c r, b = String c r /\ p c = false) ->
  span p (a ++ b) = (a, b).
Proof.
  intros Ha Hb. induction a as [|c a IH].
  - destruct Hb as [->|(c & r & -> & Hc)]; simpl; [reflexivity|].
    rewrite Hc. reflexivity.
  - simpl in Ha. apply andb_true_iff in Ha as [Hc Ha].
    rewrite str_app_cons. simpl. rewrite Hc, (IH Ha). reflexivity.
Qed.

Lemma isword_not_space c : isword c = true -> isspace c = false.
Proof. destruct c as [[] [] [] [] [] [] [] []]; vm_compute; congruence. Qed.

(** What the two regular expressions accept, and what their group is. *)
Lemma match_keyword_spec (kw line m : string) :
  match_keyword kw line = Some m <->
  exists ws rest,
    line = kw ++ ws ++ m ++ rest
    /\ ws <> "" /\ str_forall isspace ws = true
    /\ m <> "" /\ str_forall isword m = true
    /\ (rest = "" \/ exists c r, rest = String c r /\ isword c = false).
Proof.
  unfold match_keyword. split.
  - destruct (startswith line kw) eqn:Hk; [|discriminate].
    apply startswith_drop in Hk.
    destruct (span isspace _) as [ws rest] eqn:Hws.
    apply span_spec in Hws as (Hl & Hws & _).
    destruct ws as [|w ws']; [discriminate|].
    destruct (span isword rest) as [m' rest'] eqn:Hm.
    apply span_spec in Hm as (Hr & Hm & Hrest). simpl.
    destruct m' as [|c m']; [discriminate|]. intros [= <-].
    exists (String w ws'), rest'. repeat split; try done.
    rewrite Hk at 1. rewrite Hl, Hr. reflexivity.
  - intros (ws & rest & Hl & Hne & Hws & Hmne & Hm & Hrest). subst line.
    rewrite startswith_app, str_drop_app_length.
    rewrite (span_app isspace ws (m ++ rest) Hws).
    + destruct ws; [done|]. rewrite (span_app isword m rest Hm Hrest). simpl.
      destruct m; done.
    + right. destruct m as [|c m]; [done|]. exists c, (m ++ rest).
      split; [reflexivity|]. simpl in Hm. apply andb_true_iff in Hm as [Hc _].
      apply isword_not_space, Hc.
Qed.

(** One pattern on one line. *)
Lemma scan_pattern_imports line a pattern (m : string) :
  m ∈ (scan_pattern line a pattern).1 <->
  m ∈ a.1 \/ match_keyword pattern line = Some m.
Proof.
  unfold scan_pattern. destruct (match_keyword pattern line) as [k|].
  - destruct (KNOWN_PACKAGES !! k); [|destruct (negb (_is_stdlib k))];
      cbn [fst snd]; rewrite elem_of_union, elem_of_singleton;
      (split; [intros [->|?]; auto|intros [?|[= ->]]; auto]).
  - split; [auto|intros [?|?]; [done|discriminate]].
Qed.

Lemma scan_pattern_packages line a pattern (p : string) :
  p ∈ (scan_pattern line a pattern).2 <->
  p ∈ a.2 \/ exists m, match_keyword pattern line = Some m /\ package_of m = Some p.
Proof.
  unfold scan_pattern.
  destruct (match_keyword pattern line) as [k|];
    [|split; [by left|intros [?|(m & ? & _)]; [done|discriminate]]].
  unfold package_of.
  destruct (KNOWN_PACKAGES !! k) as [pkg|] eqn:Hk.
  - cbn [fst snd]. rewrite elem_of_union, elem_of_singleton. split.
    + intros [->|?]; [right|by left]. exists k. by rewrite Hk.
    + intros [?|(m & [= <-] & Hm)]; [by right|]. rewrite Hk in Hm. left. congruence.
  - destruct (_is_stdlib k) eqn:Hs; cbn [fst snd negb].
    + split; [by left|]. intros [?|(m & [= <-] & Hm)]; [done|].
      rewrite Hk, Hs in Hm. done.
    + rewrite elem_of_union, elem_of_singleton. split.
      * intros [->|?]; [right|by left]. exists k. by rewrite Hk, Hs.
      * intros [?|(m & [= <-] & Hm)]; [by right|]. rewrite Hk, Hs in Hm. left. congruence.
Qed.

Lemma foldl_scan_pattern_imports line pats a (m : string) :
  m ∈ (foldl (scan_pattern line) a pats).1 <->
  m ∈ a.1 \/ m ∈ omap (fun pattern => match_keyword pattern line) pats.
Proof.
  revert a. induction pats as [|k pats IH]; intros a; cbn [foldl omap list_omap].
  - rewrite elem_of_nil. tauto.
  - rewrite IH, scan_pattern_imports.
    destruct (match_keyword k line) as [x|] eqn:Hx.
    + rewrite elem_of_cons. split.
      * intros [[?|[= ->]]|?]; auto.
      * intros [?|[->|?]]; auto.
    + split; [intros [[?|?]|?]; auto; discriminate|intros [?|?]; auto].
Qed.

Lemma foldl_scan_pattern_packages line pats a (p : string) :
  p ∈ (foldl (scan_pattern line) a pats).2 <->
  p ∈ a.2 \/ exists m, m ∈ omap (fun pattern => match_keyword pattern line) pats
                       /\ package_of m = Some p.
Proof.
  revert a. induction pats as [|k pats IH]; intros a; cbn [foldl omap list_omap].
  - split; [auto|]. intros [?|(m & Hm & _)]; [done|]. by apply elem_of_nil in Hm.
  - rewrite IH, scan_pattern_packages.
    destruct (match_keyword k line) as [x|] eqn:Hx.
    + split.
      * intros [[?|(m & [= ->] & Hp)]|(m & Hm & Hp)]; [by left|right..];
          exists m; rewrite elem_of_cons; auto.
      * intros [?|(m & [->|Hm]%elem_of_cons & Hp)];
          [by left; left|left; right; eauto|right; eauto].
    + split.
      * intros [[?|(m & ? & _)]|?]; [by left|discriminate|by right].
      * intros [?|?]; [by left; left|by right].
Qed.

Lemma foldl_scan_line_imports lines a (m : string) :
  m ∈ (foldl scan_line a lines).1 <->
  m ∈ a.1 \/ m ∈ lines ≫= line_modules.
Proof.
  revert a. induction lines as [|l lines IH]; intros a.
  - cbn [foldl]. change ([] ≫= line_modules) with (@nil string).
    rewrite elem_of_nil. tauto.
  - cbn [foldl]. rewrite IH, bind_cons, elem_of_app.
    unfold scan_line, line_modules at 1.
    rewrite foldl_scan_pattern_imports. tauto.
Qed.

Lemma foldl_scan_line_packages lines a (p : string) :
  p ∈ (foldl scan_line a lines).2 <->
  p ∈ a.2 \/ exists m, m ∈ lines ≫= line_modules /\ package_of m = Some p.
Proof.
  revert a. induction lines as [|l lines IH]; intros a.
  - cbn [foldl]. change ([] ≫= line_modules) with (@nil string).
    split; [auto|]. intros [?|(m & Hm & _)]; [done|].
    by apply elem_of_nil in Hm.
  - cbn [foldl]. rewrite IH, bind_cons.
    unfold scan_line, line_modules at 1.
    rewrite foldl_scan_pattern_packages. split.
    + intros [[?|(m & Hm & Hp)]|(m & Hm & Hp)]; [by left|right..];
        exists m; rewrite elem_of_app; auto.
    + intros [?|(m & [Hm|Hm]%elem_of_app & Hp)]; [by left; left|left; right|right];
        exists m; auto.
Qed.

Lemma scan_imports code (m : string) :
  m ∈ (scan code).1 <-> m ∈ modules code.
Proof.
  unfold scan, modules. rewrite foldl_scan_line_imports. cbn [fst].
  rewrite elem_of_empty. tauto.
Qed.

Lemma scan_packages code (p : string) :
  p ∈ (scan code).2 <-> exists m, m ∈ modules code /\ package_of m = Some p.
Proof.
  unfold scan, modules. rewrite foldl_scan_line_packages. cbn [snd].
  rewrite elem_of_empty. tauto.
Qed.

(** [sorted(list(s))]: the elements of the set, each once, in order. *)
Lemma sorted_elem_of (s : gset string) (x : string) : x ∈ sorted s <-> x ∈ s.
Proof. unfold sorted. rewrite merge_sort_Permutation. apply elem_of_elements. Qed.

Lemma sorted_NoDup (s : gset string) : NoDup (sorted s).
Proof. unfold sorted. rewrite merge_sort_Permutation. apply NoDup_elements. Qed.

Lemma sorted_Sorted (s : gset string) : Sorted String.le (sorted s).
Proof. unfold sorted. apply (Sorted_merge_sort String.le). Qed.

Lemma sorted_nil (s : gset string) : sorted s = [] <-> s = ∅.
Proof.
  split.
  - intros H. apply set_eq. intros x. rewrite <- sorted_elem_of, H.
    rewrite elem_of_nil. set_solver.
  - intros ->. reflexivity.
Qed.

Lemma str_list_strs (l : list string) : str_list (strs l) = l.
Proof.
  unfold str_list, strs. induction l as [|x l IH]; [reflexivity|].
  simpl. f_equal. exact IH.
Qed.

End Detection.

Section DetectionClaims.
Import Py World Json CodeProcessor Spec Examples.

Lemma known_package_not_os (m : string) : KNOWN_PACKAGES !! m <> Some "os".
Proof.
  intros H. apply elem_of_list_to_map_2 in H.
  repeat (apply elem_of_cons in H as [H|H]; [discriminate H|]).
  by apply elem_of_nil in H.
Qed.

Lemma package_of_not_os (m : string) : package_of m <> Some "os".
Proof.
  unfold package_of. destruct (KNOWN_PACKAGES !! m) as [p|] eqn:Hk.
  - intros [= ->]. by apply known_package_not_os in Hk.
  - destruct (_is_stdlib m) eqn:Hs; [discriminate|].
    intros [= ->]. vm_compute in Hs. discriminate.
Qed.

(** The imports of a text, read off the text: a line that, once stripped,
    is [import] or [from], white space, a longest run [m] of word
    characters, and anything after. *)
Lemma modules_spec (code m : string) :
  m ∈ modules code <->
  exists line kw ws rest,
    line ∈ split_on "010"%char code
    /\ kw ∈ ["import"; "from"]
    /\ strip line = kw ++ ws ++ m ++ rest
    /\ ws <> "" /\ str_forall isspace ws = true
    /\ m <> "" /\ str_forall isword m = true
    /\ (rest = "" \/ exists c r, rest = String c r /\ isword c = false).
Proof.
  unfold modules. rewrite list_elem_of_bind. split.
  - intros (line & Hm & Hline). unfold line_modules in Hm.
    apply list_elem_of_omap in Hm as (kw & Hkw & Hmatch).
    apply match_keyword_spec in Hmatch as (ws & rest & H).
    exists line, kw, ws, rest. split; [exact Hline|]. split; [exact Hkw|exact H].
  - intros (line & kw & ws & rest & Hline & Hkw & H).
    exists line. split; [|exact Hline]. unfold line_modules.
    apply list_elem_of_omap. exists kw. split; [exact Hkw|].
    apply match_keyword_spec. exists ws, rest. exact H.
Qed.

(** C2. [detect_dependencies] returns the imports, i.e. the first
    identifiers of the lines that match [^import <name>] or [^from <name>],
    and the packages of these imports (alias table, nothing for the
    standard library, the import itself otherwise), both sorted and without
    duplicates; [install_command] is [None] exactly when there is no
    package.  A text with the line [import numpy as np] has the package
    numpy, and no text has the package os. *)
Theorem detect_dependencies_spec (code : string) :
  exists imports pip_packages : list string,
    detect_dependencies code =
      [ ("imports", strs imports);
        ("pip_packages", strs pip_packages);
        ("install_command",
          match pip_packages with
          | [] => JNull
          | _ => JStr ("pip install " ++ join " " pip_packages)
          end) ]
    /\ (forall m, m ∈ imports <-> m ∈ modules code)
    /\ (forall m, m ∈ imports <->
          exists line kw ws rest,
            line ∈ split_on "010"%char code
            /\ kw ∈ ["import"; "from"]
            /\ strip line = kw ++ ws ++ m ++ rest
            /\ ws <> "" /\ str_forall isspace ws = true
            /\ m <> "" /\ str_forall isword m = true
            /\ (rest = "" \/ exists c r, rest = String c r /\ isword c = false))
    /\ (forall p, p ∈ pip_packages <->
                  exists m, m ∈ imports /\ package_of m = Some p)
    /\ Sorted String.le imports /\ NoDup imports
    /\ Sorted String.le pip_packages /\ NoDup pip_packages
    /\ (dict_get "install_command" (detect_dependencies code) = Some JNull
        <-> pip_packages = [])
    /\ (forall line, line ∈ split_on "010"%char code ->
                     strip line = "import numpy as np" ->
                     "numpy" ∈ pip_packages)
    /\ "os" ∉ pip_packages.
Proof.
  exists (sorted (scan code).1), (sorted (scan code).2).
  assert (Hdict : detect_dependencies code =
      [ ("imports", strs (sorted (scan code).1));
        ("pip_packages", strs (sorted (scan code).2));
        ("install_command",
          match sorted (scan code).2 with
          | [] => JNull
          | _ => JStr ("pip install " ++ join " " (sorted (scan code).2))
          end) ]).
  { unfold detect_dependencies. destruct (scan code) as [i p]. cbn [fst snd].
    repeat f_equal. case_bool_decide as Hp.
    - subst p. reflexivity.
    - destruct (sorted p) eqn:Hs; [|reflexivity].
      apply sorted_nil in Hs. contradiction. }
  assert (Hpk : forall p, p ∈ sorted (scan code).2 <->
                  exists m, m ∈ modules code /\ package_of m = Some p).
  { intros p. rewrite sorted_elem_of. apply scan_packages. }
  assert (Him : forall m, m ∈ sorted (scan code).1 <-> m ∈ modules code).
  { intros m. rewrite sorted_elem_of. apply scan_imports. }
  split; [exact Hdict|].
  split; [exact Him|].
  split; [intros m; rewrite Him; apply modules_spec|].
  split; [intros p; rewrite Hpk; split; intros (m & Hm & Hp); exists m;
          (split; [apply Him, Hm|exact Hp])|].
  split; [apply sorted_Sorted|]. split; [apply sorted_NoDup|].
  split; [apply sorted_Sorted|]. split; [apply sorted_NoDup|].
  split; [|split].
  - rewrite Hdict. cbn [dict_get].
    change ("install_command" =? "imports")%string with false.
    change ("install_command" =? "pip_packages")%string with false.
    change ("install_command" =? "install_command")%string with true.
    cbv iota. destruct (sorted (scan code).2); split; congruence.
  - intros line Hin Hline. apply Hpk. exists "numpy". split; [|reflexivity].
    unfold modules. apply list_elem_of_bind. exists line. split; [|exact Hin].
    unfold line_modules. rewrite Hline. vm_compute. left.
  - intros (m & _ & Hm)%Hpk. by apply package_of_not_os in Hm.
Qed.

Lemma detect_dependencies_witness :
  exists imports pip_packages : list string,
    dict_get "pip_packages" (detect_dependencies numpy_os_code)
      = Some (strs pip_packages)
    /\ "numpy" ∈ pip_packages /\ "os" ∉ pip_packages.
Proof.
  destruct (detect_dependencies_spec numpy_os_code)
    as (i & p & Hd & _ & _ & _ & _ & _ & _ & _ & _ & Hnumpy & Hos).
  exists i, p. split; [rewrite Hd; reflexivity|]. split; [|exact Hos].
  apply (Hnumpy "import numpy as np"); [|reflexivity].
  vm_compute. left.
Defined.

Lemma numpy_os_example :
  detect_dependencies numpy_os_code =
    [ ("imports", strs ["numpy"; "os"]);
      ("pip_packages", strs ["numpy"]);
      ("install_command", JStr "pip install numpy") ].
Proof. vm_compute. reflexivity. Qed.

End DetectionClaims.

Section SetupClaims.
Import Py World Json CodeProcessor Spec.

Lemma colab_preinstalled_spec (p : string) :
  p ∈ colab_preinstalled <->
  p ∈ [ "numpy"; "pandas"; "matplotlib"; "seaborn";
        "scikit-learn"; "tensorflow"; "keras" ].
Proof. unfold colab_preinstalled. apply elem_of_list_to_set. Qed.

(** C6. With no package the two setup texts are the fixed messages.
    Otherwise the Colab text is about the packages that are not among the
    seven pre-installed ones, in their order: the "all pre-installed"
    message when none is left, the install snippet for those left
    otherwise; and the local text is the three-step template around the
    whole list. *)
Theorem setup_texts (packages : list string) :
  (packages = [] ->
     _generate_colab_setup packages
       = "# No additional packages required - ready to run!"
     /\ _generate_local_setup packages = "No additional packages required.")
  /\ (packages <> [] ->
      exists remainder : list string,
        remainder = filter (fun p => p ∉ colab_preinstalled) packages
        /\ (forall p, p ∈ remainder <->
              p ∈ packages /\
              p ∉ [ "numpy"; "pandas"; "matplotlib"; "seaborn";
                    "scikit-learn"; "tensorflow"; "keras" ])
        /\ remainder `sublist_of` packages
        /\ (remainder = [] ->
              _generate_colab_setup packages
                = "# All required packages are pre-installed in Google Colab!")
        /\ (remainder <> [] ->
              _generate_colab_setup packages
                = "# Run this cell first to install required packages
!pip install " ++ join " " remainder ++ "

# Then run the main code below")
        /\ _generate_local_setup packages
             = "## Local Setup Instructions

1. Create a virtual environment (recommended):
   ```bash
   python -m venv ml_env
   source ml_env/bin/activate  # On Windows: ml_env\Scripts\activate
   ```

2. Install required packages:
   ```bash
   pip install " ++ join " " packages ++ "
   ```

3. Run the code:
   ```bash
   python your_script.py
   ```").
Proof.
  split.
  - intros ->. split; reflexivity.
  - intros Hne. exists (filter (fun p => p ∉ colab_preinstalled) packages).
    split; [reflexivity|]. split; [|split; [|split; [|split]]].
    + intros p. rewrite list_elem_of_filter, colab_preinstalled_spec. tauto.
    + apply sublist_filter.
    + intros Hr. unfold _generate_colab_setup.
      destruct packages; [contradiction|]. rewrite Hr. reflexivity.
    + intros Hr. unfold _generate_colab_setup.
      destruct packages as [|p0 ps]; [contradiction|].
      destruct (filter _ (p0 :: ps)) as [|r rs]; [contradiction|].
      unfold unlines. cbn [join]. unfold nl.
      rewrite !str_app_assoc. reflexivity.
    + unfold _generate_local_setup.
      destruct packages as [|p0 ps]; [contradiction|].
      unfold unlines, nl, bs. cbn [join].
      rewrite !str_app_assoc. reflexivity.
Qed.

Lemma setup_texts_witness :
  _generate_colab_setup ["numpy"; "torch"]
    = "# Run this cell first to install required packages
!pip install torch

# Then run the main code below"
  /\ _generate_colab_setup []
       = "# No additional packages required - ready to run!"
  /\ _generate_local_setup [] = "No additional packages required.".
Proof.
  destruct (setup_texts ["numpy"; "torch"]) as [_ H].
  destruct (H ltac:(discriminate)) as (r & Hr & _ & _ & _ & Hc & _).
  destruct (setup_texts []) as [H0 _].
  destruct (H0 eq_refl) as [Hc0 Hl0].
  split; [|split; [exact Hc0|exact Hl0]].
  rewrite Hc.
  - rewrite Hr. vm_compute. reflexivity.
  - rewrite Hr. vm_compute. discriminate.
Defined.

End SetupClaims.

Section FileNames.
Import Py World Json CodeProcessor Spec Outcome Examples.

Lemma digit_isdigit n : isdigit_ascii (digit n) = true.
Proof.
  unfold digit. pose proof (Nat.mod_upper_bound n 10 ltac:(lia)) as H.
  destruct (n mod 10) as [|[|[|[|[|[|[|[|[|[|k]]]]]]]]]]; try reflexivity. lia.
Qed.

Lemma isdigit_isword c : isdigit_ascii c = true -> isword c = true.
Proof. destruct c as [[] [] [] [] [] [] [] []]; vm_compute; congruence. Qed.

Lemma digits_fuel_digits fuel n acc :
  str_forall isdigit_ascii acc = true ->
  str_forall isdigit_ascii (digits_fuel fuel n acc) = true.
Proof.
  revert n acc. induction fuel as [|f IH]; intros n acc Hacc;
    cbn [digits_fuel]; [exact Hacc|].
  assert (H : str_forall isdigit_ascii (String (digit n) acc) = true).
  { cbn [str_forall]. rewrite digit_isdigit, Hacc. reflexivity. }
  destruct (n <? 10)%nat; [exact H|]. apply IH, H.
Qed.

Lemma zeros_digits k : str_forall isdigit_ascii (zeros k) = true.
Proof. induction k as [|k IH]; cbn [zeros str_forall]; [reflexivity|exact IH]. Qed.

Lemma pad_digits w n : str_forall isdigit_ascii (pad w n) = true.
Proof.
  unfold pad, str_of_nat. rewrite str_forall_app, zeros_digits.
  apply digits_fuel_digits. reflexivity.
Qed.

Lemma pad_word w n : str_forall isword (pad w n) = true.
Proof. eapply str_forall_impl; [apply isdigit_isword|apply pad_digits]. Qed.

(** The timestamp of the file names is digits and one underscore. *)
Lemma strftime_compact_word t : str_forall isword (strftime_compact t) = true.
Proof.
  unfold strftime_compact. rewrite !str_forall_app, !pad_word. reflexivity.
Qed.

Lemma str_forall_str_map (p : ascii -> bool) f (s : string) :
  (forall c, p (f c) = true) -> str_forall p (str_map f s) = true.
Proof.
  intros H. induction s as [|c s IH]; cbn [str_map str_forall]; [reflexivity|].
  rewrite H, IH. reflexivity.
Qed.

(** The sanitized topic is alphanumerics and underscores. *)
Lemma safe_topic_word topic : str_forall isword (safe_topic topic) = true.
Proof.
  unfold safe_topic. apply str_forall_str_map. intros c.
  destruct (isalnum c) eqn:Hc; [|reflexivity].
  unfold isword. rewrite Hc. reflexivity.
Qed.

Lemma safe_topic_chars topic :
  chars (safe_topic topic)
  = (fun c => if isalnum c then c else "_"%char) <$> list.take 30 (chars topic).
Proof. unfold safe_topic. rewrite chars_str_map, chars_take. reflexivity. Qed.

Lemma word_not_slash (s : string) :
  str_forall filename_char s = true -> contains "/" s = false.
Proof.
  induction s as [|c s IH]; [reflexivity|].
  cbn [str_forall contains startswith]. intros [Hc Hs]%andb_true_iff.
  rewrite (IH Hs). destruct (Ascii.eqb_spec "/" c) as [<-|_];
    [discriminate Hc|reflexivity].
Qed.

Lemma word_filename_char (s : string) :
  str_forall isword s = true -> str_forall filename_char s = true.
Proof.
  apply str_forall_impl. intros c H. unfold filename_char. rewrite H. reflexivity.
Qed.

Lemma no_slash_startswith (s : string) :
  contains "/" s = false -> startswith s "/" = false.
Proof.
  destruct s; cbn [contains]; [reflexivity|]. intros H%orb_false_iff. tauto.
Qed.

(** A name without separator is joined directly under the directory. *)
Lemma path_join_inside (dir name : string) :
  contains "/" name = false ->
  exists sep, path_join dir name = dir ++ sep ++ name
    /\ (sep = "/" \/ sep = "" /\ (dir = "" \/ endswith dir "/" = true)).
Proof.
  intros H. unfold path_join. rewrite (no_slash_startswith _ H).
  destruct (String.eqb_spec dir "") as [->|Hd].
  - exists "". split; [reflexivity|]. right. auto.
  - destruct (endswith dir "/") eqn:He.
    + exists "". split; [reflexivity|]. right. auto.
    + exists "/". split; [reflexivity|]. left. reflexivity.
Qed.

Lemma endswith_app3 (a b c p : string) : endswith (a ++ b ++ c ++ p) p = true.
Proof. rewrite <- !str_app_assoc. apply endswith_app. Qed.

(** What [save_code_file] does without a file name: the two outcomes. *)
Lemma save_code_file_outcome (code topic : string) (w : world) :
  let filename :=
    safe_topic topic ++ "_" ++ strftime_compact (clock w (ticks w)) ++ ".py" in
  let filepath := path_join (code_dir w) filename in
  let content := header topic (clock w (S (ticks w))) ++ code in
  exists w',
    match open_error w filepath with
    | None =>
        save_code_file code topic None w
          = (inr [ ("success", JBool true);
                   ("filepath", JStr filepath);
                   ("filename", JStr filename);
                   ("relative_path",
                     JStr ("/static/generated/code/" ++ filename)) ], w')
        /\ fs w' = <[filepath := content]> (fs w)
    | Some msg =>
        save_code_file code topic None w = (inr (failure_result msg), w')
        /\ fs w' = fs w
    end.
Proof.
  intros filename filepath content.
  unfold save_code_file. run. rewrite endswith_app3. run.
  fold filename. fold filepath.
  destruct (open_error w filepath) as [msg|]; eexists; split; reflexivity.
Qed.

(** C5. Without a file name, [save_code_file] names the file after the
    first 30 characters of the topic, each non-alphanumeric one replaced by
    an underscore, then an underscore, the timestamp and [.py]; when the
    file can be written its content is the header comment with the topic,
    followed by the code.  For the topic [Gradient Descent] the name is
    [Gradient_Descent_<timestamp>.py]. *)
Theorem save_code_file_derived (code topic : string) (w : world) :
  let filename :=
    safe_topic topic ++ "_" ++ strftime_compact (clock w (ticks w)) ++ ".py" in
  let filepath := path_join (code_dir w) filename in
  let content :=
    dq ++ dq ++ dq ++ nl
    ++ "Generated by GyanGuru - AI ML Learning Assistant" ++ nl
    ++ "Topic: " ++ topic ++ nl
    ++ "Generated: " ++ strftime_iso (clock w (S (ticks w))) ++ nl
    ++ dq ++ dq ++ dq ++ nl ++ nl
    ++ code in
  chars (safe_topic topic)
    = (fun c => if isalnum c then c else "_"%char) <$> list.take 30 (chars topic)
  /\ (topic = "Gradient Descent" ->
      filename
        = "Gradient_Descent_" ++ strftime_compact (clock w (ticks w)) ++ ".py")
  /\ (open_error w filepath = None ->
      exists w',
        save_code_file code topic None w
          = (inr [ ("success", JBool true);
                   ("filepath", JStr filepath);
                   ("filename", JStr filename);
                   ("relative_path",
                     JStr ("/static/generated/code/" ++ filename)) ], w')
        /\ fs w' = <[filepath := content]> (fs w))
  /\ (forall msg, open_error w filepath = Some msg ->
      exists w',
        save_code_file code topic None w
          = (inr [ ("success", JBool false);
                   ("error", JStr msg);
                   ("filepath", JNull) ], w')
        /\ fs w' = fs w).
Proof.
  intros filename filepath content.
  split; [apply safe_topic_chars|]. split; [intros ->; reflexivity|].
  destruct (save_code_file_outcome code topic w) as [w' H].
  fold filename in H. fold filepath in H.
  split.
  - intros Hopen. rewrite Hopen in H. destruct H as [Hrun Hfs].
    exists w'. split; [exact Hrun|]. rewrite Hfs. f_equal.
    unfold content, header, unlines. cbn [join].
    rewrite !str_app_assoc. reflexivity.
  - intros msg Hopen. rewrite Hopen in H. exists w'. exact H.
Qed.

Lemma save_code_file_witness :
  exists w',
    save_code_file "print(1)" "Gradient Descent" None world0
      = (inr [ ("success", JBool true);
               ("filepath",
                 JStr "static/generated/code/Gradient_Descent_20261103_090500.py");
               ("filename", JStr "Gradient_Descent_20261103_090500.py");
               ("relative_path",
                 JStr "/static/generated/code/Gradient_Descent_20261103_090500.py") ],
         w')
    /\ fs w' !! "static/generated/code/Gradient_Descent_20261103_090500.py"
       = Some (dq ++ dq ++ dq ++ nl
               ++ "Generated by GyanGuru - AI ML Learning Assistant" ++ nl
               ++ "Topic: Gradient Descent" ++ nl
               ++ "Generated: 2026-11-03 09:05:00" ++ nl
               ++ dq ++ dq ++ dq ++ nl ++ nl
               ++ "print(1)").
Proof.
  destruct (save_code_file_derived "print(1)" "Gradient Descent" world0)
    as (_ & _ & H & _).
  destruct (H eq_refl) as (w' & Hrun & Hfs).
  exists w'. split; [exact Hrun|]. rewrite Hfs. vm_compute. reflexivity.
Defined.

End FileNames.

Section ImagePaths.
Import Py World Json ImageGenerator Outcome Examples.

(** The placeholder path on its own. *)
Lemma placeholder_outcome topic diagram_type filename filepath w :
  exists r w',
    _create_placeholder_image topic diagram_type filename filepath w = (inr r, w')
    /\ ((exists img,
          fallback_completes w topic diagram_type filepath img
          /\ r = placeholder_result filepath filename topic diagram_type
          /\ fs w' = <[filepath := img]> (fs w))
        \/ ((forall img, ~ fallback_completes w topic diagram_type filepath img)
            /\ (exists msg,
                  r = failure_result ("Failed to create placeholder: " ++ msg))
            /\ fs w' = fs w)).
Proof.
  unfold _create_placeholder_image, fallback_completes. run.
  destruct (pil_placeholder w topic diagram_type (lower (splitext_ext filepath)))
    as [[msg]|img] eqn:Hpil; run.
  - eexists _, _. split; [reflexivity|]. right.
    split; [intros img [H _]; discriminate|]. split; [eauto|reflexivity].
  - destruct (open_error w filepath) as [msg|] eqn:Hopen; run.
    + eexists _, _. split; [reflexivity|]. right.
      split; [intros img' [_ H]; discriminate|]. split; [eauto|reflexivity].
    + eexists _, _. split; [reflexivity|]. left. exists img.
      repeat split.
Qed.

(** The inner [try] block: it returns the result of the primary path when
    that completes, and falls through otherwise, leaving the files alone. *)
Lemma primary_outcome prompt topic diagram_type filename filepath w :
  exists o w',
    primary prompt topic diagram_type filename filepath w = (inr o, w')
    /\ open_error w' = open_error w
    /\ pil_placeholder w' = pil_placeholder w
    /\ ((exists bytes,
          primary_completes w prompt filepath bytes
          /\ o = Some (image_result filepath filename topic diagram_type "gemini")
          /\ fs w' = <[filepath := bytes]> (fs w))
        \/ ((forall bytes, ~ primary_completes w prompt filepath bytes)
            /\ o = None /\ fs w' = fs w)).
Proof.
  unfold primary, primary_completes. run.
  destruct (image_model w (enhanced_prompt prompt)) as [[msg]|resp] eqn:Hm; run.
  { eexists _, _. split; [reflexivity|]. do 2 (split; [reflexivity|]). right.
    split; [|split; reflexivity]. intros b (?&?&?&?&?&_). congruence. }
  destruct (candidates resp) as [|c cs] eqn:Hc; run.
  { eexists _, _. split; [reflexivity|]. do 2 (split; [reflexivity|]). right.
    split; [|split; reflexivity]. intros b (?&?&?&?&?&?&_). congruence. }
  destruct (first_inline_data (parts c)) as [d|] eqn:Hd; run.
  2:{ eexists _, _. split; [reflexivity|]. do 2 (split; [reflexivity|]). right.
      split; [|split; reflexivity]. intros b (?&?&?&?&?&?&?&_). congruence. }
  destruct (b64decode w d) as [[msg]|bytes] eqn:Hb; run.
  { eexists _, _. split; [reflexivity|]. do 2 (split; [reflexivity|]). right.
    split; [|split; reflexivity]. intros b (?&?&?&?&?&?&?&?&_). congruence. }
  destruct (open_error w filepath) as [msg|] eqn:Ho; run.
  { eexists _, _. split; [reflexivity|]. do 2 (split; [reflexivity|]). right.
    split; [|split; reflexivity]. intros b (?&?&?&?&?&?&?&?&?). congruence. }
  eexists _, _. split; [reflexivity|]. do 2 (split; [reflexivity|]). left.
  exists bytes. split; [|split; reflexivity]. exists resp, c, cs, d. auto.
Qed.

(** The three outcomes of [generate_diagram]. *)
Lemma generate_diagram_outcome prompt topic diagram_type filename w :
  let name := diagram_filename topic diagram_type filename w in
  let path := path_join (image_dir w) name in
  exists r w',
    generate_diagram prompt topic diagram_type filename w = (inr r, w')
    /\ ((exists bytes,
          primary_completes w prompt path bytes
          /\ r = image_result path name topic diagram_type "gemini"
          /\ fs w' = <[path := bytes]> (fs w))
        \/ ((forall bytes, ~ primary_completes w prompt path bytes)
            /\ exists img,
                 fallback_completes w topic diagram_type path img
                 /\ r = placeholder_result path name topic diagram_type
                 /\ fs w' = <[path := img]> (fs w))
        \/ ((forall bytes, ~ primary_completes w prompt path bytes)
            /\ (forall img, ~ fallback_completes w topic diagram_type path img)
            /\ (exists msg,
                  r = failure_result ("Failed to create placeholder: " ++ msg))
            /\ fs w' = fs w)).
Proof.
  intros name path. unfold generate_diagram.
  set (first_step :=
    (if CodeProcessor.no_filename filename
     then World.bind now (fun t => ret (derived_filename topic diagram_type t))
     else ret (default "" filename))).
  assert (Hfirst : exists w1, first_step w = (inr name, w1)
            /\ image_dir w1 = image_dir w /\ fs w1 = fs w
            /\ image_model w1 = image_model w /\ b64decode w1 = b64decode w
            /\ open_error w1 = open_error w
            /\ pil_placeholder w1 = pil_placeholder w).
  { unfold first_step, name, diagram_filename.
    destruct (CodeProcessor.no_filename filename); run;
      eexists; split; [reflexivity|repeat split|reflexivity|repeat split]. }
  destruct Hfirst as (w1 & H1 & Hdir & Hfs1 & Him & Hb64 & Hop & Hpil).
  unfold World.try_with at 1. unfold World.bind at 1. rewrite H1.
  unfold World.bind at 1, World.ask at 1. rewrite Hdir. fold path.
  unfold World.bind at 1.
  destruct (primary_outcome prompt topic diagram_type name path w1)
    as (o & w2 & H2 & Hop2 & Hpil2 & Hcases).
  rewrite H2.
  assert (Hpc : forall bytes, primary_completes w1 prompt path bytes
                              <-> primary_completes w prompt path bytes).
  { intros bytes. unfold primary_completes. rewrite Him, Hb64, Hop. reflexivity. }
  destruct Hcases as [(bytes & Hp & -> & Hfs2)|(Hnp & -> & Hfs2)].
  - run. eexists _, _. split; [reflexivity|]. left. exists bytes.
    split; [apply Hpc, Hp|]. split; [reflexivity|]. rewrite Hfs2, Hfs1. reflexivity.
  - destruct (placeholder_outcome topic diagram_type name path w2)
      as (r & w3 & H3 & Hcases).
    rewrite H3. exists r, w3. split; [reflexivity|]. right.
    assert (Hfc : forall img, fallback_completes w2 topic diagram_type path img
                              <-> fallback_completes w topic diagram_type path img).
    { intros img. unfold fallback_completes. rewrite Hpil2, Hop2, Hpil, Hop. reflexivity. }
    destruct Hcases as [(img & Hf & -> & Hfs3)|(Hnf & Hmsg & Hfs3)].
    + left. split; [intros b Hb; apply (Hnp b), Hpc, Hb|].
      exists img. split; [apply Hfc, Hf|]. split; [reflexivity|].
      rewrite Hfs3, Hfs2, Hfs1. reflexivity.
    + right. split; [intros b Hb; apply (Hnp b), Hpc, Hb|].
      split; [intros img Hi; apply (Hnf img), Hfc, Hi|].
      split; [exact Hmsg|]. rewrite Hfs3, Hfs2, Hfs1. reflexivity.
Qed.

End ImagePaths.

Section ImageClaims.
Import Py World Json ImageGenerator Outcome Examples.

Lemma primary_completes_functional w prompt path b1 b2 :
  primary_completes w prompt path b1 ->
  primary_completes w prompt path b2 -> b1 = b2.
Proof.
  intros (r1 & c1 & cs1 & d1 & Hm1 & Hc1 & Hd1 & Hb1 & _)
         (r2 & c2 & cs2 & d2 & Hm2 & Hc2 & Hd2 & Hb2 & _).
  rewrite Hm1 in Hm2. injection Hm2 as <-.
  rewrite Hc1 in Hc2. injection Hc2 as <- <-.
  rewrite Hd1 in Hd2. injection Hd2 as <-.
  rewrite Hb1 in Hb2. injection Hb2 as <-. reflexivity.
Qed.

Lemma fallback_completes_functional w topic diagram_type path i1 i2 :
  fallback_completes w topic diagram_type path i1 ->
  fallback_completes w topic diagram_type path i2 -> i1 = i2.
Proof. intros [H1 _] [H2 _]. rewrite H1 in H2. injection H2 as <-. reflexivity. Qed.

(** C1. [generate_diagram] always returns a result dictionary, never an
    exception.  The result has [success = True] as soon as the primary path
    completes, and as soon as the placeholder path can complete, which
    takes a file name whose extension selects a format; in particular when
    the image model raises and the placeholder is drawn and written, and
    then the method is the placeholder.  When neither path completes the
    result has [success = False]. *)
Theorem generate_diagram_total (prompt topic diagram_type : string)
    (filename : option string) (w : world) :
  let name := diagram_filename topic diagram_type filename w in
  let path := path_join (image_dir w) name in
  exists r w',
    generate_diagram prompt topic diagram_type filename w = (inr r, w')
    /\ (forall bytes, primary_completes w prompt path bytes ->
          dict_get "success" r = Some (JBool true))
    /\ (forall img, fallback_completes w topic diagram_type path img ->
          dict_get "success" r = Some (JBool true))
    /\ (forall e img,
          image_model w (enhanced_prompt prompt) = inl e ->
          fallback_completes w topic diagram_type path img ->
          dict_get "success" r = Some (JBool true)
          /\ dict_get "method" r = Some (JStr "placeholder"))
    /\ ((forall bytes, ~ primary_completes w prompt path bytes) ->
        (forall img, ~ fallback_completes w topic diagram_type path img) ->
        dict_get "success" r = Some (JBool false))
    /\ (dict_get "success" r = Some (JBool true)
        \/ dict_get "success" r = Some (JBool false)).
Proof.
  intros name path.
  destruct (generate_diagram_outcome prompt topic diagram_type filename w)
    as (r & w' & Hrun & Hcases).
  fold name in Hcases. fold path in Hcases.
  exists r, w'. split; [exact Hrun|].
  destruct Hcases as [(b & Hp & -> & _)|[(Hnp & img & Hf & -> & _)
                                        |(Hnp & Hnf & (msg & ->) & _)]].
  - split; [intros; reflexivity|]. split; [intros; reflexivity|].
    split; [|split; [|left; reflexivity]].
    + intros e img He _. destruct Hp as (?&?&?&?&Hm&_). congruence.
    + intros Hnp _. destruct (Hnp b Hp).
  - split; [intros; reflexivity|]. split; [intros; reflexivity|].
    split; [intros; split; reflexivity|].
    split; [|left; reflexivity].
    intros _ Hnf. destruct (Hnf img Hf).
  - split; [intros b Hb; destruct (Hnp b Hb)|].
    split; [intros i Hi; destruct (Hnf i Hi)|].
    split; [intros e i _ Hi; destruct (Hnf i Hi)|].
    split; [intros _ _; reflexivity|]. right. reflexivity.
Qed.

Lemma generate_diagram_total_witness :
  (exists r w',
     generate_diagram "a diagram" "CNN" "architecture" None world0 = (inr r, w')
     /\ dict_get "success" r = Some (JBool true)
     /\ dict_get "method" r = Some (JStr "placeholder"))
  /\ (exists r w',
        generate_diagram "a diagram" "CNN" "architecture" (Some "pic") world0
          = (inr r, w')
        /\ dict_get "success" r = Some (JBool false)).
Proof.
  split.
  - destruct (generate_diagram_total "a diagram" "CNN" "architecture" None
                world0) as (r & w' & Hrun & _ & _ & H & _).
    exists r, w'. split; [exact Hrun|].
    apply (H (Exception "503 unavailable") "PNG"); [reflexivity|].
    split; reflexivity.
  - destruct (generate_diagram_total "a diagram" "CNN" "architecture"
                (Some "pic") world0) as (r & w' & Hrun & _ & _ & _ & H & _).
    exists r, w'. split; [exact Hrun|]. apply H.
    + intros bytes (?&?&?&?&Hm&_). discriminate Hm.
    + intros img [Hdraw _]. vm_compute in Hdraw. discriminate Hdraw.
Defined.

(** C3, as stated, fails: with inline data decoded and written the method
    is ["gemini"], not ["primary"]; and inline data that is no base64, as
    three characters without padding are, ends in the placeholder. *)
Lemma method_primary_counterexample :
  (exists r w',
     generate_diagram "a diagram" "CNN" "architecture" None world_inline
       = (inr r, w')
     /\ primary_completes world_inline "a diagram"
          "static/generated/images/CNN_architecture_20261103_090500.png" "img"
     /\ dict_get "method" r = Some (JStr "gemini")
     /\ dict_get "method" r <> Some (JStr "primary"))
  /\ (exists r w',
        generate_diagram "a diagram" "CNN" "architecture" None world_bad_data
          = (inr r, w')
        /\ image_model world_bad_data (enhanced_prompt "a diagram")
             = inr bad_response
        /\ first_inline_data (parts bad_candidate) = Some "abc"
        /\ b64decode world_bad_data "abc"
             = inl (Exception "Incorrect padding")
        /\ b64decode world_bad_data "aW1n" = inr "img"
        /\ dict_get "method" r = Some (JStr "placeholder")).
Proof.
  split.
  - eexists _, _. split; [vm_compute; reflexivity|].
    split; [|split; [reflexivity|discriminate]].
    eexists _, _, _, _. repeat split; reflexivity.
  - eexists _, _. split; [vm_compute; reflexivity|]. repeat split.
Qed.

(** C3, amended.  When the primary path obtains inline data that decodes
    and the file can be written, the decoded bytes are the content of the
    file at the derived path and the method of the result is ["gemini"];
    when it does not complete and the placeholder does, the method is
    ["placeholder"]. *)
Theorem generate_diagram_method (prompt topic diagram_type : string)
    (filename : option string) (w : world) :
  let name := diagram_filename topic diagram_type filename w in
  let path := path_join (image_dir w) name in
  exists r w',
    generate_diagram prompt topic diagram_type filename w = (inr r, w')
    /\ (forall bytes, primary_completes w prompt path bytes ->
          fs w' !! path = Some bytes
          /\ dict_get "filepath" r = Some (JStr path)
          /\ dict_get "method" r = Some (JStr "gemini"))
    /\ ((forall bytes, ~ primary_completes w prompt path bytes) ->
        forall img, fallback_completes w topic diagram_type path img ->
          fs w' !! path = Some img
          /\ dict_get "filepath" r = Some (JStr path)
          /\ dict_get "method" r = Some (JStr "placeholder")).
Proof.
  intros name path.
  destruct (generate_diagram_outcome prompt topic diagram_type filename w)
    as (r & w' & Hrun & Hcases).
  fold name in Hcases. fold path in Hcases.
  exists r, w'. split; [exact Hrun|].
  destruct Hcases as [(b & Hp & -> & Hfs)|[(Hnp & img & Hf & -> & Hfs)
                                          |(Hnp & Hnf & (msg & ->) & _)]].
  - split.
    + intros b' Hb'. rewrite (primary_completes_functional _ _ _ _ _ Hb' Hp).
      rewrite Hfs, lookup_insert_eq. repeat split.
    + intros Hnp. destruct (Hnp b Hp).
  - split; [intros b Hb; destruct (Hnp b Hb)|].
    intros _ img' Hf'. rewrite (fallback_completes_functional _ _ _ _ _ _ Hf' Hf).
    rewrite Hfs, lookup_insert_eq. repeat split.
  - split; [intros b Hb; destruct (Hnp b Hb)|].
    intros _ img Hf. destruct (Hnf img Hf).
Qed.

Lemma generate_diagram_method_witness :
  exists r w',
    generate_diagram "a diagram" "CNN" "architecture" None world_inline
      = (inr r, w')
    /\ fs w' !! "static/generated/images/CNN_architecture_20261103_090500.png"
       = Some "img"
    /\ dict_get "method" r = Some (JStr "gemini").
Proof.
  destruct (generate_diagram_method "a diagram" "CNN" "architecture" None
              world_inline) as (r & w' & Hrun & H & _).
  exists r, w'. split; [exact Hrun|].
  destruct (H "img") as (Hfs & _ & Hm); [|split; [exact Hfs|exact Hm]].
  exists inline_response, inline_candidate, [], "aW1n".
  repeat split; reflexivity.
Defined.

End ImageClaims.

Section FileNameClaims.
Import Py World Json CodeProcessor ImageGenerator Outcome Examples.

Lemma stem_filename_char (stem ext : string) :
  str_forall isword stem = true ->
  str_forall isword ext = true ->
  str_forall filename_char (stem ++ "." ++ ext) = true.
Proof.
  intros Hs He. rewrite !str_forall_app.
  rewrite (word_filename_char _ Hs), (word_filename_char _ He). reflexivity.
Qed.

(** The diagram type that the image handler passes on is one of the four
    it recognizes. *)
Lemma normalize_diagram_type (v : json) :
  App.normalize v App.diagram_types "architecture" ∈ App.diagram_types.
Proof.
  unfold App.normalize.
  destruct (in_strs v App.diagram_types) eqn:Hin; cbn [negb].
  - destruct v; try discriminate Hin.
    unfold in_strs, App.diagram_types in Hin. cbn [existsb eq_str] in Hin.
    cbn [App.as_str]. unfold App.diagram_types. rewrite !elem_of_cons.
    repeat (apply orb_prop in Hin as [Hin|Hin];
            [apply String.eqb_eq in Hin; auto 10|]).
    discriminate Hin.
  - unfold App.diagram_types. rewrite !elem_of_cons. auto.
Qed.

(** C10.  The file name derived by [save_code_file] is made of
    alphanumeric characters and underscores, followed by [.py]: the
    sanitized first 30 characters of the topic, an underscore and the
    timestamp.  The same holds for [generate_diagram] with [.png] for every
    topic and every diagram type made of alphanumeric characters and
    underscores, as the four recognized diagram types are; the image
    handler, the only caller, passes one of these four whatever the request
    holds.  Such a name has no path separator, and the only file written is
    the one with that name directly under the output directory. *)
Theorem derived_filenames_safe :
  (forall (code topic : string) (w : world),
     let stem :=
       safe_topic topic ++ "_" ++ strftime_compact (clock w (ticks w)) in
     let filename := stem ++ ".py" in
     let filepath := path_join (code_dir w) filename in
     chars (safe_topic topic)
       = (fun c => if isalnum c then c else "_"%char)
           <$> list.take 30 (chars topic)
     /\ str_forall isword stem = true
     /\ str_forall filename_char filename = true
     /\ contains "/" filename = false
     /\ (exists sep,
           filepath = code_dir w ++ sep ++ filename
           /\ (sep = "/"
               \/ sep = "" /\ (code_dir w = "" \/ endswith (code_dir w) "/" = true)))
     /\ exists r w',
          save_code_file code topic None w = (inr r, w')
          /\ ((dict_get "filename" r = Some (JStr filename)
               /\ exists content, fs w' = <[filepath := content]> (fs w))
              \/ (dict_get "success" r = Some (JBool false) /\ fs w' = fs w)))
  /\ (forall (prompt topic diagram_type : string) (w : world),
        str_forall isword diagram_type = true ->
        let stem :=
          safe_topic topic ++ "_" ++ diagram_type ++ "_"
          ++ strftime_compact (clock w (ticks w)) in
        let filename := stem ++ ".png" in
        let filepath := path_join (image_dir w) filename in
        str_forall isword stem = true
        /\ str_forall filename_char filename = true
        /\ contains "/" filename = false
        /\ (exists sep,
              filepath = image_dir w ++ sep ++ filename
              /\ (sep = "/"
                  \/ sep = "" /\ (image_dir w = ""
                                  \/ endswith (image_dir w) "/" = true)))
        /\ exists r w',
             generate_diagram prompt topic diagram_type None w = (inr r, w')
             /\ ((dict_get "filename" r = Some (JStr filename)
                  /\ exists content, fs w' = <[filepath := content]> (fs w))
                 \/ (dict_get "success" r = Some (JBool false) /\ fs w' = fs w)))
  /\ Forall (fun t => str_forall isword t = true) App.diagram_types
  /\ (forall v : json,
        let diagram_type :=
          App.normalize v App.diagram_types "architecture" in
        diagram_type ∈ App.diagram_types
        /\ str_forall isword diagram_type = true).
Proof.
  assert (Htypes : Forall (fun t => str_forall isword t = true)
                     App.diagram_types) by (repeat constructor).
  split; [|split; [|split]].
  - intros code topic w stem filename filepath.
    assert (Hstem : str_forall isword stem = true).
    { unfold stem. rewrite !str_forall_app, safe_topic_word, strftime_compact_word.
      reflexivity. }
    assert (Hchars : str_forall filename_char filename = true).
    { apply (stem_filename_char stem "py" Hstem). reflexivity. }
    pose proof (word_not_slash _ Hchars) as Hslash.
    split; [apply safe_topic_chars|].
    split; [exact Hstem|]. split; [exact Hchars|]. split; [exact Hslash|].
    split; [apply path_join_inside, Hslash|].
    destruct (save_code_file_outcome code topic w) as [w' H].
    replace (safe_topic topic ++ "_" ++ strftime_compact (clock w (ticks w)) ++ ".py")
      with filename in H by (unfold filename, stem; rewrite !str_app_assoc; reflexivity).
    fold filepath in H.
    destruct (open_error w filepath) as [msg|]; destruct H as [Hrun Hfs];
      eexists _, w'; (split; [exact Hrun|]).
    + right. split; [reflexivity|exact Hfs].
    + left. split; [reflexivity|]. eexists. exact Hfs.
  - intros prompt topic diagram_type w Hdt stem filename filepath.
    assert (Hstem : str_forall isword stem = true).
    { unfold stem. rewrite !str_forall_app, safe_topic_word, Hdt,
        strftime_compact_word. reflexivity. }
    assert (Hchars : str_forall filename_char filename = true).
    { apply (stem_filename_char stem "png" Hstem). reflexivity. }
    pose proof (word_not_slash _ Hchars) as Hslash.
    split; [exact Hstem|]. split; [exact Hchars|]. split; [exact Hslash|].
    split; [apply path_join_inside, Hslash|].
    destruct (generate_diagram_outcome prompt topic diagram_type None w)
      as (r & w' & Hrun & Hcases).
    replace (diagram_filename topic diagram_type None w) with filename in Hcases
      by (unfold filename, stem, diagram_filename, derived_filename;
          cbn [no_filename]; rewrite !str_app_assoc; reflexivity).
    fold filepath in Hcases.
    exists r, w'. split; [exact Hrun|].
    destruct Hcases as [(b & _ & -> & Hfs)|[(_ & img & _ & -> & Hfs)
                                           |(_ & _ & (msg & ->) & Hfs)]].
    + left. split; [reflexivity|]. eexists. exact Hfs.
    + left. split; [reflexivity|]. eexists. exact Hfs.
    + right. split; [reflexivity|exact Hfs].
  - exact Htypes.
  - intros v diagram_type. pose proof (normalize_diagram_type v) as Hin.
    split; [exact Hin|].
    rewrite Forall_forall in Htypes. apply Htypes, Hin.
Qed.

Lemma derived_filenames_safe_witness :
  str_forall isword "architecture" = true
  /\ str_forall filename_char "CNN_architecture_20261103_090500.png" = true
  /\ contains "/" "CNN_architecture_20261103_090500.png" = false
  /\ App.normalize (JStr "a/b") App.diagram_types "architecture"
     = "architecture".
Proof.
  destruct derived_filenames_safe as (_ & H & _).
  destruct (H "a diagram" "CNN" "architecture" world0 eq_refl)
    as (_ & Hc & Hs & _).
  split; [reflexivity|]. split; [exact Hc|]. split; [exact Hs|reflexivity].
Defined.

End FileNameClaims.

Section RetryClaims.
Import Py World Json GeminiClient Retry Examples.

Lemma world_eta (w : world) :
  upd w (ticks w) (model_calls w) (slept w) (stdout w) (fs w) = w.
Proof. destruct w. reflexivity. Qed.

Lemma after_calls_0 w : after_calls w 0 [] = w.
Proof.
  unfold after_calls. rewrite Nat.add_0_r, app_nil_r. apply world_eta.
Qed.

Lemma after_calls_after w a b (l1 l2 : list nat) :
  after_calls (after_calls w a l1) b l2 = after_calls w (a + b) (l1 ++ l2).
Proof.
  unfold after_calls, upd. cbn. rewrite Nat.add_assoc, <- app_assoc. reflexivity.
Qed.

(** One attempt that ends in a rate-limit failure: the call, the sleep,
    and the loop goes on with the remaining attempts. *)
Lemma retry_loop_rate_limited prompt attempt rest w e :
  outcome w prompt 0 = inl e -> is_rate_limit e = true ->
  retry_loop (generate_content prompt) (attempt :: rest) w
  = retry_loop (generate_content prompt) rest
      (after_calls w 1 [2 ^ attempt * 2]).
Proof.
  unfold outcome. rewrite Nat.add_0_r. intros Hout Hrate.
  cbn [retry_loop]. unfold try_with at 1, generate_content at 1.
  rewrite Hout, Hrate. unfold World.bind at 1, sleep at 1.
  f_equal. unfold after_calls, upd. cbn. rewrite Nat.add_1_r. reflexivity.
Qed.

(** One attempt that ends otherwise: the result or the exception of the
    call is the outcome of the loop. *)
Lemma retry_loop_final prompt attempt rest w :
  match outcome w prompt 0 with
  | inl e => is_rate_limit e = false
  | inr _ => True
  end ->
  retry_loop (generate_content prompt) (attempt :: rest) w
  = (outcome w prompt 0, after_calls w 1 []).
Proof.
  unfold outcome. rewrite Nat.add_0_r. intros H.
  cbn [retry_loop]. unfold try_with at 1, generate_content at 1.
  assert (Hw : upd w (ticks w) (S (model_calls w)) (slept w) (stdout w) (fs w)
               = after_calls w 1 []).
  { unfold after_calls. rewrite Nat.add_1_r, app_nil_r. reflexivity. }
  destruct (text_model w (model_calls w) prompt) as [e|v].
  - rewrite H. unfold raise. rewrite Hw. reflexivity.
  - rewrite Hw. reflexivity.
Qed.

Lemma outcome_after w prompt a l i :
  outcome (after_calls w a l) prompt i = outcome w prompt (a + i).
Proof. unfold outcome, after_calls, upd. cbn. rewrite Nat.add_assoc. reflexivity. Qed.

(** [k] rate-limit failures in a row use up the first [k] attempts. *)
Lemma retry_loop_prefix prompt k start rest w :
  (forall i, i < k ->
     exists e, outcome w prompt i = inl e /\ is_rate_limit e = true) ->
  retry_loop (generate_content prompt) (seq start k ++ rest) w
  = retry_loop (generate_content prompt) rest
      (after_calls w k ((fun attempt => 2 ^ attempt * 2) <$> seq start k)).
Proof.
  revert start w. induction k as [|k IH]; intros start w Hk.
  - cbn [seq app fmap list_fmap]. rewrite after_calls_0. reflexivity.
  - cbn [seq app]. destruct (Hk 0 ltac:(lia)) as (e & He & Hr).
    rewrite (retry_loop_rate_limited _ _ _ _ e He Hr).
    rewrite IH.
    + rewrite after_calls_after. reflexivity.
    + intros i Hi. rewrite outcome_after. apply Hk. lia.
Qed.

Lemma retry_loop_nil {A} (func : M A) w :
  retry_loop func [] w = (inl (Exception "Max retries exceeded for API call"), w).
Proof. reflexivity. Qed.

(** C4. [_retry_with_backoff] on a model call, with the default of three
    attempts.  After [k] rate-limit failures in a row the client has slept
    [2^attempt * 2] seconds after each of them; the next attempt, if one is
    left, decides: its result is returned, and its exception, when it is no
    rate-limit failure, is raised as it is, without any further call.  When
    all three attempts end in rate-limit failures the exception is
    [Max retries exceeded for API call].  The model is called at least
    once and at most three times. *)
Theorem retry_with_backoff_spec (prompt : string) (w : world) (k : nat) :
  let run :=
    _retry_with_backoff (generate_content prompt) max_retries_default w in
  (forall i, i < k ->
     exists e, outcome w prompt i = inl e /\ is_rate_limit e = true) ->
  (k < 3 -> forall v, outcome w prompt k = inr v ->
     run = (inr v, after_calls w (k + 1) (waits k)))
  /\ (k < 3 -> forall e, outcome w prompt k = inl e -> is_rate_limit e = false ->
        run = (inl e, after_calls w (k + 1) (waits k)))
  /\ (k = 3 ->
        run = (inl (Exception "Max retries exceeded for API call"),
               after_calls w 3 [2; 4; 8]))
  /\ model_calls w < model_calls run.2 <= model_calls w + 3.
Proof.
  intros run Hk.
  assert (Hfinal : k < 3 ->
    match outcome w prompt k with
    | inl e => is_rate_limit e = false
    | inr _ => True
    end ->
    run = (outcome w prompt k, after_calls w (k + 1) (waits k))).
  { intros Hlt Hout. unfold run, _retry_with_backoff, max_retries_default.
    replace 3 with (k + S (3 - S k)) by lia.
    rewrite seq_app. cbn [seq]. rewrite (retry_loop_prefix _ _ _ _ _ Hk).
    rewrite retry_loop_final.
    - rewrite outcome_after, Nat.add_0_r, after_calls_after, app_nil_r.
      reflexivity.
    - rewrite outcome_after, Nat.add_0_r. exact Hout. }
  assert (Hexhausted : k = 3 ->
    run = (inl (Exception "Max retries exceeded for API call"),
           after_calls w 3 [2; 4; 8])).
  { intros ->. unfold run, _retry_with_backoff, max_retries_default.
    rewrite <- (app_nil_r (seq 0 3)).
    rewrite (retry_loop_prefix _ _ _ _ _ Hk). reflexivity. }
  split; [|split; [|split]].
  - intros Hlt v Hv. rewrite <- Hv. apply Hfinal; [exact Hlt|]. rewrite Hv. exact I.
  - intros Hlt e He Hr. rewrite <- He. apply Hfinal; [exact Hlt|]. rewrite He. exact Hr.
  - exact Hexhausted.
  - clear Hfinal Hexhausted Hk k.
    assert (Hcases : exists j waits, 1 <= j <= 3 /\ run.2 = after_calls w j waits).
    { unfold run, _retry_with_backoff, max_retries_default. cbn [seq].
      assert (Hstep : forall w0,
        (exists e, outcome w0 prompt 0 = inl e /\ is_rate_limit e = true)
        \/ match outcome w0 prompt 0 with
           | inl e => is_rate_limit e = false
           | inr _ => True
           end).
      { intros w0. destruct (outcome w0 prompt 0) as [e|v]; [|right; exact I].
        destruct (is_rate_limit e) eqn:Hr; [left; eauto|right; reflexivity]. }
      destruct (Hstep w) as [(e0 & He0 & Hr0)|H0].
      2:{ rewrite (retry_loop_final _ _ _ _ H0). exists 1, []. split; [lia|reflexivity]. }
      rewrite (retry_loop_rate_limited _ _ _ _ _ He0 Hr0).
      destruct (Hstep (after_calls w 1 [2 ^ 0 * 2])) as [(e1 & He1 & Hr1)|H1].
      2:{ rewrite (retry_loop_final _ _ _ _ H1), after_calls_after.
          eexists 2, _. split; [lia|reflexivity]. }
      rewrite (retry_loop_rate_limited _ _ _ _ _ He1 Hr1), after_calls_after.
      destruct (Hstep (after_calls w (1 + 1) ([2 ^ 0 * 2] ++ [2 ^ 1 * 2])))
        as [(e2 & He2 & Hr2)|H2].
      2:{ rewrite (retry_loop_final _ _ _ _ H2), after_calls_after.
          eexists 3, _. split; [lia|reflexivity]. }
      rewrite (retry_loop_rate_limited _ _ _ _ _ He2 Hr2), after_calls_after.
      rewrite retry_loop_nil. eexists 3, _. split; [lia|reflexivity]. }
    destruct Hcases as (j & ws & Hj & ->). unfold after_calls, upd. cbn. lia.
Qed.

End RetryClaims.

Section RetryWitness.
Import Py World Json GeminiClient Retry Examples.

Lemma retry_with_backoff_witness :
  _retry_with_backoff (generate_content "explain") max_retries_default
    world_throttled
  = (inr "ok", after_calls world_throttled 3 [2; 4]).
Proof.
  destruct (retry_with_backoff_spec "explain" world_throttled 2) as (H & _).
  - intros [|[|i]] Hi; [eexists; split; reflexivity..|lia].
  - apply H; [lia|reflexivity].
Defined.

End RetryWitness.

Section CleanCode.
Import Py World Json GeminiClient Decimal.

Lemma part_of_refl a : part_of a a.
Proof. exists "", "". rewrite str_app_empty_r. reflexivity. Qed.

Lemma part_of_trans a b c : part_of a b -> part_of b c -> part_of a c.
Proof.
  intros (p1 & s1 & ->) (p2 & s2 & ->). exists (p2 ++ p1), (s1 ++ s2).
  rewrite !str_app_assoc. reflexivity.
Qed.

Lemma part_of_strip s : part_of (strip s) s.
Proof. apply strip_infix. Qed.

Lemma part_of_drop n s : part_of (drop n s) s.
Proof.
  exists (take n s), "". rewrite str_app_empty_r, str_take_drop. reflexivity.
Qed.

Lemma part_of_take n s : part_of (take n s) s.
Proof. exists "", (drop n s). cbn. rewrite str_take_drop. reflexivity. Qed.

Lemma startswith_app_prefix (s p q : string) :
  startswith s (p ++ q) = true -> startswith s p = true.
Proof.
  intros [r ->]%startswith_spec. rewrite str_app_assoc. apply startswith_app.
Qed.

(** The end of the clean-up: the trailing fence, then the white space. *)
Lemma chop_fence (mid : string) :
  (forall inner, mid = inner ++ "```" ->
     strip (if endswith mid "```" then drop_last 3 mid else mid) = strip inner)
  /\ (endswith mid "```" = false ->
      strip (if endswith mid "```" then drop_last 3 mid else mid) = strip mid).
Proof.
  split.
  - intros inner ->. rewrite endswith_app.
    change 3 with (String.length "```"). rewrite drop_last_app. reflexivity.
  - intros ->. reflexivity.
Qed.

(** C8. The clean-up of a code response is a function of the text.  After
    stripping white space, the leading [```python], or else the leading
    [```], is cut off when the text starts with it, then the trailing [```]
    when what is left ends with it, and white space is stripped again.
    Nothing in between is touched: the result is a contiguous part of the
    text. *)
Theorem clean_code_spec (text : string) :
  let s := strip text in
  (forall body, s = "```python" ++ body ->
     (forall inner, body = inner ++ "```" -> clean_code text = strip inner)
     /\ (endswith body "```" = false -> clean_code text = strip body))
  /\ (forall body, startswith s "```python" = false -> s = "```" ++ body ->
        (forall inner, body = inner ++ "```" -> clean_code text = strip inner)
        /\ (endswith body "```" = false -> clean_code text = strip body))
  /\ (startswith s "```" = false ->
        (forall inner, s = inner ++ "```" -> clean_code text = strip inner)
        /\ (endswith s "```" = false -> clean_code text = s))
  /\ part_of (clean_code text) text.
Proof.
  intros s. unfold clean_code. fold s. split; [|split; [|split]].
  - intros body Hs. rewrite Hs, startswith_app.
    change 9 with (String.length "```python"). rewrite str_drop_app_length.
    apply chop_fence.
  - intros body Hno Hs. rewrite Hno. rewrite Hs, startswith_app.
    change 3 with (String.length "```") at 1. rewrite str_drop_app_length.
    apply chop_fence.
  - intros Hno.
    assert (Hno' : startswith s "```python" = false).
    { destruct (startswith s "```python") eqn:H; [|reflexivity].
      apply (startswith_app_prefix s "```" "python") in H. congruence. }
    rewrite Hno', Hno. destruct (chop_fence s) as [H1 H2].
    split; [exact H1|]. intros He. rewrite (H2 He). apply strip_strip.
  - eapply part_of_trans; [apply part_of_strip|].
    eapply part_of_trans; [|apply (part_of_strip text)]. fold s.
    assert (H1 : part_of (if startswith s "```python" then drop 9 s
                          else if startswith s "```" then drop 3 s else s) s).
    { destruct (startswith s "```python"); [apply part_of_drop|].
      destruct (startswith s "```"); [apply part_of_drop|apply part_of_refl]. }
    eapply part_of_trans; [|exact H1].
    destruct (endswith _ "```"); [apply part_of_take|apply part_of_refl].
Qed.

Lemma clean_code_witness :
  clean_code (" ```python" ++ nl ++ "x = 1" ++ nl ++ "``` ") = "x = 1"
  /\ clean_code ("```" ++ nl ++ "x = 1") = "x = 1"
  /\ clean_code "x = '```'" = "x = '```'".
Proof.
  split; [|split].
  - destruct (clean_code_spec (" ```python" ++ nl ++ "x = 1" ++ nl ++ "``` "))
      as (H & _).
    destruct (H (nl ++ "x = 1" ++ nl ++ "```") eq_refl) as [H1 _].
    apply (H1 (nl ++ "x = 1" ++ nl)). reflexivity.
  - destruct (clean_code_spec ("```" ++ nl ++ "x = 1")) as (_ & H & _).
    destruct (H (nl ++ "x = 1") eq_refl eq_refl) as [_ H2].
    apply H2. reflexivity.
  - destruct (clean_code_spec "x = '```'") as (_ & _ & H & _).
    destruct (H eq_refl) as [_ H2]. apply H2. reflexivity.
Defined.

End CleanCode.

Section SpeechClaims.
Import Py World Json TextToSpeech Decimal Examples.

Lemma split_ws_cons c s :
  isspace c = false -> exists w ws, split_ws (String c s) = w :: ws.
Proof.
  intros Hc. cbn [split_ws]. rewrite Hc. destruct s as [|d s']; [eauto|].
  destruct (isspace d); [eauto|]. destruct (split_ws (String d s')); eauto.
Qed.

(** The tokens of [split] are not empty and have no white space. *)
Lemma split_ws_tokens s : Forall token (split_ws s).
Proof.
  induction s as [|c s IH]; [constructor|].
  cbn [split_ws]. destruct (isspace c) eqn:Hc; [exact IH|].
  assert (Hone : token (String c "")).
  { split; [discriminate|]. cbn [str_forall]. rewrite Hc. reflexivity. }
  destruct s as [|d s']; [constructor; [exact Hone|constructor]|].
  destruct (isspace d) eqn:Hd; [constructor; [exact Hone|exact IH]|].
  destruct (split_ws (String d s')) as [|w ws]; [constructor; [exact Hone|constructor]|].
  apply Forall_cons in IH as [[_ Hw] Hws]. constructor; [|exact Hws].
  split; [discriminate|]. cbn [str_forall]. rewrite Hc, Hw. reflexivity.
Qed.

(** The tokens, one after the other, are the text without its white
    space. *)
Lemma split_ws_concat s :
  concat (chars <$> split_ws s)
  = List.filter (fun c => negb (isspace c)) (chars s).
Proof.
  induction s as [|c s IH]; [reflexivity|].
  cbn [split_ws chars List.filter]. destruct (isspace c) eqn:Hc; cbn [negb];
    [exact IH|].
  destruct s as [|d s']; [reflexivity|].
  destruct (isspace d) eqn:Hd.
  - cbn [fmap list_fmap concat chars app]. f_equal. exact IH.
  - destruct (split_ws (String d s')) as [|w ws].
    + cbn [fmap list_fmap concat chars app]. f_equal. exact IH.
    + cbn [fmap list_fmap concat chars app] in *. f_equal. exact IH.
Qed.

Lemma split_ws_starts s :
  length (split_ws s) = word_starts true s
  /\ word_starts false s
     = length (split_ws s)
       - match s with
         | String c _ => if isspace c then 0 else 1
         | "" => 0
         end.
Proof.
  induction s as [|c s [IH1 IH2]]; [split; reflexivity|].
  cbn [split_ws word_starts andb]. destruct (isspace c) eqn:Hc; cbn [negb].
  - rewrite <- IH1. split; lia.
  - destruct s as [|d s']; [split; reflexivity|].
    rewrite IH2. destruct (isspace d) eqn:Hd.
    + cbn [length]. split; lia.
    + destruct (split_ws_cons d s' Hd) as (w & ws & Hw). rewrite Hw.
      cbn [length]. split; lia.
Qed.

(** A token starts exactly where a run of characters other than white
    space starts. *)
Lemma split_ws_length s : length (split_ws s) = word_starts true s.
Proof. apply split_ws_starts. Qed.

Lemma agrees_upto : forallb agrees (seq 0 3001) = true.
Proof. vm_compute. reflexivity. Qed.

(** For up to 3000 words the estimate is the double nearest to the exact
    quotient rounded to one decimal. *)
Lemma duration_checked (word_count : nat) :
  word_count <= 3000 ->
  PyFloat.round1 (PyFloat.truediv word_count 150)
  = of_tenths (nearest_tenths word_count).
Proof.
  intros H. pose proof agrees_upto as Hall.
  rewrite forallb_forall in Hall.
  assert (H1 : agrees word_count = true) by (apply Hall, in_seq; lia).
  unfold agrees in H1. apply bool_decide_eq_true in H1. exact H1.
Qed.

(** What [text_to_speech] does when the speech is synthesized and the file
    can be written. *)
Lemma text_to_speech_outcome text filename language slow w audio :
  let name0 :=
    if CodeProcessor.no_filename filename
    then "audio_lesson_" ++ strftime_compact (clock w (ticks w))
    else default "" filename in
  let name := if negb (endswith name0 ".mp3") then name0 ++ ".mp3" else name0 in
  let path := path_join (audio_dir w) name in
  gtts w text language slow = inr audio ->
  open_error w path = None ->
  exists w',
    text_to_speech text filename language slow w
    = (inr [ ("success", JBool true);
             ("filepath", JStr path);
             ("filename", JStr name);
             ("relative_path", JStr ("/static/generated/audio/" ++ name));
             ("word_count", JInt (Z.of_nat (length (split_ws text))));
             ("estimated_duration_minutes",
               JFloat (PyFloat.round1
                         (PyFloat.truediv (length (split_ws text)) 150)));
             ("language", JStr language) ], w')
    /\ fs w' = <[path := audio]> (fs w).
Proof.
  intros name0 name path Hg Ho. unfold text_to_speech.
  destruct (CodeProcessor.no_filename filename) eqn:Hn; run;
    fold name0; fold name; fold path; rewrite Hg; run; rewrite Ho;
    eexists; split; reflexivity.
Qed.

(** C9. When the speech is synthesized and written, [word_count] is the
    number of tokens of [text.split()], the maximal runs of characters
    other than white space, and the estimated duration is that number
    divided by 150 and rounded to one decimal, as doubles.  Up to 3000
    words this is the double nearest to the exact quotient rounded to one
    decimal.  A text of 300 words has [word_count] 300 and the duration
    [2.0]. *)
Theorem text_to_speech_estimate (text : string) (filename : option string)
    (language : string) (slow : bool) (w : world) (audio : string) :
  let name0 :=
    if CodeProcessor.no_filename filename
    then "audio_lesson_" ++ strftime_compact (clock w (ticks w))
    else default "" filename in
  let name := if negb (endswith name0 ".mp3") then name0 ++ ".mp3" else name0 in
  let path := path_join (audio_dir w) name in
  let word_count := length (split_ws text) in
  gtts w text language slow = inr audio ->
  open_error w path = None ->
  exists r w',
    text_to_speech text filename language slow w = (inr r, w')
    /\ dict_get "word_count" r = Some (JInt (Z.of_nat word_count))
    /\ dict_get "estimated_duration_minutes" r
       = Some (JFloat (PyFloat.round1 (PyFloat.truediv word_count 150)))
    /\ Forall token (split_ws text)
    /\ concat (chars <$> split_ws text)
       = List.filter (fun c => negb (isspace c)) (chars text)
    /\ word_count = word_starts true text
    /\ (word_count <= 3000 ->
        dict_get "estimated_duration_minutes" r
        = Some (JFloat (of_tenths (nearest_tenths word_count))))
    /\ (word_count = 300 ->
        dict_get "word_count" r = Some (JInt 300)
        /\ dict_get "estimated_duration_minutes" r = Some (JFloat PyFloat.two)).
Proof.
  intros name0 name path word_count Hg Ho.
  destruct (text_to_speech_outcome text filename language slow w audio Hg Ho)
    as (w' & Hrun & _).
  fold name0 in Hrun. fold name in Hrun. fold path in Hrun.
  fold word_count in Hrun.
  eexists _, w'. split; [exact Hrun|].
  split; [reflexivity|]. split; [reflexivity|].
  split; [apply split_ws_tokens|]. split; [apply split_ws_concat|].
  split; [apply split_ws_length|]. split.
  - intros Hle. cbn [dict_get String.eqb Ascii.eqb Bool.eqb].
    cbv beta iota. rewrite (duration_checked _ Hle). reflexivity.
  - intros H300. cbn [dict_get String.eqb Ascii.eqb Bool.eqb]. cbv beta iota.
    rewrite H300. split; reflexivity.
Qed.

Lemma text_to_speech_estimate_witness :
  exists r w',
    text_to_speech script_300 None "en" false world0 = (inr r, w')
    /\ dict_get "word_count" r = Some (JInt 300)
    /\ dict_get "estimated_duration_minutes" r = Some (JFloat PyFloat.two).
Proof.
  destruct (text_to_speech_estimate script_300 None "en" false world0 "MP3"
              eq_refl eq_refl)
    as (r & w' & Hrun & _ & _ & _ & _ & _ & _ & H300).
  exists r, w'. split; [exact Hrun|]. apply H300. vm_compute. reflexivity.
Defined.

End SpeechClaims.

Section HandlerClaims.
Import Py World Json App Outcome Request Examples.
Local Open Scope py_scope.

Lemma valid_topic_truthy d topic :
  valid_topic d topic ->
  truthy (JDict d) = true
  /\ dict_get_default "topic" (JStr "") d = JStr topic
  /\ truthy (JStr (strip topic)) = true.
Proof.
  intros [Hd Ht]. split; [destruct d; [discriminate Hd|reflexivity]|].
  split; [unfold dict_get_default; rewrite Hd; reflexivity|].
  cbn [truthy]. destruct (String.eqb_spec (strip topic) ""); [contradiction|reflexivity].
Qed.

(** The validated requests reach the second part of their handler with
    the normalized value. *)
Lemma api_generate_text_valid d topic w :
  valid_topic d topic ->
  api_generate_text (JDict d) w
  = try_with
      (generate_text_validated (strip topic)
         (normalize (dict_get_default "depth" (JStr "comprehensive") d)
                    depths "comprehensive"))
      on_error w.
Proof.
  intros (Hd & Ht & Hs)%valid_topic_truthy. unfold api_generate_text.
  rewrite Hd. cbv beta iota delta [World.bind World.ret as_dict negb].
  rewrite Ht. cbv beta iota delta [strip_of World.ret World.try_with].
  rewrite Hs. reflexivity.
Qed.

Lemma api_generate_code_valid d topic w :
  valid_topic d topic ->
  api_generate_code (JDict d) w
  = try_with
      (generate_code_validated (strip topic)
         (normalize (dict_get_default "complexity" (JStr "intermediate") d)
                    complexities "intermediate"))
      on_error w.
Proof.
  intros (Hd & Ht & Hs)%valid_topic_truthy. unfold api_generate_code.
  rewrite Hd. cbv beta iota delta [World.bind World.ret as_dict negb].
  rewrite Ht. cbv beta iota delta [strip_of World.ret World.try_with].
  rewrite Hs. reflexivity.
Qed.

Lemma api_generate_image_valid d topic w :
  valid_topic d topic ->
  api_generate_image (JDict d) w
  = try_with
      (generate_image_validated (strip topic)
         (normalize (dict_get_default "diagram_type" (JStr "architecture") d)
                    diagram_types "architecture"))
      on_error w.
Proof.
  intros (Hd & Ht & Hs)%valid_topic_truthy. unfold api_generate_image.
  rewrite Hd. cbv beta iota delta [World.bind World.ret as_dict negb].
  rewrite Ht. cbv beta iota delta [strip_of World.ret World.try_with].
  rewrite Hs. reflexivity.
Qed.

Lemma normalize_outside v allowed default :
  in_strs v allowed = false -> normalize v allowed default = default.
Proof. unfold normalize. intros ->. reflexivity. Qed.

Lemma generate_text_validated_reply topic depth w :
  exists r w',
    try_with (generate_text_validated topic depth) on_error w = (inr r, w')
    /\ ok_or_500 r "depth" depth.
Proof.
  unfold generate_text_validated, on_error, try_with, World.bind at 1.
  destruct (get_gemini_client w) as [[e|[]] w1].
  { eexists _, _. split; [reflexivity|]. right. split; [reflexivity|]. eexists. reflexivity. }
  unfold World.bind at 1, GeminiClient.generate_text_explanation, World.bind at 1.
  destruct (GeminiClient._retry_with_backoff _ _ w1) as [[e|content] w2].
  { eexists _, _. split; [reflexivity|]. right. split; [reflexivity|]. eexists. reflexivity. }
  eexists _, _. split; [reflexivity|]. left. split; reflexivity.
Qed.

Lemma save_code_file_total code topic w :
  exists r w', CodeProcessor.save_code_file code topic None w = (inr r, w').
Proof.
  destruct (save_code_file_outcome code topic w) as [w' H].
  destruct (open_error w _); destruct H as [H _]; eauto.
Qed.

(** Creating a helper makes its output directory and changes nothing. *)
Lemma get_code_processor_run w :
  get_code_processor w
  = match makedirs_error w (code_dir w) with
    | Some msg => (inl (Exception msg), w)
    | None => (inr tt, w)
    end.
Proof. reflexivity. Qed.

Lemma get_tts_client_run w :
  get_tts_client w
  = match makedirs_error w (audio_dir w) with
    | Some msg => (inl (Exception msg), w)
    | None => (inr tt, w)
    end.
Proof. reflexivity. Qed.

Lemma get_image_generator_run w :
  get_image_generator w
  = match makedirs_error w (image_dir w) with
    | Some msg => (inl (Exception msg), w)
    | None => (inr tt, w)
    end.
Proof. reflexivity. Qed.

Lemma generate_code_validated_reply topic complexity w :
  exists r w',
    try_with (generate_code_validated topic complexity) on_error w = (inr r, w')
    /\ ok_or_500 r "complexity" complexity.
Proof.
  unfold generate_code_validated, on_error, try_with, World.bind at 1.
  destruct (get_gemini_client w) as [[e|[]] w1].
  { eexists _, _. split; [reflexivity|]. right. split; [reflexivity|]. eexists. reflexivity. }
  unfold World.bind at 1, GeminiClient.generate_code_example, World.bind at 1.
  destruct (GeminiClient._retry_with_backoff _ _ w1) as [[e|raw] w2].
  { eexists _, _. split; [reflexivity|]. right. split; [reflexivity|]. eexists. reflexivity. }
  unfold ret at 1. lookup. unfold World.bind at 1.
  rewrite get_code_processor_run.
  destruct (makedirs_error w2 (code_dir w2)) as [msg|].
  { eexists _, _. split; [reflexivity|]. right. split; [reflexivity|]. eexists. reflexivity. }
  unfold World.bind at 1.
  destruct (save_code_file_total (GeminiClient.clean_code raw) topic w2)
    as (info & w3 & ->).
  eexists _, _. split; [reflexivity|]. left. split; reflexivity.
Qed.

Lemma generate_image_validated_reply topic diagram_type w :
  exists r w',
    try_with (generate_image_validated topic diagram_type) on_error w = (inr r, w')
    /\ ok_or_500 r "diagram_type" diagram_type.
Proof.
  unfold generate_image_validated, on_error, try_with, World.bind at 1.
  destruct (get_gemini_client w) as [[e|[]] w1].
  { eexists _, _. split; [reflexivity|]. right. split; [reflexivity|]. eexists. reflexivity. }
  unfold World.bind at 1, GeminiClient.generate_image_prompt, World.bind at 1.
  destruct (GeminiClient._retry_with_backoff _ _ w1) as [[e|raw] w2].
  { eexists _, _. split; [reflexivity|]. right. split; [reflexivity|]. eexists. reflexivity. }
  unfold ret at 1. lookup. unfold World.bind at 1.
  rewrite get_image_generator_run.
  destruct (makedirs_error w2 (image_dir w2)) as [msg|].
  { eexists _, _. split; [reflexivity|]. right. split; [reflexivity|]. eexists. reflexivity. }
  unfold World.bind at 1.
  destruct (generate_diagram_outcome (strip raw) topic diagram_type None w2)
    as (r & w3 & -> & Hcases).
  destruct Hcases as [(b & _ & -> & _)|[(_ & img & _ & -> & _)
                                       |(_ & _ & (msg & ->) & _)]].
  - eexists _, _. split; [reflexivity|]. left. split; reflexivity.
  - eexists _, _. split; [reflexivity|]. left. split; reflexivity.
  - eexists _, _. split; [reflexivity|]. right. split; [reflexivity|].
    eexists. reflexivity.
Qed.

Lemma valid_topic_cons d topic key v :
  (key =? "topic")%string = false ->
  valid_topic d topic -> valid_topic ((key, v) :: d) topic.
Proof.
  intros Hk [Hd Ht]. split; [|exact Ht]. cbn [dict_get].
  rewrite String.eqb_sym, Hk. exact Hd.
Qed.

Lemma normalize_explicit key dflt d allowed default (x : string) :
  in_strs (JStr x) allowed = true ->
  normalize (dict_get_default key dflt ((key, JStr x) :: d)) allowed default = x.
Proof.
  intros H. unfold dict_get_default. cbn [dict_get].
  rewrite String.eqb_refl. unfold normalize. rewrite H. reflexivity.
Qed.

Lemma instruction_default (table : gmap string string) (k default_key : string) :
  table !! k = None ->
  GeminiClient.instruction table k default_key
  = GeminiClient.instruction table default_key default_key.
Proof.
  unfold GeminiClient.instruction. intros ->.
  destruct (table !! default_key); reflexivity.
Qed.

(** C7. A request with a valid topic whose depth, complexity or diagram
    type is not one of the recognized values is handled as the same request
    with the default value (comprehensive, intermediate, architecture): the
    handler goes on with the default, the reply is never a validation
    error, and a successful reply carries the default.  The instruction
    tables of the client fall back to the same defaults. *)
Theorem enum_defaults (d : pydict) (topic : string) (w : world) :
  valid_topic d topic ->
  (in_strs (dict_get_default "depth" (JStr "comprehensive") d) depths = false ->
     api_generate_text (JDict d) w
     = try_with (generate_text_validated (strip topic) "comprehensive")
         on_error w
     /\ api_generate_text (JDict d) w
        = api_generate_text (JDict (("depth", JStr "comprehensive") :: d)) w
     /\ exists r w',
          api_generate_text (JDict d) w = (inr r, w')
          /\ ok_or_500 r "depth" "comprehensive")
  /\ (in_strs (dict_get_default "complexity" (JStr "intermediate") d)
        complexities = false ->
      api_generate_code (JDict d) w
      = try_with (generate_code_validated (strip topic) "intermediate")
          on_error w
      /\ api_generate_code (JDict d) w
         = api_generate_code (JDict (("complexity", JStr "intermediate") :: d)) w
      /\ exists r w',
           api_generate_code (JDict d) w = (inr r, w')
           /\ ok_or_500 r "complexity" "intermediate")
  /\ (in_strs (dict_get_default "diagram_type" (JStr "architecture") d)
        diagram_types = false ->
      api_generate_image (JDict d) w
      = try_with (generate_image_validated (strip topic) "architecture")
          on_error w
      /\ api_generate_image (JDict d) w
         = api_generate_image (JDict (("diagram_type", JStr "architecture") :: d)) w
      /\ exists r w',
           api_generate_image (JDict d) w = (inr r, w')
           /\ ok_or_500 r "diagram_type" "architecture")
  /\ (forall depth, depth ∉ depths ->
        GeminiClient.instruction GeminiClient.depth_instructions depth
          "comprehensive"
        = GeminiClient.instruction GeminiClient.depth_instructions
            "comprehensive" "comprehensive")
  /\ (forall complexity, complexity ∉ complexities ->
        GeminiClient.instruction GeminiClient.complexity_instructions
          complexity "intermediate"
        = GeminiClient.instruction GeminiClient.complexity_instructions
            "intermediate" "intermediate")
  /\ (forall diagram_type, diagram_type ∉ diagram_types ->
        GeminiClient.instruction GeminiClient.type_instructions diagram_type
          "architecture"
        = GeminiClient.instruction GeminiClient.type_instructions
            "architecture" "architecture").
Proof.
  intros Hv. split; [|split; [|split; [|split; [|split]]]].
  - intros Hout.
    assert (H1 : api_generate_text (JDict d) w
                 = try_with (generate_text_validated (strip topic) "comprehensive")
                     on_error w).
    { rewrite (api_generate_text_valid d topic w Hv).
      rewrite (normalize_outside _ _ _ Hout). reflexivity. }
    split; [exact H1|]. split.
    + rewrite H1.
      rewrite (api_generate_text_valid _ topic w
                 (valid_topic_cons d topic "depth" _ eq_refl Hv)).
      rewrite normalize_explicit by reflexivity. reflexivity.
    + rewrite H1. apply generate_text_validated_reply.
  - intros Hout.
    assert (H1 : api_generate_code (JDict d) w
                 = try_with (generate_code_validated (strip topic) "intermediate")
                     on_error w).
    { rewrite (api_generate_code_valid d topic w Hv).
      rewrite (normalize_outside _ _ _ Hout). reflexivity. }
    split; [exact H1|]. split.
    + rewrite H1.
      rewrite (api_generate_code_valid _ topic w
                 (valid_topic_cons d topic "complexity" _ eq_refl Hv)).
      rewrite normalize_explicit by reflexivity. reflexivity.
    + rewrite H1. apply generate_code_validated_reply.
  - intros Hout.
    assert (H1 : api_generate_image (JDict d) w
                 = try_with (generate_image_validated (strip topic) "architecture")
                     on_error w).
    { rewrite (api_generate_image_valid d topic w Hv).
      rewrite (normalize_outside _ _ _ Hout). reflexivity. }
    split; [exact H1|]. split.
    + rewrite H1.
      rewrite (api_generate_image_valid _ topic w
                 (valid_topic_cons d topic "diagram_type" _ eq_refl Hv)).
      rewrite normalize_explicit by reflexivity. reflexivity.
    + rewrite H1. apply generate_image_validated_reply.
  - intros depth Hd. apply instruction_default.
    apply not_elem_of_list_to_map_1. exact Hd.
  - intros c Hc. apply instruction_default.
    apply not_elem_of_list_to_map_1. exact Hc.
  - intros t Ht. apply instruction_default.
    apply not_elem_of_list_to_map_1. exact Ht.
Qed.

Lemma enum_defaults_witness :
  exists r w',
    api_generate_text
      (JDict [("topic", JStr " CNN "); ("depth", JStr "deep")]) world0
    = (inr r, w')
    /\ ok_or_500 r "depth" "comprehensive".
Proof.
  destruct (enum_defaults [("topic", JStr " CNN "); ("depth", JStr "deep")]
              " CNN " world0) as (H & _).
  - split; [reflexivity|]. vm_compute. discriminate.
  - destruct (H eq_refl) as (_ & _ & Hr). exact Hr.
Defined.

End HandlerClaims.

Section ReportFacts.
Import Py World Json CodeProcessor Spec Report Examples.

Lemma imports_of_scan code : imports_of code = sorted (scan code).1.
Proof.
  unfold imports_of, detect_dependencies. destruct (scan code) as [i p].
  unfold dict_get_default. cbn [dict_get String.eqb Ascii.eqb Bool.eqb fst].
  cbv beta iota. apply str_list_strs.
Qed.

Lemma packages_of_scan code : packages_of code = sorted (scan code).2.
Proof.
  unfold packages_of, detect_dependencies. destruct (scan code) as [i p].
  unfold dict_get_default. cbn [dict_get String.eqb Ascii.eqb Bool.eqb snd].
  cbv beta iota. apply str_list_strs.
Qed.

Lemma detect_dependencies_scan c1 c2 :
  scan c1 = scan c2 -> detect_dependencies c1 = detect_dependencies c2.
Proof. unfold detect_dependencies. intros ->. reflexivity. Qed.

Lemma split_on_cons sep s : exists w ws, split_on sep s = w :: ws.
Proof.
  destruct s as [|c s]; cbn [split_on]; [eauto|].
  destruct (Ascii.eqb c sep); [eauto|]. destruct (split_on sep s); eauto.
Qed.

(** Splitting at a separator that stands between two texts. *)
Lemma split_on_app sep (a b : string) :
  split_on sep (a ++ String sep b) = (split_on sep a ++ split_on sep b)%list.
Proof.
  induction a as [|x a IH].
  - rewrite str_app_empty_l. cbn [split_on]. rewrite Ascii.eqb_refl. reflexivity.
  - rewrite str_app_cons. cbn [split_on]. destruct (Ascii.eqb x sep).
    + rewrite IH. reflexivity.
    + rewrite IH. destruct (split_on_cons sep a) as (w & ws & ->). reflexivity.
Qed.

Lemma modules_app (a b : string) (m : string) :
  m ∈ modules (a ++ nl ++ b) <-> m ∈ modules a \/ m ∈ modules b.
Proof.
  unfold modules, nl. rewrite str_app_cons, str_app_empty_l.
  rewrite split_on_app, bind_app, elem_of_app. reflexivity.
Qed.

(** The two sets of a text made of two texts, one after the other. *)
Lemma scan_app (a b : string) :
  scan (a ++ nl ++ b)
  = ((scan a).1 ∪ (scan b).1, (scan a).2 ∪ (scan b).2).
Proof.
  rewrite (surjective_pairing (scan (a ++ nl ++ b))). f_equal.
  - apply set_eq. intros m.
    rewrite scan_imports, modules_app, elem_of_union, !scan_imports.
    reflexivity.
  - apply set_eq. intros p.
    rewrite scan_packages, elem_of_union, !scan_packages. split.
    + intros (m & [Hm|Hm]%modules_app & Hp); [left|right]; eauto.
    + intros [(m & Hm & Hp)|(m & Hm & Hp)]; exists m;
        (split; [apply modules_app; auto|exact Hp]).
Qed.

(** X1. The report of two texts joined by a newline has the imports of
    both and the packages of both; the order of the two texts does not
    matter, and a text written twice has the report of the text. *)
Theorem detect_dependencies_concat (a b : string) :
  (forall m, m ∈ imports_of (a ++ nl ++ b) <-> m ∈ imports_of a \/ m ∈ imports_of b)
  /\ (forall p, p ∈ packages_of (a ++ nl ++ b)
                <-> p ∈ packages_of a \/ p ∈ packages_of b)
  /\ detect_dependencies (a ++ nl ++ b) = detect_dependencies (b ++ nl ++ a)
  /\ detect_dependencies (a ++ nl ++ a) = detect_dependencies a.
Proof.
  split; [|split; [|split]].
  - intros m. rewrite !imports_of_scan, !sorted_elem_of, scan_app.
    cbn [fst]. apply elem_of_union.
  - intros p. rewrite !packages_of_scan, !sorted_elem_of, scan_app.
    cbn [snd]. apply elem_of_union.
  - apply detect_dependencies_scan. rewrite !scan_app.
    f_equal; apply (comm_L (∪)).
  - apply detect_dependencies_scan. rewrite scan_app.
    rewrite !(idemp_L (∪)). symmetry. apply surjective_pairing.
Qed.

Lemma known_package_not_stdlib (m p : string) :
  KNOWN_PACKAGES !! m = Some p -> _is_stdlib p = false.
Proof.
  intros H. apply elem_of_list_to_map_2 in H.
  repeat (apply elem_of_cons in H as [H|H];
          [injection H as _ ->; vm_compute; reflexivity|]).
  by apply elem_of_nil in H.
Qed.

Lemma length_omap {A B} (f : A -> option B) (l : list A) :
  length (omap f l) <= length l.
Proof.
  induction l as [|x l IH]; [reflexivity|]. cbn [omap list_omap length].
  destruct (f x); cbn [length]; lia.
Qed.

(** X2. A package of the report is never a module of the standard-library
    set; it is an import of the report, or what the alias table gives for
    one.  No report has more packages than imports. *)
Theorem packages_from_imports (code : string) :
  (forall p, p ∈ packages_of code ->
     _is_stdlib p = false
     /\ (p ∈ imports_of code
         \/ exists m, m ∈ imports_of code /\ KNOWN_PACKAGES !! m = Some p))
  /\ length (packages_of code) <= length (imports_of code)
  /\ (imports_of code = [] -> packages_of code = []).
Proof.
  assert (Hpk : forall p, p ∈ packages_of code <->
            exists m, m ∈ imports_of code /\ package_of m = Some p).
  { intros p. rewrite packages_of_scan, imports_of_scan, sorted_elem_of.
    rewrite scan_packages. split; intros (m & Hm & Hp); exists m;
      (split; [|exact Hp]).
    - apply sorted_elem_of, scan_imports, Hm.
    - apply scan_imports, sorted_elem_of, Hm. }
  assert (Hlen : length (packages_of code) <= length (imports_of code)).
  { etrans; [|apply (length_omap package_of)].
    apply submseteq_length, NoDup_submseteq.
    - rewrite packages_of_scan. apply sorted_NoDup.
    - intros p (m & Hm & Hp)%Hpk. apply list_elem_of_omap. eauto. }
  split; [|split; [exact Hlen|]].
  - intros p (m & Hm & Hp)%Hpk. unfold package_of in Hp.
    destruct (KNOWN_PACKAGES !! m) as [q|] eqn:Hk.
    + injection Hp as ->. split; [eapply known_package_not_stdlib, Hk|].
      right. eauto.
    + destruct (_is_stdlib m) eqn:Hs; [discriminate|].
      injection Hp as <-. auto.
  - intros Hi. rewrite Hi in Hlen. destruct (packages_of code); [reflexivity|].
    cbn [length] in Hlen. lia.
Qed.

Lemma packages_from_imports_witness :
  "numpy" ∈ packages_of numpy_os_code
  /\ _is_stdlib "numpy" = false
  /\ length (packages_of numpy_os_code) <= length (imports_of numpy_os_code).
Proof.
  destruct (packages_from_imports numpy_os_code) as (H & Hlen & _).
  assert (Hin : "numpy" ∈ packages_of numpy_os_code) by (vm_compute; left).
  split; [exact Hin|]. split; [apply (H "numpy" Hin)|exact Hlen].
Defined.

End ReportFacts.

Section ReportWitness.
Import Py World Json CodeProcessor Spec Report Examples.

Lemma detect_dependencies_concat_witness :
  "numpy" ∈ imports_of ("import numpy" ++ nl ++ "import os")
  /\ "os" ∈ imports_of ("import numpy" ++ nl ++ "import os").
Proof.
  destruct (detect_dependencies_concat "import numpy" "import os") as (H & _).
  split; apply H; [left|right]; vm_compute; left.
Defined.

End ReportWitness.

Section FormatFacts.
Import Py World Json CodeProcessor Spec Report Examples.

Lemma split_on_length (s : string) :
  length (split_on "010"%char s) = S (count_newlines s).
Proof.
  unfold count_newlines. induction s as [|c s IH]; [reflexivity|].
  cbn [split_on chars List.filter]. destruct (Ascii.eqb c "010"%char).
  - cbn [length]. rewrite IH. reflexivity.
  - destruct (split_on_cons "010"%char s) as (w & ws & Hs).
    rewrite Hs in *. exact IH.
Qed.

(** Reading the fields of a formatted response. *)
Lemma format_code_response_fields code topic complexity :
  format_code_response code topic complexity
  = [ ("code", JStr code);
      ("topic", JStr topic);
      ("complexity", JStr complexity);
      ("dependencies", JDict (detect_dependencies code));
      ("colab_setup", JStr (_generate_colab_setup (packages_of code)));
      ("local_setup", JStr (_generate_local_setup (packages_of code)));
      ("line_count", JInt (Z.of_nat (S (count_newlines code)))) ].
Proof.
  unfold format_code_response. rewrite split_on_length. reflexivity.
Qed.

Lemma colab_ready_iff (packages : list string) :
  _generate_colab_setup packages = ready_to_run <-> packages = [].
Proof.
  split; [|intros ->; reflexivity].
  destruct packages as [|p ps]; [reflexivity|]. unfold _generate_colab_setup.
  destruct (filter _ (p :: ps)) as [|r rs]; [discriminate|].
  unfold unlines. cbn [join]. intros H.
  apply (f_equal (String.get 2)) in H.
  cbv beta iota delta [String.append String.get ready_to_run] in H.
  discriminate H.
Qed.

Lemma local_none_iff (packages : list string) :
  _generate_local_setup packages = none_required <-> packages = [].
Proof.
  split; [|intros ->; reflexivity].
  destruct packages as [|p ps]; [reflexivity|]. unfold _generate_local_setup.
  unfold unlines. cbn [join]. intros H.
  apply (f_equal (String.get 0)) in H.
  cbv beta iota delta [String.append String.get none_required] in H.
  discriminate H.
Qed.

Lemma no_keyword_no_match kw line :
  startswith line kw = false -> match_keyword kw line = None.
Proof. unfold match_keyword. intros ->. reflexivity. Qed.

(** X3. The formatted response counts one line more than the text has
    newline characters, so the empty text has one line; it carries the
    code as it is and the report of [detect_dependencies].  The two setup
    texts are the no-package messages exactly when the report has no
    package, which is the case for a text no line of which starts, once
    stripped, with [import] or [from]. *)
Theorem format_code_response_spec (code topic complexity : string) :
  dict_get "line_count" (format_code_response code topic complexity)
    = Some (JInt (Z.of_nat (S (count_newlines code))))
  /\ dict_get "code" (format_code_response code topic complexity)
     = Some (JStr code)
  /\ dict_get "dependencies" (format_code_response code topic complexity)
     = Some (JDict (detect_dependencies code))
  /\ (dict_get "colab_setup" (format_code_response code topic complexity)
        = Some (JStr ready_to_run)
      <-> packages_of code = [])
  /\ (dict_get "local_setup" (format_code_response code topic complexity)
        = Some (JStr none_required)
      <-> packages_of code = [])
  /\ ((forall line, line ∈ split_on "010"%char code ->
         startswith (strip line) "import" = false
         /\ startswith (strip line) "from" = false) ->
      imports_of code = [] /\ packages_of code = []).
Proof.
  rewrite format_code_response_fields.
  split; [reflexivity|]. split; [reflexivity|]. split; [reflexivity|].
  split; [|split].
  - cbn [dict_get String.eqb Ascii.eqb Bool.eqb]. cbv beta iota.
    rewrite <- colab_ready_iff. split; [intros [= ->]; reflexivity|intros ->; reflexivity].
  - cbn [dict_get String.eqb Ascii.eqb Bool.eqb]. cbv beta iota.
    rewrite <- local_none_iff. split; [intros [= ->]; reflexivity|intros ->; reflexivity].
  - intros Hlines.
    assert (Hm : forall m, m ∉ modules code).
    { intros m (line & Hin & Hline)%list_elem_of_bind.
      destruct (Hlines line Hline) as [Hi Hf].
      unfold line_modules, import_patterns in Hin.
      cbn [omap list_omap] in Hin.
      rewrite (no_keyword_no_match _ _ Hi), (no_keyword_no_match _ _ Hf) in Hin.
      by apply elem_of_nil in Hin. }
    assert (Hi : imports_of code = []).
    { rewrite imports_of_scan. apply sorted_nil, set_eq. intros m.
      rewrite scan_imports. split; [intros H; destruct (Hm m H)|set_solver]. }
    split; [exact Hi|].
    rewrite packages_of_scan. apply sorted_nil, set_eq. intros p.
    rewrite scan_packages. split; [|set_solver].
    intros (m & H & _). destruct (Hm m H).
Qed.

Lemma format_code_response_witness :
  imports_of plain_code = [] /\ packages_of plain_code = []
  /\ dict_get "colab_setup" (format_code_response plain_code "t" "basic")
     = Some (JStr ready_to_run).
Proof.
  destruct (format_code_response_spec plain_code "t" "basic")
    as (_ & _ & _ & Hc & _ & H).
  assert (Hno : imports_of plain_code = [] /\ packages_of plain_code = []).
  { apply H. intros line Hin. vm_compute in Hin.
    repeat (apply elem_of_cons in Hin as [->|Hin]; [split; reflexivity|]).
    by apply elem_of_nil in Hin. }
  destruct Hno as [Hi Hp]. split; [exact Hi|]. split; [exact Hp|].
  apply Hc, Hp.
Defined.

End FormatFacts.

Section Savers.
Import Py World Json CodeProcessor TextToSpeech Outcome Saving Examples.

Lemma with_extension_endswith ext name :
  endswith (with_extension ext name) ext = true.
Proof.
  unfold with_extension. destruct (endswith name ext) eqn:H; cbn [negb];
    [exact H|apply endswith_app].
Qed.

Lemma with_extension_id ext name :
  endswith name ext = true -> with_extension ext name = name.
Proof. unfold with_extension. intros ->. reflexivity. Qed.

Lemma path_join_absolute dir name :
  startswith name "/" = true -> path_join dir name = name.
Proof. unfold path_join. intros ->. reflexivity. Qed.

Lemma with_extension_startswith ext name p :
  startswith name p = true -> startswith (with_extension ext name) p = true.
Proof.
  unfold with_extension. intros H. destruct (negb (endswith name ext)); [|exact H].
  apply startswith_spec in H as [r ->]. rewrite str_app_assoc.
  apply startswith_app.
Qed.

(** What [save_code_file] does, whatever the file name argument. *)
Lemma save_code_file_run (code topic : string) (filename : option string)
    (w : world) :
  let name := code_filename topic filename w in
  let path := path_join (code_dir w) name in
  let content := header topic (header_time filename w) ++ code in
  exists w',
    open_error w' = open_error w /\ code_dir w' = code_dir w
    /\ match open_error w path with
       | None =>
           save_code_file code topic filename w
             = (inr (code_saved path name), w')
           /\ fs w' = <[path := content]> (fs w)
       | Some msg =>
           save_code_file code topic filename w
             = (inr (failure_result msg), w')
           /\ fs w' = fs w
       end.
Proof.
  intros name path content. unfold save_code_file.
  unfold content, path, name, code_filename, header_time, with_extension.
  destruct filename as [[|c f]|]; run; cbv beta iota delta [id];
    cbn [from_option];
    match goal with
    | |- context [open_error w ?p] => destruct (open_error w p)
    end; run;
    (eexists; (split; [|split]); [idtac|idtac|split; reflexivity];
     reflexivity).
Qed.

(** X4. [save_code_file] never raises.  The name it works with always
    ends in [.py], and a given name that already does is kept as it is.
    When the file can be opened the result is a success and the file holds
    the header followed by the code, replacing what was there; otherwise
    the result is a failure with the message of the error and no file
    changes.  No other file is touched.  A given name that starts with a
    slash is the path written, whatever the output directory. *)
Theorem save_code_file_any (code topic : string) (filename : option string)
    (w : world) :
  let name := code_filename topic filename w in
  let path := path_join (code_dir w) name in
  endswith name ".py" = true
  /\ (forall f, filename = Some f -> f <> "" -> endswith f ".py" = true ->
        name = f)
  /\ (forall f, filename = Some f -> startswith f "/" = true -> path = name)
  /\ exists r w',
       save_code_file code topic filename w = (inr r, w')
       /\ (open_error w path = None ->
           r = code_saved path name
           /\ fs w' !! path
              = Some (header topic (header_time filename w) ++ code))
       /\ (forall msg, open_error w path = Some msg ->
             r = failure_result msg /\ fs w' = fs w)
       /\ (forall q, q <> path -> fs w' !! q = fs w !! q).
Proof.
  intros name path.
  split; [apply with_extension_endswith|]. split; [|split].
  - intros f -> Hne He. unfold name, code_filename.
    destruct f; [contradiction|]. cbn [no_filename default].
    apply with_extension_id, He.
  - intros f -> Hs. apply path_join_absolute. unfold name, code_filename.
    destruct f as [|c f]; [discriminate Hs|]. cbn [no_filename default].
    apply with_extension_startswith, Hs.
  - destruct (save_code_file_run code topic filename w) as (w' & _ & _ & H).
    fold name in H. fold path in H.
    destruct (open_error w path) as [msg|] eqn:Ho; destruct H as [Hrun Hfs].
    + exists (failure_result msg), w'. split; [exact Hrun|].
      split; [discriminate|]. split; [intros ? [= <-]; auto|].
      intros q _. rewrite Hfs. reflexivity.
    + exists (code_saved path name), w'. split; [exact Hrun|].
      split; [intros _; split; [reflexivity|]; rewrite Hfs; apply lookup_insert_eq|].
      split; [discriminate|].
      intros q Hq. rewrite Hfs. apply lookup_insert_ne. congruence.
Qed.

Lemma save_code_file_any_witness :
  exists r w',
    save_code_file "print(1)" "t" (Some "/tmp/demo") world0 = (inr r, w')
    /\ r = code_saved "/tmp/demo.py" "/tmp/demo.py"
    /\ code_filename "t" (Some "demo.py") world0 = "demo.py".
Proof.
  destruct (save_code_file_any "print(1)" "t" (Some "/tmp/demo") world0)
    as (_ & _ & _ & r & w' & Hrun & Hok & _).
  destruct (save_code_file_any "print(1)" "t" (Some "demo.py") world0)
    as (_ & Hkeep & _).
  exists r, w'. split; [exact Hrun|].
  split; [apply Hok; reflexivity|].
  apply (Hkeep "demo.py"); [reflexivity|discriminate|reflexivity].
Defined.

End Savers.

Section EnvFacts.
Import Py World Json Env.

Lemma same_env_refl w : same_env w w.
Proof. repeat split. Qed.

Lemma same_env_trans w1 w2 w3 :
  same_env w1 w2 -> same_env w2 w3 -> same_env w1 w3.
Proof.
  unfold same_env. intros H1 H2.
  destruct H1 as (?&?&?&?&?&?&?&?&?&?&?&?&?),
    H2 as (?&?&?&?&?&?&?&?&?&?&?&?&?).
  repeat split; congruence.
Qed.

Lemma same_env_upd w a b c d e : same_env w (upd w a b c d e).
Proof. repeat split. Qed.

Context {A B : Type}.

Lemma keeps_env_ret (a : A) : keeps_env (ret a).
Proof. intros w. apply same_env_refl. Qed.

Lemma keeps_env_raise e : keeps_env (@raise A e).
Proof. intros w. apply same_env_refl. Qed.

Lemma keeps_env_lift (r : exn + A) : keeps_env (lift r).
Proof. intros w. apply same_env_refl. Qed.

Lemma keeps_env_ask (f : world -> A) : keeps_env (ask f).
Proof. intros w. apply same_env_refl. Qed.

Lemma keeps_env_bind (c : M A) (k : A -> M B) :
  keeps_env c -> (forall a, keeps_env (k a)) -> keeps_env (World.bind c k).
Proof.
  intros Hc Hk w. unfold World.bind. specialize (Hc w).
  destruct (c w) as [[e|a] w1]; [exact Hc|].
  eapply same_env_trans; [exact Hc|apply Hk].
Qed.

Lemma keeps_env_try_with (c : M A) (h : exn -> M A) :
  keeps_env c -> (forall e, keeps_env (h e)) -> keeps_env (try_with c h).
Proof.
  intros Hc Hh w. unfold try_with. specialize (Hc w).
  destruct (c w) as [[e|a] w1]; [|exact Hc].
  eapply same_env_trans; [exact Hc|apply Hh].
Qed.

End EnvFacts.

Section EnvPrimitives.
Import Py World Json Env.

Lemma keeps_env_now : keeps_env now.
Proof. intros w. apply same_env_upd. Qed.

Lemma keeps_env_sleep n : keeps_env (sleep n).
Proof. intros w. apply same_env_upd. Qed.

Lemma keeps_env_print s : keeps_env (print s).
Proof. intros w. apply same_env_upd. Qed.

Lemma keeps_env_write_file p c : keeps_env (write_file p c).
Proof.
  intros w. unfold write_file. destruct (open_error w p);
    [apply same_env_refl|apply same_env_upd].
Qed.

Lemma keeps_env_generate_content p : keeps_env (generate_content p).
Proof. intros w. apply same_env_upd. Qed.

Lemma keeps_env_path_exists p : keeps_env (path_exists p).
Proof. intros w. apply same_env_refl. Qed.

Lemma keeps_env_remove_file p : keeps_env (remove_file p).
Proof.
  intros w. unfold remove_file. destruct (fs w !! p);
    [apply same_env_upd|destruct (is_dir w p); apply same_env_refl].
Qed.

Lemma keeps_env_makedirs p : keeps_env (makedirs p).
Proof.
  intros w. unfold makedirs. destruct (makedirs_error w p);
    apply same_env_refl.
Qed.

End EnvPrimitives.

Ltac keeps_env_step :=
first
  [ assumption | apply keeps_env_ret | apply keeps_env_raise | apply keeps_env_lift
  | apply keeps_env_ask | apply keeps_env_now | apply keeps_env_sleep
  | apply keeps_env_print | apply keeps_env_write_file
  | apply keeps_env_generate_content | apply keeps_env_path_exists
  | apply keeps_env_remove_file | apply keeps_env_makedirs
  | apply keeps_env_bind | apply keeps_env_try_with
  | match goal with
    | |- Env.keeps_env (if ?b then _ else _) => destruct b
    | |- Env.keeps_env (match ?x with _ => _ end) => destruct x
    | |- forall _, _ => intro
    end ].

Ltac keeps_env := repeat keeps_env_step.

Section EnvFunctions.
Import Py World Json Env.

Lemma keeps_env_save_code_file code topic filename :
  keeps_env (CodeProcessor.save_code_file code topic filename).
Proof. unfold CodeProcessor.save_code_file. keeps_env. Qed.

Lemma keeps_env_text_to_speech text filename language slow :
  keeps_env (TextToSpeech.text_to_speech text filename language slow).
Proof. unfold TextToSpeech.text_to_speech. keeps_env. Qed.

Lemma keeps_env_generate_diagram prompt topic diagram_type filename :
  keeps_env (ImageGenerator.generate_diagram prompt topic diagram_type filename).
Proof.
  unfold ImageGenerator.generate_diagram, ImageGenerator.primary,
    ImageGenerator._create_placeholder_image.
  keeps_env.
Qed.

Lemma keeps_env_retry_loop {A} (func : M A) attempts :
  keeps_env func -> keeps_env (GeminiClient.retry_loop func attempts).
Proof.
  intros Hf. induction attempts as [|a rest IH];
    cbn [GeminiClient.retry_loop]; keeps_env.
Qed.

(** The environment after a run is the one before. *)
Lemma keeps_env_run {A} (c : M A) w r w' :
  keeps_env c -> c w = (r, w') -> same_env w w'.
Proof. intros H Hrun. specialize (H w). rewrite Hrun in H. exact H. Qed.

End EnvFunctions.

Section Speech.
Import Py World Json CodeProcessor TextToSpeech Outcome Saving Env Examples Scenario.

(** What [text_to_speech] does, whatever its arguments. *)
Lemma text_to_speech_run text filename language slow w :
  let name := audio_filename filename w in
  let path := path_join (audio_dir w) name in
  exists w',
    match gtts w text language slow with
    | inl e =>
        match gtts_partial w text language slow, open_error w path with
        | Some written, None =>
            text_to_speech text filename language slow w
              = (inr (failure_result (str_exn e)), w')
            /\ fs w' = <[path := written]> (fs w)
        | Some written, Some msg =>
            text_to_speech text filename language slow w
              = (inr (failure_result msg), w')
            /\ fs w' = fs w
        | None, _ =>
            text_to_speech text filename language slow w
              = (inr (failure_result (str_exn e)), w')
            /\ fs w' = fs w
        end
    | inr audio =>
        match open_error w path with
        | None =>
            text_to_speech text filename language slow w
              = (inr (audio_saved path name language
                        (length (split_ws text))), w')
            /\ fs w' = <[path := audio]> (fs w)
        | Some msg =>
            text_to_speech text filename language slow w
              = (inr (failure_result msg), w')
            /\ fs w' = fs w
        end
    end.
Proof.
  intros name path. unfold text_to_speech.
  unfold path, name, audio_filename, with_extension.
  destruct filename as [[|c f]|]; run; cbv beta iota delta [id];
    cbn [from_option];
    (destruct (gtts w text language slow) as [[msg]|audio]; run;
     [destruct (gtts_partial w text language slow) as [written|]; run|]);
    try solve [eexists; split; reflexivity];
    match goal with
    | |- context [open_error w ?p] => destruct (open_error w p)
    end; run; (eexists; split; reflexivity).
Qed.

(** X5. [text_to_speech] never raises, and the name it works with always
    ends in [.mp3].  The result is a success exactly when the speech is
    synthesized and the file can be opened; then the file holds the audio.
    When only the synthesis fails the result carries its message; when the
    speech is synthesized and the file cannot be opened it carries the
    message of that error, and no file changes. *)
Theorem text_to_speech_any (text : string) (filename : option string)
    (language : string) (slow : bool) (w : world) :
  let name := audio_filename filename w in
  let path := path_join (audio_dir w) name in
  endswith name ".mp3" = true
  /\ exists r w',
       text_to_speech text filename language slow w = (inr r, w')
       /\ (dict_get "success" r = Some (JBool true)
           <-> exists audio, gtts w text language slow = inr audio
                             /\ open_error w path = None)
       /\ (forall audio, gtts w text language slow = inr audio ->
             open_error w path = None ->
             dict_get "filename" r = Some (JStr name)
             /\ fs w' !! path = Some audio)
       /\ (forall e, gtts w text language slow = inl e ->
             open_error w path = None -> r = failure_result (str_exn e))
       /\ (forall audio msg, gtts w text language slow = inr audio ->
             open_error w path = Some msg ->
             r = failure_result msg /\ fs w' = fs w).
Proof.
  intros name path. split; [apply with_extension_endswith|].
  destruct (text_to_speech_run text filename language slow w) as [w' H].
  fold name in H. fold path in H.
  destruct (gtts w text language slow) as [e|audio] eqn:Hg.
  - destruct (gtts_partial w text language slow) as [written|];
      [destruct (open_error w path) as [msg|] eqn:Ho|];
      destruct H as [Hrun Hfs]; eexists _, w'; (split; [exact Hrun|]);
      (split; [split; [discriminate|intros (a & Ha & _); discriminate]|]);
      (split; [discriminate|]);
      (split; [|discriminate]).
    + intros ? _ [=].
    + intros ? [= <-] _. reflexivity.
    + intros ? [= <-] _. reflexivity.
  - destruct (open_error w path) as [msg|] eqn:Ho; destruct H as [Hrun Hfs];
      eexists _, w'; (split; [exact Hrun|]).
    + split; [split; [discriminate|intros (a & _ & Ha); discriminate]|].
      split; [discriminate|]. split; [discriminate|].
      intros ? ? _ [= <-]. auto.
    + split; [split; [eauto|reflexivity]|].
      split; [intros ? [= <-] _; split; [reflexivity|];
              rewrite Hfs; apply lookup_insert_eq|].
      split; discriminate.
Qed.

Lemma text_to_speech_any_witness :
  exists r w',
    text_to_speech "one two" (Some "talk") "en" false world0 = (inr r, w')
    /\ dict_get "success" r = Some (JBool true)
    /\ dict_get "filename" r = Some (JStr "talk.mp3")
    /\ fs w' !! "static/generated/audio/talk.mp3" = Some "MP3".
Proof.
  destruct (text_to_speech_any "one two" (Some "talk") "en" false world0)
    as (_ & r & w' & Hrun & Hiff & Hok & _).
  exists r, w'. split; [exact Hrun|].
  split; [apply Hiff; exists "MP3"; split; reflexivity|].
  apply (Hok "MP3"); reflexivity.
Defined.

(** What [delete_audio_file] does with a path that is no directory, and
    what a second call does. *)
Lemma delete_audio_file_run (filename : string) (w : world) :
  let path := path_join (audio_dir w) filename in
  is_dir w path = false ->
  exists b w',
    delete_audio_file filename w = (inr b, w')
    /\ (b = true <-> is_Some (fs w !! path))
    /\ fs w' = delete path (fs w)
    /\ fs w' !! path = None
    /\ (forall q, q <> path -> fs w' !! q = fs w !! q)
    /\ delete_audio_file filename w' = (inr false, w').
Proof.
  intros path Hdir. unfold delete_audio_file. run. fold path.
  unfold path_exists, remove_file. cbv beta iota.
  destruct (fs w !! path) as [c|] eqn:Hf.
  - rewrite bool_decide_eq_true_2 by eauto. cbn [orb]. run.
    rewrite Hf. run. eexists _, _. split; [reflexivity|].
    cbn [fs audio_dir]. fold path.
    split; [split; eauto|]. split; [reflexivity|].
    split; [apply lookup_delete_eq|].
    split; [intros q Hq; apply lookup_delete_ne; congruence|].
    rewrite lookup_delete_eq.
    rewrite bool_decide_eq_false_2 by (intros [? ?]; discriminate).
    match goal with
    | |- context [is_dir ?w0 path] =>
        change (is_dir w0 path) with (is_dir w path)
    end.
    rewrite Hdir. reflexivity.
  - rewrite bool_decide_eq_false_2 by (intros [? ?]; discriminate).
    rewrite Hdir. cbn [orb]. eexists _, _. split; [reflexivity|].
    split; [split; [discriminate|intros [? ?]; discriminate]|].
    split; [symmetry; apply delete_id, Hf|]. split; [exact Hf|].
    split; [reflexivity|].
    fold path. rewrite Hf.
    rewrite bool_decide_eq_false_2 by (intros [? ?]; discriminate).
    rewrite Hdir. reflexivity.
Qed.




End Speech.

Section Downloads.
Import Py World Json CodeProcessor TextToSpeech ImageGenerator App.
Import Outcome Saving Env Examples Scenario.

Lemma keeps_env_delete_audio_file filename :
  keeps_env (delete_audio_file filename).
Proof. unfold delete_audio_file. keeps_env. Qed.

(** A path that can be opened for writing is no directory. *)
Lemma open_not_dir w path : open_error w path = None -> is_dir w path = false.
Proof. unfold is_dir. intros ->. reflexivity. Qed.

(** A download route on a file that is there, on a directory, and on a
    path that is not there. *)
Lemma download_code_run filename w :
  let path := path_join (code_dir w) filename in
  download_code filename w
  = (inr match fs w !! path with
         | Some content => Attachment path content
         | None =>
             if is_dir w path
             then Json (error_reply (is_a_directory path) 500)
             else Json (error_reply "File not found" 404)
         end, w).
Proof.
  intros path. unfold download_code, download_error, path_exists, send_file.
  run. fold path. destruct (fs w !! path) as [c|] eqn:Hf.
  - rewrite bool_decide_eq_true_2 by eauto. cbn [orb]. rewrite Hf.
    reflexivity.
  - rewrite bool_decide_eq_false_2 by (intros [? ?]; discriminate).
    cbn [orb]. destruct (is_dir w path) eqn:Hd; [rewrite Hf, Hd|];
      reflexivity.
Qed.

Lemma download_audio_run filename w :
  let path := path_join (audio_dir w) filename in
  download_audio filename w
  = (inr match fs w !! path with
         | Some content => Attachment path content
         | None =>
             if is_dir w path
             then Json (error_reply (is_a_directory path) 500)
             else Json (error_reply "File not found" 404)
         end, w).
Proof.
  intros path. unfold download_audio, download_error, path_exists, send_file.
  run. fold path. destruct (fs w !! path) as [c|] eqn:Hf.
  - rewrite bool_decide_eq_true_2 by eauto. cbn [orb]. rewrite Hf.
    reflexivity.
  - rewrite bool_decide_eq_false_2 by (intros [? ?]; discriminate).
    cbn [orb]. destruct (is_dir w path) eqn:Hd; [rewrite Hf, Hd|];
      reflexivity.
Qed.

Lemma download_image_run filename w :
  let path := path_join (image_dir w) filename in
  download_image filename w
  = (inr match fs w !! path with
         | Some content => Attachment path content
         | None =>
             if is_dir w path
             then Json (error_reply (is_a_directory path) 500)
             else Json (error_reply "File not found" 404)
         end, w).
Proof.
  intros path. unfold download_image, download_error, path_exists, send_file.
  run. fold path. destruct (fs w !! path) as [c|] eqn:Hf.
  - rewrite bool_decide_eq_true_2 by eauto. cbn [orb]. rewrite Hf.
    reflexivity.
  - rewrite bool_decide_eq_false_2 by (intros [? ?]; discriminate).
    cbn [orb]. destruct (is_dir w path) eqn:Hd; [rewrite Hf, Hd|];
      reflexivity.
Qed.

(** X7. A code file that [save_code_file] reports as saved is what
    [download_code] sends for the file name of the report: the header
    followed by the code. *)
Theorem save_then_download_code (code topic : string)
    (filename : option string) (w w1 : world) (r : pydict) :
  save_code_file code topic filename w = (inr r, w1) ->
  dict_get "success" r = Some (JBool true) ->
  exists name,
    dict_get "filename" r = Some (JStr name)
    /\ download_code name w1
       = (inr (Attachment (path_join (code_dir w) name)
                 (header topic (header_time filename w) ++ code)), w1).
Proof.
  intros Hrun Hok.
  destruct (save_code_file_run code topic filename w) as (w' & _ & Hdir & H).
  destruct (open_error w _) as [msg|]; destruct H as [Hrun' Hfs];
    rewrite Hrun' in Hrun; injection Hrun as <- <-; [discriminate Hok|].
  eexists. split; [reflexivity|].
  rewrite download_code_run. cbv zeta.
  rewrite Hdir, Hfs, lookup_insert_eq. reflexivity.
Qed.

Lemma save_then_download_code_witness :
  exists r w1 name content,
    save_code_file "print(1)" "Gradient Descent" None world0 = (inr r, w1)
    /\ dict_get "filename" r = Some (JStr name)
    /\ download_code name w1
       = (inr (Attachment (path_join "static/generated/code" name) content),
          w1).
Proof.
  destruct (save_code_file "print(1)" "Gradient Descent" None world0)
    as [[e|r] w1] eqn:Hrun; [vm_compute in Hrun; discriminate Hrun|].
  destruct (save_then_download_code _ _ _ _ _ _ Hrun) as (name & Hname & Hd).
  - vm_compute in Hrun. injection Hrun as <- _. reflexivity.
  - exists r, w1, name. eexists. split; [reflexivity|].
    split; [exact Hname|exact Hd].
Defined.

(** X8. An audio file that [text_to_speech] reports as saved is what
    [download_audio] sends for the file name of the report, namely the
    synthesized audio; once [delete_audio_file] has removed it,
    [download_audio] answers 404, and the files are as before the saving
    when there was none of that name. *)
Theorem speech_download_delete (text : string) (filename : option string)
    (language : string) (slow : bool) (w w1 : world) (r : pydict) :
  text_to_speech text filename language slow w = (inr r, w1) ->
  dict_get "success" r = Some (JBool true) ->
  exists name audio w2,
    dict_get "filename" r = Some (JStr name)
    /\ gtts w text language slow = inr audio
    /\ download_audio name w1
       = (inr (Attachment (path_join (audio_dir w) name) audio), w1)
    /\ delete_audio_file name w1 = (inr true, w2)
    /\ download_audio name w2
       = (inr (Json (error_reply "File not found" 404)), w2)
    /\ (fs w !! path_join (audio_dir w) name = None -> fs w2 = fs w).
Proof.
  intros Hrun Hok.
  pose proof (keeps_env_run _ _ _ _
                (keeps_env_text_to_speech text filename language slow) Hrun)
    as (_&Hopen&_&_&_&Hdir&_).
  destruct (text_to_speech_run text filename language slow w) as [w' H].
  destruct (gtts w text language slow) as [e|audio].
  { destruct (gtts_partial w text language slow) as [written|];
      [destruct (open_error w _) as [msg|]|];
      destruct H as [Hrun' _]; rewrite Hrun' in Hrun;
      injection Hrun as <- <-; discriminate Hok. }
  destruct (open_error w _) as [msg|] eqn:Ho; destruct H as [Hrun' Hfs];
    rewrite Hrun' in Hrun; injection Hrun as <- <-; [discriminate Hok|].
  set (name := audio_filename filename w) in *.
  assert (Hnd : is_dir w' (path_join (audio_dir w') name) = false).
  { apply open_not_dir. rewrite Hopen, Hdir. exact Ho. }
  destruct (delete_audio_file_run name w' Hnd)
    as (b & w2 & Hdel & Hb & Hfs2 & Hgone & _ & _).
  pose proof (keeps_env_run _ _ _ _ (keeps_env_delete_audio_file name) Hdel)
    as (_&Hopen2&_&_&_&Hdir2&_).
  assert (Hnd2 : is_dir w2 (path_join (audio_dir w2) name) = false).
  { apply open_not_dir. rewrite Hopen2, Hdir2, Hopen, Hdir. exact Ho. }
  exists name, audio, w2. split; [reflexivity|]. split; [reflexivity|].
  split; [rewrite download_audio_run; cbv zeta;
          rewrite Hdir, Hfs, lookup_insert_eq; reflexivity|].
  split.
  - rewrite Hdel. f_equal. f_equal. apply Hb. rewrite Hdir, Hfs, lookup_insert_eq. eauto.
  - split; [rewrite download_audio_run; cbv zeta;
            rewrite Hnd2, Hdir2, Hgone; reflexivity|].
    intros Hfree. rewrite Hfs2, Hdir, Hfs. apply delete_insert_id, Hfree.
Qed.

Lemma speech_download_delete_witness :
  exists r w1 w2,
    text_to_speech "one two" (Some "talk") "en" false world0 = (inr r, w1)
    /\ download_audio "talk.mp3" w1
       = (inr (Attachment "static/generated/audio/talk.mp3" "MP3"), w1)
    /\ delete_audio_file "talk.mp3" w1 = (inr true, w2)
    /\ fs w2 = fs world0.
Proof.
  destruct (text_to_speech "one two" (Some "talk") "en" false world0)
    as [[e|r] w1] eqn:Hrun; [vm_compute in Hrun; discriminate Hrun|].
  assert (Hr : r = audio_saved "static/generated/audio/talk.mp3" "talk.mp3"
                     "en" 2).
  { vm_compute in Hrun. injection Hrun as <- _. reflexivity. }
  destruct (speech_download_delete _ _ _ _ _ _ _ Hrun)
    as (name & audio & w2 & Hname & Hg & Hd & Hdel & _ & Hback).
  - rewrite Hr. reflexivity.
  - rewrite Hr in Hname. injection Hname as <-.
    vm_compute in Hg. injection Hg as <-.
    exists r, w1, w2. split; [reflexivity|]. split; [exact Hd|].
    split; [exact Hdel|]. apply Hback. reflexivity.
Defined.

End Downloads.

Section Diagrams.
Import Py World Json CodeProcessor ImageGenerator App.
Import Outcome Saving Env Examples Scenario.

(** X9. An image that [generate_diagram] reports as generated is what
    [download_image] sends for the file name of the report: the decoded
    bytes of the model when the method is [gemini], the drawn placeholder
    when it is [placeholder]. *)
Theorem diagram_then_download (prompt topic diagram_type : string)
    (filename : option string) (w w1 : world) (r : pydict) :
  generate_diagram prompt topic diagram_type filename w = (inr r, w1) ->
  dict_get "success" r = Some (JBool true) ->
  exists name content,
    let path := path_join (image_dir w) name in
    dict_get "filename" r = Some (JStr name)
    /\ download_image name w1 = (inr (Attachment path content), w1)
    /\ ((dict_get "method" r = Some (JStr "gemini")
         /\ primary_completes w prompt path content)
        \/ (dict_get "method" r = Some (JStr "placeholder")
            /\ fallback_completes w topic diagram_type path content)).
Proof.
  intros Hrun Hok.
  pose proof (keeps_env_run _ _ _ _
                (keeps_env_generate_diagram prompt topic diagram_type filename)
                Hrun) as (_&_&_&_&Hdir&_).
  destruct (generate_diagram_outcome prompt topic diagram_type filename w)
    as (r' & w' & Hrun' & Hcases).
  rewrite Hrun' in Hrun. injection Hrun as <- <-.
  set (name := diagram_filename topic diagram_type filename w) in *.
  destruct Hcases as [(b & Hp & -> & Hfs)|[(_ & img & Hf & -> & Hfs)
                                          |(_ & _ & (msg & ->) & _)]].
  - exists name, b. split; [reflexivity|].
    split; [rewrite download_image_run, Hdir, Hfs, lookup_insert_eq; reflexivity|].
    left. split; [reflexivity|exact Hp].
  - exists name, img. split; [reflexivity|].
    split; [rewrite download_image_run, Hdir, Hfs, lookup_insert_eq; reflexivity|].
    right. split; [reflexivity|exact Hf].
  - discriminate Hok.
Qed.

Lemma diagram_then_download_witness :
  exists r w1 name,
    generate_diagram "a diagram" "CNN" "architecture" None world0 = (inr r, w1)
    /\ dict_get "filename" r = Some (JStr name)
    /\ download_image name w1
       = (inr (Attachment (path_join "static/generated/images" name) "PNG"),
          w1).
Proof.
  destruct (generate_diagram "a diagram" "CNN" "architecture" None world0)
    as [[e|r] w1] eqn:Hrun; [vm_compute in Hrun; discriminate Hrun|].
  destruct (diagram_then_download _ _ _ _ _ _ _ Hrun)
    as (name & content & Hname & Hd & Hm).
  - vm_compute in Hrun. injection Hrun as <- _. reflexivity.
  - exists r, w1, name. split; [reflexivity|]. split; [exact Hname|].
    destruct Hm as [[_ (resp & ? & ? & ? & Hm & _)]|[_ [Hpil _]]].
    + discriminate Hm.
    + change (pil_placeholder world0) with draw_png in Hpil.
      unfold draw_png in Hpil.
      destruct (String.eqb _ ".png"); [|discriminate Hpil].
      injection Hpil as <-. exact Hd.
Defined.

(** X10. [generate_diagram] prints one line, with the message of the
    exception, when the primary path raises, be it the model, the decoding
    or the writing; it prints nothing when the model answers without
    inline data in its first candidate, and nothing when the primary path
    completes.  It reads the clock once when it derives the file name and
    not at all otherwise, and never calls the text model. *)
Theorem generate_diagram_log (prompt topic diagram_type : string)
    (filename : option string) (w : world) :
  let path :=
    path_join (image_dir w) (diagram_filename topic diagram_type filename w) in
  let failed (e : exn) := (stdout w ++ [failure_line e])%list in
  exists r w',
    generate_diagram prompt topic diagram_type filename w = (inr r, w')
    /\ (forall e, image_model w (enhanced_prompt prompt) = inl e ->
          stdout w' = failed e)
    /\ (forall resp, image_model w (enhanced_prompt prompt) = inr resp ->
          match candidates resp with
          | [] => stdout w' = stdout w
          | c :: _ =>
              match first_inline_data (parts c) with
              | None => stdout w' = stdout w
              | Some data =>
                  match b64decode w data with
                  | inl e => stdout w' = failed e
                  | inr _ =>
                      match open_error w path with
                      | Some msg => stdout w' = failed (Exception msg)
                      | None => stdout w' = stdout w
                      end
                  end
              end
          end)
    /\ ticks w'
       = ticks w + (if CodeProcessor.no_filename filename then 1 else 0)
    /\ model_calls w' = model_calls w /\ slept w' = slept w.
Proof.
  intros path failed. unfold failed, path, diagram_filename, failure_line.
  unfold generate_diagram, primary, _create_placeholder_image.
  destruct filename as [[|c0 f]|]; run; cbv beta iota delta [id];
    cbn [from_option];
    repeat (run;
            match goal with
            | |- context [match image_model w ?p with _ => _ end] =>
                destruct (image_model w p) as [[?]|?] eqn:?
            | |- context [match candidates ?r with _ => _ end] =>
                destruct (candidates r) as [|? ?] eqn:?
            | |- context [match first_inline_data ?l with _ => _ end] =>
                destruct (first_inline_data l) as [?|] eqn:?
            | |- context [match b64decode w ?d with _ => _ end] =>
                destruct (b64decode w d) as [[?]|?] eqn:?
            | |- context [match pil_placeholder w ?a ?b ?c with _ => _ end] =>
                destruct (pil_placeholder w a b c) as [[?]|?] eqn:?
            | |- context [match open_error w ?p with _ => _ end] =>
                destruct (open_error w p) as [?|] eqn:?
            end);
    (eexists _, _; split; [reflexivity|];
     cbn [stdout ticks model_calls slept];
     split; [try discriminate; intros ? [= <-]; reflexivity|];
     split; [try discriminate; intros ? [= <-];
             repeat match goal with
               | H : ?l = _ |- context [?l] => rewrite H
               end; reflexivity|];
     split; [lia|split; reflexivity]).
Qed.

Lemma generate_diagram_log_witness :
  exists r w',
    generate_diagram "a diagram" "CNN" "architecture" None world0 = (inr r, w')
    /\ stdout w'
       = ["Gemini image generation failed: 503 unavailable"].
Proof.
  destruct (generate_diagram_log "a diagram" "CNN" "architecture" None world0)
    as (r & w' & Hrun & Hlog & _).
  exists r, w'. split; [exact Hrun|].
  apply (Hlog (Exception "503 unavailable")). reflexivity.
Defined.

End Diagrams.

Section RetryAny.
Import Py World Json GeminiClient Retry Examples Env.

Lemma waits_sum k : sum_list (waits k) + 2 = 2 ^ (k + 1).
Proof.
  unfold waits. induction k as [|k IH]; [reflexivity|].
  rewrite seq_S, fmap_app, sum_list_with_app.
  cbn [fmap list_fmap sum_list_with]. change (0 + k) with k. unfold id at 2.
  rewrite !Nat.add_1_r in *. rewrite !Nat.pow_succ_r' in *.
  set (p := 2 ^ k) in *. lia.
Qed.

Lemma outcome_cases w prompt i :
  (exists e, outcome w prompt i = inl e /\ is_rate_limit e = true)
  \/ match outcome w prompt i with
     | inl e => is_rate_limit e = false
     | inr _ => True
     end.
Proof.
  destruct (outcome w prompt i) as [e|v]; [|right; exact I].
  destruct (is_rate_limit e) eqn:Hr; [left; eauto|right; reflexivity].
Qed.

(** The loop from any attempt on: it stops at the first attempt [j] that
    does not end in a rate-limit failure, or runs out of attempts. *)
Lemma retry_loop_any prompt n start w :
  exists j, j <= n
    /\ (forall i, i < j ->
          exists e, outcome w prompt i = inl e /\ is_rate_limit e = true)
    /\ ((j = n
         /\ retry_loop (generate_content prompt) (seq start n) w
            = (inl (Exception "Max retries exceeded for API call"),
               after_calls w n
                 ((fun attempt => 2 ^ attempt * 2) <$> seq start n)))
        \/ (j < n
            /\ match outcome w prompt j with
               | inl e => is_rate_limit e = false
               | inr _ => True
               end
            /\ retry_loop (generate_content prompt) (seq start n) w
               = (outcome w prompt j,
                  after_calls w (j + 1)
                    ((fun attempt => 2 ^ attempt * 2) <$> seq start j)))).
Proof.
  revert start w. induction n as [|n IH]; intros start w.
  - exists 0. split; [lia|]. split; [intros i Hi; lia|]. left. split; [reflexivity|].
    cbn [seq fmap list_fmap]. rewrite after_calls_0. reflexivity.
  - destruct (outcome_cases w prompt 0) as [(e & He & Hr)|Hfin].
    + destruct (IH (S start) (after_calls w 1 [2 ^ start * 2]))
        as (j & Hj & Hpre & Hend).
      exists (S j). split; [lia|]. split.
      { intros i Hi. destruct i as [|i]; [eauto|].
        destruct (Hpre i ltac:(lia)) as (e' & He' & Hr').
        rewrite outcome_after in He'. eauto. }
      cbn [seq]. rewrite (retry_loop_rate_limited _ _ _ _ e He Hr).
      destruct Hend as [(-> & Hrun)|(Hlt & Hout & Hrun)].
      * left. split; [reflexivity|]. rewrite Hrun, after_calls_after.
        reflexivity.
      * right. split; [lia|]. rewrite outcome_after in Hout, Hrun.
        split; [exact Hout|]. rewrite Hrun, after_calls_after.
        cbn [seq fmap list_fmap]. reflexivity.
    + exists 0. split; [lia|]. split; [intros i Hi; lia|]. right.
      split; [lia|]. split; [exact Hfin|].
      cbn [seq]. rewrite (retry_loop_final _ _ _ _ Hfin). reflexivity.
Qed.

(** X11. [_retry_with_backoff] on a model call, for any number of
    attempts.  The loop stops at the first attempt [j] that does not end
    in a rate-limit failure and hands on its result or its exception; when
    all [max_retries] attempts end in rate-limit failures (also when
    [max_retries] is 0 and the model is never called) it raises
    [Max retries exceeded for API call].  The model is called at most
    [max_retries] times, the sleeps are 2, 4, 8, ... and add up to
    [2^(j+1) - 2] seconds, at most [2^(max_retries+1) - 2], and neither
    the clock, the output nor any file is touched. *)
Theorem retry_with_backoff_any (prompt : string) (max_retries : nat)
    (w : world) :
  let run := _retry_with_backoff (generate_content prompt) max_retries w in
  exists j, j <= max_retries
    /\ (forall i, i < j ->
          exists e, outcome w prompt i = inl e /\ is_rate_limit e = true)
    /\ ((j = max_retries
         /\ run = (inl (Exception "Max retries exceeded for API call"),
                   after_calls w max_retries (waits max_retries)))
        \/ (j < max_retries
            /\ match outcome w prompt j with
               | inl e => is_rate_limit e = false
               | inr _ => True
               end
            /\ run = (outcome w prompt j, after_calls w (j + 1) (waits j))))
    /\ model_calls run.2 <= model_calls w + max_retries
    /\ slept run.2 = (slept w ++ waits j)%list
    /\ sum_list (waits j) + 2 = 2 ^ (j + 1)
    /\ sum_list (waits j) + 2 <= 2 ^ (max_retries + 1)
    /\ ticks run.2 = ticks w /\ stdout run.2 = stdout w /\ fs run.2 = fs w
    /\ same_env w run.2.
Proof.
  intros run. unfold run, _retry_with_backoff.
  destruct (retry_loop_any prompt max_retries 0 w) as (j & Hj & Hpre & Hend).
  exists j. split; [exact Hj|]. split; [exact Hpre|].
  fold (waits max_retries) in Hend. fold (waits j) in Hend.
  split; [exact Hend|].
  assert (Hw : exists calls,
             calls <= max_retries
             /\ (retry_loop (generate_content prompt) (seq 0 max_retries) w).2
                = after_calls w calls (waits j)).
  { destruct Hend as [(-> & ->)|(Hlt & _ & ->)].
    - exists max_retries. split; [lia|reflexivity].
    - exists (j + 1). split; [lia|reflexivity]. }
  destruct Hw as (calls & Hcalls & ->).
  split; [cbn; lia|]. split; [reflexivity|].
  split; [apply waits_sum|]. split.
  - rewrite waits_sum. apply Nat.pow_le_mono_r; lia.
  - repeat split; reflexivity.
Qed.

End RetryAny.

Section Fences.
Import Py World Json GeminiClient Decimal.

Lemma lstrip_space (ws : string) : str_forall isspace ws = true -> lstrip ws = "".
Proof.
  induction ws as [|c ws IH]; [reflexivity|].
  cbn [str_forall lstrip]. intros [Hc Hws]%andb_prop. rewrite Hc. auto.
Qed.

Lemma lstrip_app_space (ws s : string) :
  str_forall isspace ws = true -> lstrip (ws ++ s) = lstrip s.
Proof.
  induction ws as [|c ws IH]; [rewrite str_app_empty_l; reflexivity|].
  cbn [str_forall]. intros [Hc Hws]%andb_prop.
  rewrite str_app_cons. cbn [lstrip]. rewrite Hc. auto.
Qed.

Lemma rstrip_space (ws : string) : str_forall isspace ws = true -> rstrip ws = "".
Proof.
  induction ws as [|c ws IH]; [reflexivity|].
  cbn [str_forall rstrip]. intros [Hc Hws]%andb_prop.
  rewrite (IH Hws), Hc. reflexivity.
Qed.

Lemma rstrip_app_space (s ws : string) :
  str_forall isspace ws = true -> rstrip (s ++ ws) = rstrip s.
Proof.
  intros Hws. induction s as [|c s IH].
  - rewrite str_app_empty_l. apply rstrip_space. exact Hws.
  - rewrite str_app_cons. cbn [rstrip]. rewrite IH. reflexivity.
Qed.

Lemma rstrip_app_keep (s t : string) :
  rstrip t <> "" -> rstrip (s ++ t) = s ++ rstrip t.
Proof.
  intros Ht. induction s as [|c s IH].
  - rewrite !str_app_empty_l. reflexivity.
  - rewrite !str_app_cons. cbn [rstrip]. rewrite IH.
    destruct (s ++ rstrip t) as [|d r] eqn:Hs; [|reflexivity].
    destruct s; [|rewrite str_app_cons in Hs; discriminate].
    rewrite str_app_empty_l in Hs. contradiction.
Qed.

Lemma lstrip_app_keep (s t : string) :
  lstrip s <> "" -> lstrip (s ++ t) = lstrip s ++ t.
Proof.
  induction s as [|c s IH]; [intros H; contradiction H; reflexivity|].
  rewrite str_app_cons. cbn [lstrip]. destruct (isspace c).
  - exact IH.
  - intros _. rewrite str_app_cons. reflexivity.
Qed.

Lemma lstrip_space_iff (s : string) : lstrip s = "" -> str_forall isspace s = true.
Proof.
  induction s as [|c s IH]; [reflexivity|].
  cbn [lstrip str_forall]. destruct (isspace c); [exact IH|discriminate].
Qed.

(** White space around a text does not matter to [strip]. *)
Lemma strip_app_space_l (ws s : string) :
  str_forall isspace ws = true -> strip (ws ++ s) = strip s.
Proof. intros H. unfold strip. rewrite lstrip_app_space by exact H. reflexivity. Qed.

Lemma strip_app_space_r (s ws : string) :
  str_forall isspace ws = true -> strip (s ++ ws) = strip s.
Proof.
  intros H. unfold strip. destruct (lstrip s) as [|c r] eqn:Hl.
  - apply lstrip_space_iff in Hl.
    rewrite lstrip_app_space by exact Hl.
    rewrite (lstrip_space ws H). reflexivity.
  - rewrite lstrip_app_keep by (rewrite Hl; discriminate).
    rewrite Hl. apply rstrip_app_space. exact H.
Qed.

Lemma strip_fenced (opening inner : string) c :
  isspace c = false ->
  strip (String c opening ++ inner ++ "```") = String c opening ++ inner ++ "```".
Proof.
  intros Hc. unfold strip. rewrite str_app_cons, lstrip_id by exact Hc.
  rewrite <- str_app_cons, <- str_app_assoc.
  rewrite rstrip_app_keep by (vm_compute; discriminate).
  reflexivity.
Qed.

Lemma clean_code_trimmed (text : string) :
  strip (clean_code text) = clean_code text.
Proof. unfold clean_code. apply strip_strip. Qed.

(** X12. Undoing a Markdown fence.  A response that is a fenced block,
    opened by [```python] or by [```] on a line of its own and closed by
    [```], with any white space around it, is cleaned to the stripped
    body of the block, whatever the body is; a response whose stripped
    text neither starts nor ends with a fence is only stripped.  The
    cleaned code has no white space at either end. *)
Theorem clean_code_fenced (ws1 ws2 body : string) :
  str_forall isspace ws1 = true -> str_forall isspace ws2 = true ->
  clean_code (ws1 ++ "```python" ++ nl ++ body ++ nl ++ "```" ++ ws2)
    = strip body
  /\ clean_code (ws1 ++ "```" ++ nl ++ body ++ nl ++ "```" ++ ws2)
     = strip body
  /\ (startswith (strip body) "```" = false ->
      endswith (strip body) "```" = false ->
      clean_code (ws1 ++ body ++ ws2) = strip body)
  /\ strip (clean_code body) = clean_code body.
Proof.
  intros H1 H2.
  assert (Hnl : str_forall isspace nl = true) by reflexivity.
  assert (Hinner : strip (nl ++ body ++ nl) = strip body).
  { rewrite strip_app_space_l by exact Hnl.
    apply strip_app_space_r. exact Hnl. }
  assert (Hlang : forall lang,
    strip (ws1 ++ ("```" ++ lang) ++ nl ++ body ++ nl ++ "```" ++ ws2)
    = ("```" ++ lang) ++ (nl ++ body ++ nl) ++ "```").
  { intros lang. rewrite strip_app_space_l by exact H1.
    replace (("```" ++ lang) ++ nl ++ body ++ nl ++ "```" ++ ws2)
      with ((("```" ++ lang) ++ (nl ++ body ++ nl) ++ "```") ++ ws2)
      by (rewrite !str_app_assoc; reflexivity).
    rewrite strip_app_space_r by exact H2.
    apply (strip_fenced ("``" ++ lang) (nl ++ body ++ nl) "`"%char).
    reflexivity. }
  split; [|split; [|split]].
  - unfold clean_code. pose proof (Hlang "python") as Hs.
    change ("```" ++ "python") with "```python" in Hs. rewrite Hs.
    rewrite startswith_app. cbv beta iota.
    change 9 with (String.length "```python"). rewrite str_drop_app_length.
    transitivity (strip (nl ++ body ++ nl)); [|exact Hinner].
    apply (chop_fence ((nl ++ body ++ nl) ++ "```")). reflexivity.
  - unfold clean_code. pose proof (Hlang "") as Hs.
    change ("```" ++ "") with "```" in Hs. rewrite Hs.
    assert (Hno : startswith ("```" ++ (nl ++ body ++ nl) ++ "```")
                    "```python" = false).
    { rewrite !str_app_assoc. reflexivity. }
    rewrite Hno, startswith_app. cbv beta iota.
    change (drop 3) with (drop (String.length "```")).
    rewrite str_drop_app_length.
    transitivity (strip (nl ++ body ++ nl)); [|exact Hinner].
    apply (chop_fence ((nl ++ body ++ nl) ++ "```")). reflexivity.
  - intros Hstart Hend. unfold clean_code.
    assert (Hs : strip (ws1 ++ body ++ ws2) = strip body).
    { rewrite strip_app_space_l by exact H1.
      apply strip_app_space_r. exact H2. }
    assert (Hno : startswith (strip body) "```python" = false).
    { destruct (startswith (strip body) "```python") eqn:H; [|reflexivity].
      apply (startswith_app_prefix (strip body) "```" "python") in H.
      congruence. }
    rewrite Hs, Hno, Hstart, Hend. apply strip_strip.
  - apply clean_code_trimmed.
Qed.

Lemma clean_code_fenced_witness :
  clean_code (" " ++ "```python" ++ nl ++ "x = 1 " ++ nl ++ "```" ++ nl)
    = "x = 1"
  /\ clean_code (" " ++ "```" ++ nl ++ "x = 1 " ++ nl ++ "```" ++ nl)
     = "x = 1".
Proof.
  destruct (clean_code_fenced " " nl "x = 1 " eq_refl eq_refl)
    as (H1 & H2 & _).
  split; [exact H1|exact H2].
Defined.

End Fences.

Ltac each_handler H :=
  unfold Routes.handlers in H;
  repeat (apply elem_of_cons in H as [->|H]);
  [ .. | by apply elem_of_nil in H ].

Ltac enter_handler :=
  cbv beta delta [App.api_generate_text App.api_generate_code
                  App.api_generate_audio App.api_generate_image].

Section Validation.
Import Py World Json App Request Routes Env Examples Scenario.
Local Open Scope py_scope.

Lemma reject_no_data h data w :
  h ∈ handlers -> truthy data = false ->
  h data w = (inr (error_reply "No data provided" 400), w).
Proof.
  intros Hh Hd. each_handler Hh; enter_handler; unfold try_with;
    rewrite Hd; reflexivity.
Qed.

Lemma reject_not_dict h data w :
  h ∈ handlers -> truthy data = true -> is_dict data = false ->
  h data w = (inr (error_reply (no_attribute data "get") 500), w).
Proof.
  intros Hh Ht Hd. each_handler Hh; enter_handler; unfold try_with;
    rewrite Ht; destruct data; try discriminate Hd; reflexivity.
Qed.

Lemma blank_topic_falsy d :
  blank_topic d ->
  exists s, dict_get_default "topic" (JStr "") d = JStr s
            /\ truthy (JStr (strip s)) = false.
Proof.
  unfold dict_get_default. intros [->|(s & -> & Hs)].
  - exists "". split; reflexivity.
  - exists s. rewrite Hs. split; reflexivity.
Qed.

Lemma reject_blank_topic h d w :
  h ∈ handlers -> truthy (JDict d) = true -> blank_topic d ->
  h (JDict d) w = (inr (error_reply "Topic is required" 400), w).
Proof.
  intros Hh Hd (s & Ht & Hs)%blank_topic_falsy.
  each_handler Hh; enter_handler; rewrite Hd;
    cbv beta iota delta [World.bind World.ret as_dict negb];
    rewrite Ht; cbv beta iota delta [strip_of World.ret World.try_with];
    rewrite Hs; reflexivity.
Qed.

Lemma dict_get_truthy d k v : dict_get k d = Some v -> truthy (JDict d) = true.
Proof. destruct d; [discriminate|reflexivity]. Qed.

Lemma reject_topic_not_str h d v w :
  h ∈ handlers -> dict_get "topic" d = Some v -> is_str v = false ->
  h (JDict d) w = (inr (error_reply (no_attribute v "strip") 500), w).
Proof.
  intros Hh Hv Hs. pose proof (dict_get_truthy _ _ _ Hv) as Hd.
  assert (Ht : dict_get_default "topic" (JStr "") d = v).
  { unfold dict_get_default. rewrite Hv. reflexivity. }
  each_handler Hh; enter_handler; rewrite Hd;
    cbv beta iota delta [World.bind World.ret as_dict negb];
    rewrite Ht; destruct v; try discriminate Hs; reflexivity.
Qed.



(** The validated requests of the audio route. *)
Lemma api_generate_audio_valid d topic w :
  valid_topic d topic ->
  api_generate_audio (JDict d) w
  = try_with (generate_audio_validated (strip topic)) on_error w.
Proof.
  intros (Hd & Ht & Hs)%valid_topic_truthy. unfold api_generate_audio.
  rewrite Hd. cbv beta iota delta [World.bind World.ret as_dict negb].
  rewrite Ht. cbv beta iota delta [strip_of World.ret World.try_with].
  rewrite Hs. reflexivity.
Qed.

(** Every handler, for a validated request, is the second part of it
    under the handler's [except]. *)
Lemma handler_valid h d topic w :
  h ∈ handlers -> valid_topic d topic ->
  exists c : M reply,
    h (JDict d) w = try_with c on_error w
    /\ (c = generate_text_validated (strip topic)
              (normalize (dict_get_default "depth" (JStr "comprehensive") d)
                 depths "comprehensive")
        \/ c = generate_code_validated (strip topic) (code_route_complexity d)
        \/ c = generate_audio_validated (strip topic)
        \/ c = generate_image_validated (strip topic) (image_route_type d)).
Proof.
  intros Hh Hv. each_handler Hh; eexists; (split;
    [ first [ apply api_generate_text_valid | apply api_generate_code_valid
            | apply api_generate_audio_valid | apply api_generate_image_valid ];
      exact Hv
    | auto ]).
Qed.

Lemma text_validated_reply topic depth w :
  exists r w',
    try_with (generate_text_validated topic depth) on_error w = (inr r, w')
    /\ success_or_500 r topic.
Proof.
  unfold generate_text_validated, on_error, try_with, World.bind at 1.
  destruct (get_gemini_client w) as [[e|[]] w1].
  { eexists _, _. split; [reflexivity|]. right. split; [reflexivity|]. eexists. reflexivity. }
  unfold World.bind at 1, GeminiClient.generate_text_explanation, World.bind at 1.
  destruct (GeminiClient._retry_with_backoff _ _ w1) as [[e|content] w2].
  { eexists _, _. split; [reflexivity|]. right. split; [reflexivity|]. eexists. reflexivity. }
  eexists _, _. split; [reflexivity|]. left. repeat split; reflexivity.
Qed.

Lemma code_validated_reply topic complexity w :
  exists r w',
    try_with (generate_code_validated topic complexity) on_error w = (inr r, w')
    /\ success_or_500 r topic.
Proof.
  unfold generate_code_validated, on_error, try_with, World.bind at 1.
  destruct (get_gemini_client w) as [[e|[]] w1].
  { eexists _, _. split; [reflexivity|]. right. split; [reflexivity|]. eexists. reflexivity. }
  unfold World.bind at 1, GeminiClient.generate_code_example, World.bind at 1.
  destruct (GeminiClient._retry_with_backoff _ _ w1) as [[e|raw] w2].
  { eexists _, _. split; [reflexivity|]. right. split; [reflexivity|]. eexists. reflexivity. }
  unfold ret at 1. lookup. unfold World.bind at 1.
  rewrite get_code_processor_run.
  destruct (makedirs_error w2 (code_dir w2)) as [msg|].
  { eexists _, _. split; [reflexivity|]. right. split; [reflexivity|]. eexists. reflexivity. }
  unfold World.bind at 1.
  destruct (save_code_file_total (GeminiClient.clean_code raw) topic w2)
    as (info & w3 & ->).
  eexists _, _. split; [reflexivity|]. left. repeat split; reflexivity.
Qed.

Lemma audio_validated_reply topic w :
  exists r w',
    try_with (generate_audio_validated topic) on_error w = (inr r, w')
    /\ success_or_500 r topic.
Proof.
  unfold generate_audio_validated, on_error, try_with, World.bind at 1.
  destruct (get_gemini_client w) as [[e|[]] w1].
  { eexists _, _. split; [reflexivity|]. right. split; [reflexivity|]. eexists. reflexivity. }
  unfold World.bind at 1, GeminiClient.generate_audio_script, World.bind at 1.
  destruct (GeminiClient._retry_with_backoff _ _ w1) as [[e|raw] w2].
  { eexists _, _. split; [reflexivity|]. right. split; [reflexivity|]. eexists. reflexivity. }
  unfold ret at 1. lookup. unfold World.bind at 1.
  rewrite get_tts_client_run.
  destruct (makedirs_error w2 (audio_dir w2)) as [msg|].
  { eexists _, _. split; [reflexivity|]. right. split; [reflexivity|]. eexists. reflexivity. }
  unfold World.bind at 1.
  destruct (text_to_speech_run (strip raw) None "en" false w2) as [w3 H].
  destruct (gtts w2 (strip raw) "en" false) as [e|audio].
  { destruct (gtts_partial w2 (strip raw) "en" false) as [written|];
      [destruct (open_error w2 _) as [msg|]|]; destruct H as [-> _];
      (eexists _, _; split; [reflexivity|]; right;
       split; [reflexivity|]; eexists; reflexivity). }
  destruct (open_error w2 _) as [msg|]; destruct H as [-> _].
  - eexists _, _. split; [reflexivity|]. right.
    split; [reflexivity|]. eexists. reflexivity.
  - eexists _, _. split; [reflexivity|]. left. repeat split; reflexivity.
Qed.

Lemma image_validated_reply topic diagram_type w :
  exists r w',
    try_with (generate_image_validated topic diagram_type) on_error w = (inr r, w')
    /\ success_or_500 r topic.
Proof.
  unfold generate_image_validated, on_error, try_with, World.bind at 1.
  destruct (get_gemini_client w) as [[e|[]] w1].
  { eexists _, _. split; [reflexivity|]. right. split; [reflexivity|]. eexists. reflexivity. }
  unfold World.bind at 1, GeminiClient.generate_image_prompt, World.bind at 1.
  destruct (GeminiClient._retry_with_backoff _ _ w1) as [[e|raw] w2].
  { eexists _, _. split; [reflexivity|]. right. split; [reflexivity|]. eexists. reflexivity. }
  unfold ret at 1. lookup. unfold World.bind at 1.
  rewrite get_image_generator_run.
  destruct (makedirs_error w2 (image_dir w2)) as [msg|].
  { eexists _, _. split; [reflexivity|]. right. split; [reflexivity|]. eexists. reflexivity. }
  unfold World.bind at 1.
  destruct (generate_diagram_outcome (strip raw) topic diagram_type None w2)
    as (r & w3 & -> & Hcases).
  destruct Hcases as [(b & _ & -> & _)|[(_ & img & _ & -> & _)
                                       |(_ & _ & (msg & ->) & _)]].
  - eexists _, _. split; [reflexivity|]. left. repeat split; reflexivity.
  - eexists _, _. split; [reflexivity|]. left. repeat split; reflexivity.
  - eexists _, _. split; [reflexivity|]. right. split; [reflexivity|].
    eexists. reflexivity.
Qed.

Lemma keeps_env_client : keeps_env get_gemini_client.
Proof. unfold get_gemini_client, GeminiClient.__init__. keeps_env. Qed.

Lemma keeps_env_code_processor : keeps_env get_code_processor.
Proof. unfold get_code_processor, CodeProcessor.__init__. keeps_env. Qed.

Lemma keeps_env_tts_client : keeps_env get_tts_client.
Proof. unfold get_tts_client, TextToSpeech.__init__. keeps_env. Qed.

Lemma keeps_env_image_generator : keeps_env get_image_generator.
Proof. unfold get_image_generator, ImageGenerator.__init__. keeps_env. Qed.

Lemma keeps_env_retry prompt :
  keeps_env (GeminiClient._retry_with_backoff (generate_content prompt)
               GeminiClient.max_retries_default).
Proof. apply keeps_env_retry_loop, keeps_env_generate_content. Qed.

Lemma keeps_env_handler h data : h ∈ handlers -> keeps_env (h data).
Proof.
  intros Hh. each_handler Hh; enter_handler;
    unfold generate_text_validated, generate_code_validated,
      generate_audio_validated, generate_image_validated,
      GeminiClient.generate_text_explanation,
      GeminiClient.generate_code_example,
      GeminiClient.generate_audio_script,
      GeminiClient.generate_image_prompt, on_error, as_dict, strip_of,
      attribute_error;
    repeat first
      [ apply keeps_env_client | apply keeps_env_retry
      | apply keeps_env_code_processor | apply keeps_env_tts_client
      | apply keeps_env_image_generator
      | apply keeps_env_save_code_file | apply keeps_env_text_to_speech
      | apply keeps_env_generate_diagram | keeps_env_step ].
Qed.

Lemma rejected_400 r : rejected r -> r.2 = 400.
Proof. intros [->| ->]; reflexivity. Qed.

(** The four kinds of request bodies. *)
Lemma handlers_cases (data : json) :
  (truthy data = false \/ exists d, data = JDict d /\ blank_topic d)
  \/ (truthy data = true /\ is_dict data = false)
  \/ (exists d v, data = JDict d /\ dict_get "topic" d = Some v
                  /\ is_str v = false)
  \/ (exists d topic, data = JDict d /\ valid_topic d topic).
Proof.
  destruct (truthy data) eqn:Ht; [|auto].
  destruct data as [| | | | |l|d]; try (right; left; split; reflexivity).
  destruct (dict_get "topic" d) as [v|] eqn:Hv.
  2:{ left. right. exists d. split; [reflexivity|]. left. exact Hv. }
  destruct v as [| | | |s| |];
    try solve [right; right; left; exists d; eexists;
               split; [reflexivity|split; [exact Hv|reflexivity]]].
  destruct (String.eqb_spec (strip s) "") as [Hs|Hs].
  - left. right. exists d. split; [reflexivity|]. right. eauto.
  - right. right. right. exists d, s. repeat split; assumption.
Qed.

Lemma handler_rejects h data w :
  h ∈ handlers ->
  (truthy data = false \/ exists d, data = JDict d /\ blank_topic d) ->
  exists r, h data w = (inr r, w) /\ rejected r.
Proof.
  intros Hh [Ht|(d & -> & Hb)].
  - eexists. split; [apply reject_no_data; assumption|left; reflexivity].
  - destruct d as [|kv d].
    + eexists. split; [apply reject_no_data; [assumption|reflexivity]|].
      left; reflexivity.
    + eexists. split; [apply reject_blank_topic; [assumption|reflexivity|assumption]|].
      right; reflexivity.
Qed.

(** X14. The four generating routes never raise, whatever the body of the
    request and whatever the services do: the reply is a validation error
    with status 400, exactly when the body is falsy or an object whose
    topic is missing or blank, and then nothing has happened; or one
    error message with status 500; or a success with status 200, only for
    an object with a topic that is a string, carrying [success: true] and
    the stripped topic.  The environment is the same afterwards. *)
Theorem handlers_total (h : json -> M reply) (data : json) (w : world) :
  h ∈ handlers ->
  exists r w',
    h data w = (inr r, w') /\ same_env w w'
    /\ (rejected r
        <-> truthy data = false \/ exists d, data = JDict d /\ blank_topic d)
    /\ ((rejected r /\ w' = w)
        \/ (r.2 = 500 /\ exists msg, r.1 = [("error", JStr msg)])
        \/ (r.2 = 200
            /\ exists d topic,
                 data = JDict d /\ valid_topic d topic
                 /\ dict_get "success" r.1 = Some (JBool true)
                 /\ dict_get "topic" r.1 = Some (JStr (strip topic)))).
Proof.
  intros Hh.
  assert (Henv : forall r w', h data w = (inr r, w') -> same_env w w').
  { intros r w' Hrun. eapply keeps_env_run; [|exact Hrun].
    apply keeps_env_handler, Hh. }
  destruct (handlers_cases data) as [Hbad|[[Ht Hd]|[(d & v & -> & Hv & Hs)|(d & topic & -> & Hv)]]].
  - destruct (handler_rejects h data w Hh Hbad) as (r & Hrun & Hr).
    exists r, w.
    split; [exact Hrun|]. split; [apply same_env_refl|].
    split; [split; auto|]. left. auto.
  - eexists _, w. split; [apply reject_not_dict; assumption|].
    split; [apply same_env_refl|]. split.
    + split; [intros H%rejected_400; discriminate H|].
      intros [H|(d & -> & _)]; [congruence|discriminate Hd].
    + right. left. split; [reflexivity|]. eexists. reflexivity.
  - eexists _, w. split; [eapply reject_topic_not_str; eassumption|].
    split; [apply same_env_refl|]. split.
    + split; [intros H%rejected_400; discriminate H|].
      intros [H|(d' & [= <-] & [Hb|(s & Hb & _)])].
      * rewrite (dict_get_truthy _ _ _ Hv) in H. discriminate H.
      * congruence.
      * rewrite Hv in Hb. injection Hb as ->. discriminate Hs.
    + right. left. split; [reflexivity|]. eexists. reflexivity.
  - assert (Hnot : ~ (truthy (JDict d) = false
                      \/ exists d', JDict d = JDict d' /\ blank_topic d')).
    { destruct Hv as [Hget Hs].
      intros [H|(d' & [= <-] & [Hb|(s & Hb & Hs')])].
      - rewrite (dict_get_truthy _ _ _ Hget) in H. discriminate H.
      - congruence.
      - rewrite Hget in Hb. injection Hb as ->. contradiction. }
    destruct (handler_valid h d topic w Hh Hv) as (c & Hrun & Hc).
    assert (Hreply : exists r w',
              try_with c on_error w = (inr r, w')
              /\ success_or_500 r (strip topic)).
    { destruct Hc as [->|[->|[->| ->]]].
      - apply text_validated_reply.
      - apply code_validated_reply.
      - apply audio_validated_reply.
      - apply image_validated_reply. }
    destruct Hreply as (r & w' & Hr & Hok). rewrite Hr in Hrun.
    exists r, w'. split; [exact Hrun|]. split; [eapply Henv, Hrun|].
    destruct Hok as [(H200 & Hsucc & Htopic)|(H500 & Hmsg)].
    + split.
      * split; [intros H%rejected_400; congruence|intros H; destruct (Hnot H)].
      * right. right. split; [exact H200|]. exists d, topic. auto.
    + split.
      * split; [intros H%rejected_400; congruence|intros H; destruct (Hnot H)].
      * right. left. auto.
Qed.

Lemma handlers_total_witness :
  exists r w',
    api_generate_image (request "svm") world0 = (inr r, w')
    /\ same_env world0 w' /\ ~ rejected r.
Proof.
  assert (Hh : api_generate_image ∈ handlers)
    by (unfold handlers; rewrite !elem_of_cons; auto 10).
  destruct (handlers_total api_generate_image (request "svm") world0 Hh)
    as (r & w' & Hrun & Henv & Hiff & _).
  exists r, w'. split; [exact Hrun|]. split; [exact Henv|].
  intros [H|(d & [= <-] & [H|(s & [= <-] & H)])]%Hiff; discriminate H.
Defined.

(** X15. Without an API key in the environment (not set, or empty), so
    that no client can have been created and kept by an earlier request,
    every generating route answers a validated request with status 500
    and the message of the client's constructor, and nothing else happens:
    the model is not called, no file is written. *)
Theorem missing_api_key (h : json -> M reply) (d : pydict) (topic : string)
    (w : world) :
  h ∈ handlers -> valid_topic d topic -> ~ has_key w ->
  h (JDict d) w = (inr (error_reply no_key_message 500), w).
Proof.
  intros Hh Hv Hk.
  assert (Hclient : get_gemini_client w
                    = (inl (Exception no_key_message), w)).
  { unfold get_gemini_client, GeminiClient.__init__, World.bind, ask.
    destruct (api_key w) as [[|c k]|] eqn:Hkey; try reflexivity.
    destruct Hk. exists (String c k). split; [exact Hkey|discriminate]. }
  destruct (handler_valid h d topic w Hh Hv) as (c & -> & Hc).
  destruct Hc as [->|[->|[->| ->]]];
    unfold try_with, generate_text_validated, generate_code_validated,
      generate_audio_validated, generate_image_validated, World.bind at 1;
    rewrite Hclient; reflexivity.
Qed.

Lemma missing_api_key_witness :
  api_generate_code (request "svm") world_no_key
  = (inr (error_reply no_key_message 500), world_no_key).
Proof.
  apply (missing_api_key api_generate_code [("topic", JStr "svm")] "svm").
  - unfold handlers. rewrite !elem_of_cons. auto.
  - split; [reflexivity|]. vm_compute. discriminate.
  - intros (k & Hk & _). discriminate Hk.
Defined.

End Validation.


Section Upstream.
Import Py World Json App GeminiClient Request Routes Retry Env Examples
  Scenario.
Local Open Scope py_scope.

Lemma client_ready w : has_key w -> get_gemini_client w = (inr tt, w).
Proof.
  intros (k & Hk & Hne). unfold get_gemini_client, __init__, World.bind, ask.
  rewrite Hk. destruct k; [contradiction|reflexivity].
Qed.


(** The three ways the retried model call ends. *)
Lemma retry_decided prompt k w :
  throttled w prompt k ->
  match outcome w prompt k with
  | inl e => is_rate_limit e = false
  | inr _ => True
  end ->
  _retry_with_backoff (generate_content prompt) max_retries_default w
  = (outcome w prompt k, after_calls w (k + 1) (waits k)).
Proof.
  intros [Hlt Hk] Hout. unfold _retry_with_backoff, max_retries_default.
  replace 3 with (k + S (3 - S k)) by lia.
  rewrite seq_app. cbn [seq]. rewrite (retry_loop_prefix _ _ _ _ _ Hk).
  rewrite retry_loop_final.
  - rewrite outcome_after, Nat.add_0_r, after_calls_after, app_nil_r.
    reflexivity.
  - rewrite outcome_after, Nat.add_0_r. exact Hout.
Qed.

Lemma retry_answers prompt k raw w :
  answers_after w prompt k raw ->
  _retry_with_backoff (generate_content prompt) max_retries_default w
  = (inr raw, after_calls w (k + 1) (waits k)).
Proof.
  intros [Hk Hout]. rewrite (retry_decided prompt k w Hk); rewrite Hout;
    [reflexivity|exact I].
Qed.









End Upstream.

Section ModelFacts.
Import Py World Json Env.
Context {A B : Type}.

Lemma keeps_model_ret (a : A) : keeps_model (ret a).
Proof. intros w. split; reflexivity. Qed.

Lemma keeps_model_raise e : keeps_model (@raise A e).
Proof. intros w. split; reflexivity. Qed.

Lemma keeps_model_lift (r : exn + A) : keeps_model (lift r).
Proof. intros w. split; reflexivity. Qed.

Lemma keeps_model_ask (f : world -> A) : keeps_model (ask f).
Proof. intros w. split; reflexivity. Qed.

Lemma keeps_model_bind (c : M A) (k : A -> M B) :
  keeps_model c -> (forall a, keeps_model (k a)) -> keeps_model (World.bind c k).
Proof.
  intros Hc Hk w. unfold World.bind. specialize (Hc w).
  destruct (c w) as [[e|a] w1]; cbn [snd] in *; [exact Hc|].
  destruct (Hk a w1) as [H1 H2]. destruct Hc as [H3 H4].
  split; congruence.
Qed.

Lemma keeps_model_try_with (c : M A) (h : exn -> M A) :
  keeps_model c -> (forall e, keeps_model (h e)) -> keeps_model (try_with c h).
Proof.
  intros Hc Hh w. unfold try_with. specialize (Hc w).
  destruct (c w) as [[e|a] w1]; cbn [snd] in *; [|exact Hc].
  destruct (Hh e w1) as [H1 H2]. destruct Hc as [H3 H4].
  split; congruence.
Qed.

End ModelFacts.

Section ModelPrimitives.
Import Py World Json Env.

Lemma keeps_model_now : keeps_model now.
Proof. intros w. split; reflexivity. Qed.

Lemma keeps_model_print s : keeps_model (print s).
Proof. intros w. split; reflexivity. Qed.

Lemma keeps_model_write_file p c : keeps_model (write_file p c).
Proof. intros w. unfold write_file. destruct (open_error w p); split; reflexivity. Qed.

Lemma keeps_model_makedirs p : keeps_model (makedirs p).
Proof. intros w. unfold makedirs. destruct (makedirs_error w p); split; reflexivity. Qed.

End ModelPrimitives.

Ltac keeps_model_step :=
  first
    [ assumption | apply keeps_model_ret | apply keeps_model_raise
    | apply keeps_model_lift | apply keeps_model_ask | apply keeps_model_now
    | apply keeps_model_print | apply keeps_model_write_file
    | apply keeps_model_makedirs
    | apply keeps_model_bind | apply keeps_model_try_with
    | match goal with
      | |- Env.keeps_model (if ?b then _ else _) => destruct b
      | |- Env.keeps_model (match ?x with _ => _ end) => destruct x
      | |- forall _, _ => intro
      end ].

Ltac keeps_model := repeat keeps_model_step.

Section Pipelines.
Import Py World Json App GeminiClient CodeProcessor TextToSpeech
  ImageGenerator Request Routes Retry Env Examples Scenario Saving Report
  Outcome.
Local Open Scope py_scope.

Lemma keeps_model_save_code_file code topic filename :
  keeps_model (save_code_file code topic filename).
Proof. unfold save_code_file. keeps_model. Qed.

Lemma keeps_model_text_to_speech text filename language slow :
  keeps_model (text_to_speech text filename language slow).
Proof. unfold text_to_speech. keeps_model. Qed.

Lemma keeps_model_generate_diagram prompt topic diagram_type filename :
  keeps_model (generate_diagram prompt topic diagram_type filename).
Proof.
  unfold generate_diagram, primary, _create_placeholder_image. keeps_model.
Qed.

Lemma keeps_model_run {A} (c : M A) w r w' :
  keeps_model c -> c w = (r, w') ->
  model_calls w' = model_calls w /\ slept w' = slept w.
Proof. intros H Hrun. specialize (H w). rewrite Hrun in H. exact H. Qed.

(** X18. The code route, end to end.  For a validated request with an API
    key set, when the model answers after [k] rate-limit failures the model
    has been called [k + 1] times, and the code processor is created.  When
    its output directory cannot be made the reply is 500 with the message
    of that error and no file is written.  Otherwise the reply is 200: the
    code is the answer with its Markdown fence removed, the report and the
    counts are those of that code; the code is saved under the name derived
    from the stripped topic and the download link points to it; when the
    file cannot be opened the reply is still 200, with [download_url] null
    and no file written. *)
Theorem api_generate_code_spec (d : pydict) (topic raw : string) (k : nat)
    (w : world) :
  valid_topic d topic -> has_key w ->
  let t := strip topic in
  let complexity := code_route_complexity d in
  answers_after w (code_prompt t complexity) k raw ->
  let code := clean_code raw in
  let name := code_filename t None w in
  let path := path_join (code_dir w) name in
  exists r w',
    api_generate_code (JDict d) w = (inr r, w')
    /\ model_calls w' = model_calls w + (k + 1)
    /\ slept w' = (slept w ++ waits k)%list
    /\ (forall msg, makedirs_error w (code_dir w) = Some msg ->
          r = error_reply msg 500 /\ fs w' = fs w)
    /\ (makedirs_error w (code_dir w) = None ->
        exists body,
          r = (body, 200)
          /\ dict_get "success" body = Some (JBool true)
          /\ dict_get "topic" body = Some (JStr t)
          /\ dict_get "complexity" body = Some (JStr complexity)
          /\ dict_get "code" body = Some (JStr code)
          /\ dict_get "dependencies" body
             = Some (JDict (detect_dependencies code))
          /\ dict_get "colab_setup" body
             = Some (JStr (_generate_colab_setup (packages_of code)))
          /\ dict_get "local_setup" body
             = Some (JStr (_generate_local_setup (packages_of code)))
          /\ dict_get "line_count" body
             = Some (JInt (Z.of_nat (S (count_newlines code))))
          /\ match open_error w path with
             | None =>
                 dict_get "download_url" body
                   = Some (JStr ("/static/generated/code/" ++ name))
                 /\ fs w'
                    = <[path := header t (clock w (S (ticks w))) ++ code]>
                        (fs w)
             | Some _ =>
                 dict_get "download_url" body = Some JNull /\ fs w' = fs w
             end).
Proof.
  intros Hv Hkey%client_ready t complexity Ha code name path.
  rewrite (api_generate_code_valid d topic w Hv).
  fold (code_route_complexity d). fold t. fold complexity.
  unfold try_with, generate_code_validated, World.bind at 1.
  rewrite Hkey. unfold World.bind at 1, generate_code_example. cbv zeta.
  unfold World.bind at 1. rewrite (retry_answers _ _ _ _ Ha).
  set (w1 := after_calls w (k + 1) (waits k)).
  unfold ret at 1. lookup. fold code. unfold World.bind at 1.
  rewrite get_code_processor_run.
  change (makedirs_error w1 (code_dir w1))
    with (makedirs_error w (code_dir w)).
  destruct (makedirs_error w (code_dir w)) as [msg|].
  { unfold on_error, ret. eexists _, w1. split; [reflexivity|].
    split; [reflexivity|]. split; [reflexivity|].
    split; [intros ? [= <-]; split; reflexivity|discriminate]. }
  unfold World.bind at 1.
  rewrite format_code_response_fields.
  destruct (save_code_file_run code t None w1) as (w2 & _ & _ & H).
  change (code_filename t None w1) with name in H.
  change (code_dir w1) with (code_dir w) in H. fold path in H.
  change (open_error w1) with (open_error w) in H.
  change (fs w1) with (fs w) in H.
  change (header_time None w1) with (clock w (S (ticks w))) in H.
  assert (Hm : forall r, save_code_file code t None w1 = (inr r, w2) ->
                 model_calls w2 = model_calls w + (k + 1)
                 /\ slept w2 = (slept w ++ waits k)%list).
  { intros r Hrun.
    apply (keeps_model_run _ _ _ _ (keeps_model_save_code_file _ _ _) Hrun). }
  destruct (open_error w path) as [msg|]; destruct H as [Hrun Hfs];
    destruct (Hm _ Hrun) as [Hcalls Hslept]; rewrite Hrun;
    unfold code_saved, failure_result; lookup;
    eexists _, w2; (split; [reflexivity|]);
    (split; [exact Hcalls|]); (split; [exact Hslept|]);
    (split; [discriminate|]); intros _; eexists; (split; [reflexivity|]);
    repeat (split; [reflexivity|]); exact Hfs.
Qed.

Lemma api_generate_code_witness :
  (exists body w',
     api_generate_code (request "numpy") world_coder = (inr (body, 200), w')
     /\ dict_get "code" body
        = Some (JStr ("import numpy as np" ++ nl ++ "print(np.pi)"))
     /\ dict_get "line_count" body = Some (JInt 2)
     /\ dict_get "download_url" body
        = Some (JStr "/static/generated/code/numpy_20261103_090500.py"))
  /\ (exists w',
        api_generate_code (request "numpy") world_no_dirs
        = (inr (error_reply "[Errno 13] Permission denied: 'static'" 500), w')
        /\ fs w' = fs world_no_dirs).
Proof.
  assert (Hv : valid_topic [("topic", JStr "numpy")] "numpy").
  { split; [reflexivity|]. vm_compute. discriminate. }
  split.
  - assert (Hk : has_key world_coder).
    { exists "key". split; [reflexivity|discriminate]. }
    destruct (api_generate_code_spec [("topic", JStr "numpy")] "numpy"
                ("```python" ++ nl ++ "import numpy as np" ++ nl
                 ++ "print(np.pi)" ++ nl ++ "```") 0 world_coder Hv Hk)
      as (r & w' & Hrun & _ & _ & _ & Hok).
    { split; [split; [lia|intros i Hi; lia]|reflexivity]. }
    destruct (Hok eq_refl)
      as (body & -> & _ & _ & _ & Hcode & _ & _ & _ & Hlines & Hfile).
    exists body, w'. split; [exact Hrun|].
    split; [exact Hcode|]. split; [exact Hlines|].
    match type of Hfile with
    | match ?o with _ => _ end =>
        assert (Ho : o = None) by (vm_compute; reflexivity);
        rewrite Ho in Hfile
    end.
    apply Hfile.
  - assert (Hk : has_key world_no_dirs).
    { exists "key". split; [reflexivity|discriminate]. }
    destruct (api_generate_code_spec [("topic", JStr "numpy")] "numpy"
                "ok" 0 world_no_dirs Hv Hk)
      as (r & w' & Hrun & _ & _ & Hbad & _).
    { split; [split; [lia|intros i Hi; lia]|reflexivity]. }
    destruct (Hbad _ eq_refl) as [-> Hfs].
    exists w'. split; [exact Hrun|exact Hfs].
Defined.

(** The audio route once the script is there. *)
Lemma api_generate_audio_run (d : pydict) (topic raw : string) (k : nat)
    (w : world) :
  valid_topic d topic -> has_key w ->
  let t := strip topic in
  answers_after w (audio_prompt t) k raw ->
  let script := strip raw in
  let name := audio_filename None w in
  let path := path_join (audio_dir w) name in
  let words := length (split_ws script) in
  exists r w',
    api_generate_audio (JDict d) w = (inr r, w')
    /\ model_calls w' = model_calls w + (k + 1)
    /\ slept w' = (slept w ++ waits k)%list
    /\ match makedirs_error w (audio_dir w) with
       | Some msg => r = error_reply msg 500 /\ fs w' = fs w
       | None =>
           match gtts w script "en" false with
           | inl e =>
               match gtts_partial w script "en" false, open_error w path with
               | Some written, None =>
                   r = error_reply ("TTS failed: " ++ str_exn e) 500
                   /\ fs w' = <[path := written]> (fs w)
               | Some written, Some msg =>
                   r = error_reply ("TTS failed: " ++ msg) 500
                   /\ fs w' = fs w
               | None, _ =>
                   r = error_reply ("TTS failed: " ++ str_exn e) 500
                   /\ fs w' = fs w
               end
           | inr audio =>
               match open_error w path with
               | Some msg =>
                   r = error_reply ("TTS failed: " ++ msg) 500
                   /\ fs w' = fs w
               | None =>
                   r = ([ ("success", JBool true);
                          ("topic", JStr t);
                          ("script", JStr script);
                          ("audio_url",
                            JStr ("/static/generated/audio/" ++ name));
                          ("filename", JStr name);
                          ("word_count", JInt (Z.of_nat words));
                          ("estimated_duration",
                            JFloat (PyFloat.round1
                                      (PyFloat.truediv words 150))) ],
                        200)
                   /\ fs w' = <[path := audio]> (fs w)
               end
           end
       end.
Proof.
  intros Hv Hkey%client_ready t Ha script name path words.
  rewrite (api_generate_audio_valid d topic w Hv). fold t.
  unfold try_with, generate_audio_validated, World.bind at 1.
  rewrite Hkey. unfold World.bind at 1, generate_audio_script. cbv zeta.
  unfold World.bind at 1. rewrite (retry_answers _ _ _ _ Ha).
  set (w1 := after_calls w (k + 1) (waits k)).
  unfold ret at 1. lookup. fold script. unfold World.bind at 1.
  rewrite get_tts_client_run.
  change (makedirs_error w1 (audio_dir w1))
    with (makedirs_error w (audio_dir w)).
  destruct (makedirs_error w (audio_dir w)) as [msg|].
  { unfold on_error, ret. eexists _, w1. split; [reflexivity|].
    split; [reflexivity|]. split; [reflexivity|]. split; reflexivity. }
  unfold World.bind at 1.
  destruct (text_to_speech_run script None "en" false w1) as [w2 H].
  change (audio_filename None w1) with name in H.
  change (audio_dir w1) with (audio_dir w) in H. fold path in H.
  change (gtts w1) with (gtts w) in H.
  change (gtts_partial w1) with (gtts_partial w) in H.
  change (open_error w1) with (open_error w) in H.
  change (fs w1) with (fs w) in H. fold words in H.
  assert (Hm : forall r, text_to_speech script None "en" false w1 = (inr r, w2) ->
                 model_calls w2 = model_calls w + (k + 1)
                 /\ slept w2 = (slept w ++ waits k)%list).
  { intros r Hrun.
    apply (keeps_model_run _ _ _ _ (keeps_model_text_to_speech _ _ _ _) Hrun). }
  destruct (gtts w script "en" false) as [e|audio].
  { destruct (gtts_partial w script "en" false) as [written|];
      [destruct (open_error w path) as [msg|]|];
      destruct H as [Hrun Hfs]; destruct (Hm _ Hrun) as [Hcalls Hslept];
      rewrite Hrun; unfold failure_result; lookup;
      eexists _, w2; (split; [reflexivity|]); (split; [exact Hcalls|]);
      (split; [exact Hslept|]); (split; [reflexivity|exact Hfs]). }
  destruct (open_error w path) as [msg|]; destruct H as [Hrun Hfs];
    destruct (Hm _ Hrun) as [Hcalls Hslept]; rewrite Hrun;
    unfold audio_saved, failure_result; lookup;
    eexists _, w2; (split; [reflexivity|]); (split; [exact Hcalls|]);
    (split; [exact Hslept|]); (split; [reflexivity|exact Hfs]).
Qed.

(** X19. The audio route, end to end.  For a validated request with an
    API key set, when the model answers after [k] rate-limit failures the
    model has been called [k + 1] times, and the speech helper is created.
    When its output directory cannot be made the reply is 500 with the
    message of that error and no file is written.  Otherwise the stripped
    answer is the script that is spoken, in English at normal speed.  When
    the synthesis succeeds and the file can be opened the reply is 200 with
    the script, the link to the saved file, the number of words of the
    script and the estimate of its duration, and the file holds the audio.
    When only the synthesis fails the reply is 500 [TTS failed:] with its
    message; when the speech is synthesized and the file cannot be opened
    the reply is 500 [TTS failed:] with the message of that error, and no
    file is written.  With the helper created the reply is never anything
    else than that success or a [TTS failed:] error. *)
Theorem api_generate_audio_spec (d : pydict) (topic raw : string) (k : nat)
    (w : world) :
  valid_topic d topic -> has_key w ->
  let t := strip topic in
  answers_after w (audio_prompt t) k raw ->
  let script := strip raw in
  let name := audio_filename None w in
  let path := path_join (audio_dir w) name in
  let words := length (split_ws script) in
  exists r w',
    api_generate_audio (JDict d) w = (inr r, w')
    /\ model_calls w' = model_calls w + (k + 1)
    /\ slept w' = (slept w ++ waits k)%list
    /\ (forall msg, makedirs_error w (audio_dir w) = Some msg ->
          r = error_reply msg 500 /\ fs w' = fs w)
    /\ (makedirs_error w (audio_dir w) = None ->
        (forall audio,
           gtts w script "en" false = inr audio ->
           open_error w path = None ->
           r = ([ ("success", JBool true);
                  ("topic", JStr t);
                  ("script", JStr script);
                  ("audio_url", JStr ("/static/generated/audio/" ++ name));
                  ("filename", JStr name);
                  ("word_count", JInt (Z.of_nat words));
                  ("estimated_duration",
                    JFloat (PyFloat.round1 (PyFloat.truediv words 150))) ],
                200)
           /\ fs w' = <[path := audio]> (fs w))
        /\ (forall e,
              gtts w script "en" false = inl e ->
              open_error w path = None ->
              r = error_reply ("TTS failed: " ++ str_exn e) 500)
        /\ (forall audio msg,
              gtts w script "en" false = inr audio ->
              open_error w path = Some msg ->
              r = error_reply ("TTS failed: " ++ msg) 500 /\ fs w' = fs w)
        /\ (r.2 = 200
            \/ exists msg, r = error_reply ("TTS failed: " ++ msg) 500)).
Proof.
  intros Hv Hkey t Ha script name path words.
  destruct (api_generate_audio_run d topic raw k w Hv Hkey Ha)
    as (r & w' & Hrun & Hcalls & Hslept & H).
  fold t in H. fold script in H. fold name in H. fold path in H.
  fold words in H.
  exists r, w'. split; [exact Hrun|]. split; [exact Hcalls|].
  split; [exact Hslept|].
  destruct (makedirs_error w (audio_dir w)) as [bad|].
  { split; [intros ? [= <-]; exact H|discriminate]. }
  split; [discriminate|]. intros _.
  destruct (gtts w script "en" false) as [e|audio].
  - split; [discriminate|].
    destruct (gtts_partial w script "en" false) as [written|];
      [destruct (open_error w path) as [msg|]|]; destruct H as [-> _].
    + split; [discriminate|]. split; [discriminate|].
      right. eexists. reflexivity.
    + split; [intros ? [= <-] _; reflexivity|]. split; [discriminate|].
      right. eexists. reflexivity.
    + split; [intros ? [= <-] _; reflexivity|]. split; [discriminate|].
      right. eexists. reflexivity.
  - destruct (open_error w path) as [msg|]; destruct H as [-> Hfs].
    + split; [discriminate|]. split; [discriminate|].
      split; [intros ? ? _ [= <-]; auto|]. right. eexists. reflexivity.
    + split; [intros ? [= <-] _; auto|]. split; [discriminate|].
      split; [discriminate|]. left. reflexivity.
Qed.

Lemma api_generate_audio_witness :
  (exists w',
     api_generate_audio (request "svm") world_mute
     = (inr (error_reply "TTS failed: Failed to connect" 500), w'))
  /\ (exists w',
        api_generate_audio (request "svm") world_no_dirs
        = (inr (error_reply "[Errno 13] Permission denied: 'static'" 500), w')
        /\ fs w' = fs world_no_dirs).
Proof.
  assert (Hv : valid_topic [("topic", JStr "svm")] "svm").
  { split; [reflexivity|]. vm_compute. discriminate. }
  split.
  - assert (Hk : has_key world_mute).
    { exists "key". split; [reflexivity|discriminate]. }
    destruct (api_generate_audio_spec [("topic", JStr "svm")] "svm" "ok" 0
                world_mute Hv Hk) as (r & w' & Hrun & _ & _ & _ & Hok).
    { split; [split; [lia|intros i Hi; lia]|reflexivity]. }
    destruct (Hok eq_refl) as (_ & Hr & _).
    exists w'. unfold request. rewrite Hrun.
    rewrite (Hr (Exception "Failed to connect")); reflexivity.
  - assert (Hk : has_key world_no_dirs).
    { exists "key". split; [reflexivity|discriminate]. }
    destruct (api_generate_audio_spec [("topic", JStr "svm")] "svm" "ok" 0
                world_no_dirs Hv Hk) as (r & w' & Hrun & _ & _ & Hbad & _).
    { split; [split; [lia|intros i Hi; lia]|reflexivity]. }
    destruct (Hbad _ eq_refl) as [-> Hfs].
    exists w'. split; [exact Hrun|exact Hfs].
Defined.

(** X20. The image route, end to end.  For a validated request with an
    API key set, when the model answers after [k] rate-limit failures the
    model has been called [k + 1] times, and the image generator is
    created.  When its output directory cannot be made the reply is 500
    with the message of that error and no file is written.  Otherwise the
    stripped answer is the prompt of the diagram, and the reply is 200 with
    method [gemini] when the primary path completes, 200 with method
    [placeholder] when it does not and the placeholder is drawn and saved,
    each with the link to the file written, and 500
    [Image generation failed: Failed to create placeholder:] with the
    message otherwise, no file written.  The diagram type in the reply
    and in the file name is the recognized one of the request, or
    [architecture]. *)
Theorem api_generate_image_spec (d : pydict) (topic raw : string) (k : nat)
    (w : world) :
  valid_topic d topic -> has_key w ->
  let t := strip topic in
  let type := image_route_type d in
  answers_after w (image_prompt_prompt t type) k raw ->
  let prompt := strip raw in
  let name := derived_filename t type (clock w (ticks w)) in
  let path := path_join (image_dir w) name in
  let ok (method : string) : reply :=
    ([ ("success", JBool true);
       ("topic", JStr t);
       ("diagram_type", JStr type);
       ("image_url", JStr ("/static/generated/images/" ++ name));
       ("filename", JStr name);
       ("method", JStr method);
       ("prompt", JStr prompt) ], 200) in
  type ∈ diagram_types
  /\ exists r w',
    api_generate_image (JDict d) w = (inr r, w')
    /\ model_calls w' = model_calls w + (k + 1)
    /\ slept w' = (slept w ++ waits k)%list
    /\ (forall msg, makedirs_error w (image_dir w) = Some msg ->
          r = error_reply msg 500 /\ fs w' = fs w)
    /\ (makedirs_error w (image_dir w) = None ->
        (exists bytes,
           primary_completes w prompt path bytes
           /\ r = ok "gemini" /\ fs w' = <[path := bytes]> (fs w))
        \/ ((forall bytes, ~ primary_completes w prompt path bytes)
            /\ exists img,
                 fallback_completes w t type path img
                 /\ r = ok "placeholder" /\ fs w' = <[path := img]> (fs w))
        \/ ((forall bytes, ~ primary_completes w prompt path bytes)
            /\ (forall img, ~ fallback_completes w t type path img)
            /\ (exists msg,
                  r = error_reply
                        ("Image generation failed: Failed to create placeholder: "
                         ++ msg) 500)
            /\ fs w' = fs w)).
Proof.
  intros Hv Hkey%client_ready t type Ha prompt name path ok.
  split; [apply normalize_diagram_type|].
  rewrite (api_generate_image_valid d topic w Hv).
  fold (image_route_type d). fold t. fold type.
  unfold try_with, generate_image_validated, World.bind at 1.
  rewrite Hkey. unfold World.bind at 1, generate_image_prompt. cbv zeta.
  unfold World.bind at 1. rewrite (retry_answers _ _ _ _ Ha).
  set (w1 := after_calls w (k + 1) (waits k)).
  unfold ret at 1. lookup. fold prompt. unfold World.bind at 1.
  rewrite get_image_generator_run.
  change (makedirs_error w1 (image_dir w1))
    with (makedirs_error w (image_dir w)).
  destruct (makedirs_error w (image_dir w)) as [bad|].
  { unfold on_error, ret. eexists _, w1. split; [reflexivity|].
    split; [reflexivity|]. split; [reflexivity|].
    split; [intros ? [= <-]; split; reflexivity|discriminate]. }
  unfold World.bind at 1.
  destruct (generate_diagram_outcome prompt t type None w1)
    as (r & w2 & Hrun & H).
  change (diagram_filename t type None w1) with name in H.
  change (image_dir w1) with (image_dir w) in H. fold path in H.
  change (fs w1) with (fs w) in H.
  change (primary_completes w1) with (primary_completes w) in H.
  change (fallback_completes w1) with (fallback_completes w) in H.
  destruct (keeps_model_run _ _ _ _
              (keeps_model_generate_diagram _ _ _ _) Hrun) as [Hcalls Hslept].
  change (model_calls w1) with (model_calls w + (k + 1)) in Hcalls.
  change (slept w1) with (slept w ++ waits k)%list in Hslept.
  rewrite Hrun.
  destruct H as [(bytes & Hp & -> & Hfs)|[(Hnp & img & Hf & -> & Hfs)
                                         |(Hnp & Hnf & (msg & ->) & Hfs)]];
    unfold image_result, placeholder_result, failure_result; lookup;
    eexists _, w2; (split; [reflexivity|]); (split; [exact Hcalls|]);
    (split; [exact Hslept|]); (split; [discriminate|]); intros _.
  - left. exists bytes. split; [exact Hp|]. split; [reflexivity|exact Hfs].
  - right. left. split; [exact Hnp|]. exists img.
    split; [exact Hf|]. split; [reflexivity|exact Hfs].
  - right. right. split; [exact Hnp|]. split; [exact Hnf|].
    split; [exists msg; reflexivity|exact Hfs].
Qed.

Lemma api_generate_image_witness :
  (exists r w',
     api_generate_image (request "svm") world_blind = (inr r, w')
     /\ r = error_reply
              "Image generation failed: Failed to create placeholder: cannot draw"
              500
     /\ fs w' = fs world_blind)
  /\ (exists w',
        api_generate_image (request "svm") world_no_dirs
        = (inr (error_reply "[Errno 13] Permission denied: 'static'" 500), w')
        /\ fs w' = fs world_no_dirs).
Proof.
  assert (Hv : valid_topic [("topic", JStr "svm")] "svm").
  { split; [reflexivity|]. vm_compute. discriminate. }
  split.
  - assert (Hk : has_key world_blind).
    { exists "key". split; [reflexivity|discriminate]. }
    destruct (api_generate_image_spec [("topic", JStr "svm")] "svm" "ok" 0
                world_blind Hv Hk) as (_ & r & w' & Hrun & _ & _ & _ & Hok).
    { split; [split; [lia|intros i Hi; lia]|reflexivity]. }
    exists r, w'. split; [exact Hrun|].
    destruct (Hok eq_refl)
      as [(b & (?&?&?&?&Hm&_) & _)|[(_ & img & [Hf _] & _)
                                   |(_ & _ & (msg & Hmsg) & Hfs)]].
    + discriminate Hm.
    + discriminate Hf.
    + split; [|exact Hfs]. rewrite Hmsg in Hrun |- *.
      vm_compute in Hrun. injection Hrun as Hrun _.
      rewrite <- Hrun. reflexivity.
  - assert (Hk : has_key world_no_dirs).
    { exists "key". split; [reflexivity|discriminate]. }
    destruct (api_generate_image_spec [("topic", JStr "svm")] "svm" "ok" 0
                world_no_dirs Hv Hk)
      as (_ & r & w' & Hrun & _ & _ & Hbad & _).
    { split; [split; [lia|intros i Hi; lia]|reflexivity]. }
    destruct (Hbad _ eq_refl) as [-> Hfs].
    exists w'. split; [exact Hrun|exact Hfs].
Defined.

End Pipelines.

Section Collisions.
Import Py World Json CodeProcessor Outcome Saving Env Examples Scenario.

(** A save under a derived name that can be written, with the world it
    leaves: the clock has been read twice. *)
Lemma save_code_file_written (code topic : string) (w : world) :
  let name := code_filename topic None w in
  let path := path_join (code_dir w) name in
  open_error w path = None ->
  save_code_file code topic None w
  = (inr (code_saved path name),
     upd w (S (S (ticks w))) (model_calls w) (slept w) (stdout w)
       (<[path := header topic (clock w (S (ticks w))) ++ code]> (fs w))).
Proof.
  intros name path. unfold path, name, code_filename, with_extension.
  intros Ho. unfold save_code_file. run. cbn [no_filename] in Ho.
  rewrite Ho. run. reflexivity.
Qed.

(** X21. Derived file names have the resolution of one second and keep
    only the sanitized first 30 characters of the topic.  When two
    programs are saved without a file name, for topics that are sanitized
    to the same text, and the clock shows the same second at both calls,
    the two saves get the same name and the same path: after the second
    save the file holds the second program, and the first one is gone. *)
Theorem save_code_file_collision (code1 code2 topic1 topic2 : string)
    (w : world) :
  let name := code_filename topic1 None w in
  let path := path_join (code_dir w) name in
  safe_topic topic1 = safe_topic topic2 ->
  strftime_compact (clock w (S (S (ticks w))))
    = strftime_compact (clock w (ticks w)) ->
  open_error w path = None ->
  exists w1 w2,
    save_code_file code1 topic1 None w = (inr (code_saved path name), w1)
    /\ save_code_file code2 topic2 None w1 = (inr (code_saved path name), w2)
    /\ fs w1 !! path
       = Some (header topic1 (clock w (S (ticks w))) ++ code1)
    /\ fs w2
       = <[path := header topic2 (clock w (S (S (S (ticks w))))) ++ code2]>
           (fs w).
Proof.
  intros name path Htopic Hclock Ho.
  pose proof (save_code_file_written code1 topic1 w Ho) as H1.
  fold name in H1. fold path in H1.
  set (w1 := upd w (S (S (ticks w))) (model_calls w) (slept w) (stdout w)
               (<[path := header topic1 (clock w (S (ticks w))) ++ code1]>
                  (fs w))) in *.
  assert (Hname : code_filename topic2 None w1 = name).
  { unfold name, code_filename. cbn [no_filename].
    change (clock w1 (ticks w1)) with (clock w (S (S (ticks w)))).
    rewrite Hclock, Htopic. reflexivity. }
  assert (Ho2 : open_error w1
                  (path_join (code_dir w1) (code_filename topic2 None w1))
                = None).
  { rewrite Hname. exact Ho. }
  pose proof (save_code_file_written code2 topic2 w1 Ho2) as H2.
  rewrite Hname in H2.
  change (code_dir w1) with (code_dir w) in H2. fold path in H2.
  eexists w1, _. split; [exact H1|]. split; [exact H2|].
  split; [apply lookup_insert_eq|].
  cbn [fs upd w1]. apply insert_insert_eq.
Qed.

Lemma save_code_file_collision_witness :
  exists w1 w2 r,
    save_code_file "print(1)" "a b" None world0 = (inr r, w1)
    /\ save_code_file "print(2)" "a_b" None w1 = (inr r, w2)
    /\ dict_get "filename" r = Some (JStr "a_b_20261103_090500.py")
    /\ fs w2 !! "static/generated/code/a_b_20261103_090500.py"
       = Some (header "a_b" t0 ++ "print(2)").
Proof.
  destruct (save_code_file_collision "print(1)" "print(2)" "a b" "a_b" world0)
    as (w1 & w2 & H1 & H2 & _ & Hfs); [reflexivity..|].
  exists w1, w2. eexists. split; [exact H1|]. split; [exact H2|].
  split; [reflexivity|]. rewrite Hfs. apply lookup_insert_eq.
Defined.

End Collisions.
